(** * docugen: orchestration layer of the document / slide-deck generator

    A shallow embedding of the parts of the repository that the
    specification talks about:

    - [src/agents/ppt/multi_slide_generator.py]  (module [MultiSlide])
    - [src/agents/ppt/design_coordinator.py]     (module [Design])
    - [src/agents/ppt/page_agent.py]             (module [Page])
    - [src/llm/client.py], structured fallback   (module [Gateway])
    - [backend/tasks.py]                         (module [Tasks])

    Python text is modelled as [string] (a character outside ASCII is
    the sequence of its UTF-8 bytes, and white space is the ASCII white
    space), dictionaries with a fixed set of optional keys as records
    with [option] fields, exceptions as values of [exn] carried by
    [Result], the file system as a [gmap] from paths to file contents.
    Library functions the repository calls but does not define
    ([json.loads], [json.dumps], the template engine, the model
    provider) are parameters of the definitions. *)

From Stdlib Require Import String Ascii List Arith Lia Bool.
From Stdlib Require Import DecimalString Decimal DecimalNat.
From Stdlib Require Import QArith.
From stdpp Require Import base option gmap strings list.

Local Open Scope string_scope.

(** ** Python runtime: exceptions and text *)

Module Py.

(** An exception, an instance of [Exception]: the name of its class and
    the text that [str(e)] returns. *)
Record exn : Type := Exn { exn_class : string; exn_str : string }.

Inductive Result (A : Type) : Type :=
| Ok (a : A)
| Raise (e : exn).
Arguments Ok {A} a.
Arguments Raise {A} e.

Definition rbind {A B} (r : Result A) (k : A -> Result B) : Result B :=
  match r with
  | Ok a => k a
  | Raise e => Raise e
  end.

Definition is_ok {A} (r : Result A) : bool :=
  match r with Ok _ => true | Raise _ => false end.

(** [str.isspace] on an ASCII character. *)
Definition is_space (c : ascii) : bool :=
  let n := nat_of_ascii c in
  (((9 <=? n) && (n <=? 13)) || ((28 <=? n) && (n <=? 32)))%nat.

Fixpoint all_chars (f : ascii -> bool) (s : string) : bool :=
  match s with
  | EmptyString => true
  | String c r => f c && all_chars f r
  end.

Definition is_digit (c : ascii) : bool :=
  let n := nat_of_ascii c in ((48 <=? n) && (n <=? 57))%nat.

(** Text made of ASCII white space only. *)
Definition all_space (s : string) : bool := all_chars is_space s.

(** A text is held as the bytes of its UTF-8 form.  [str.isspace] holds
    for nineteen characters beyond ASCII: U+0085 and U+00A0, of two
    bytes, and U+1680, U+2000 to U+200A, U+2028, U+2029, U+202F, U+205F
    and U+3000, of three. *)
Definition is_space2 (a b : ascii) : bool :=
  let a := nat_of_ascii a in
  let b := nat_of_ascii b in
  ((a =? 194) && ((b =? 133) || (b =? 160)))%nat.

Definition is_space3 (a b c : ascii) : bool :=
  let a := nat_of_ascii a in
  let b := nat_of_ascii b in
  let c := nat_of_ascii c in
  (((a =? 225) && (b =? 154) && (c =? 128))
   || ((a =? 226) && (b =? 128)
       && (((128 <=? c) && (c <=? 138)) || (c =? 168) || (c =? 169)
           || (c =? 175)))
   || ((a =? 226) && (b =? 129) && (c =? 159))
   || ((a =? 227) && (b =? 128) && (c =? 128)))%nat.

(** Text that is one character of white space. *)
Definition is_one_space (s : string) : bool :=
  match s with
  | String a EmptyString => is_space a
  | String a (String b EmptyString) => is_space2 a b
  | String a (String b (String c EmptyString)) => is_space3 a b c
  | _ => false
  end.

(** An ASCII character that is not white space. *)
Definition is_plain (c : ascii) : bool :=
  (nat_of_ascii c <? 128)%nat && negb (is_space c).

Definition is_empty (s : string) : bool :=
  match s with EmptyString => true | String _ _ => false end.

Fixpoint lstrip (s : string) : string :=
  match s with
  | EmptyString => EmptyString
  | String a r =>
      if is_space a then lstrip r
      else match r with
           | String b r2 =>
               if is_space2 a b then lstrip r2
               else match r2 with
                    | String c r3 => if is_space3 a b c then lstrip r3 else s
                    | EmptyString => s
                    end
           | EmptyString => s
           end
  end.

Fixpoint rstrip (s : string) : string :=
  match s with
  | EmptyString => EmptyString
  | String c r =>
      let kept := String c (rstrip r) in
      if is_one_space kept then EmptyString else kept
  end.

(** [s.strip()] *)
Definition strip (s : string) : string := lstrip (rstrip s).

(** [s.startswith(p)] *)
Definition startswith (p s : string) : bool := String.prefix p s.

(** [s.endswith(p)]: some suffix of [s] is [p]. *)
Fixpoint endswith (p s : string) : bool :=
  String.eqb s p ||
  match s with
  | EmptyString => false
  | String _ r => endswith p r
  end.

(** [s[n:]], counted in bytes: the code cuts after a marker of ASCII
    characters, or at an index that the model counts in bytes too. *)
Fixpoint drop_front (n : nat) (s : string) : string :=
  match n, s with
  | O, _ => s
  | S n', String _ r => drop_front n' r
  | S _, EmptyString => EmptyString
  end.

(** [s[:n]] for [n >= 0], counted in bytes: for a text of ASCII
    characters, and for the cut before a marker of ASCII characters. *)
Fixpoint take_front (n : nat) (s : string) : string :=
  match n, s with
  | S n', String c r => String c (take_front n' r)
  | _, _ => EmptyString
  end.

(** [s[:-k]] for [k > 0] *)
Definition drop_back (k : nat) (s : string) : string :=
  take_front (String.length s - k)%nat s.

(** A byte that goes on a character begun before it has the form
    [10xxxxxx]. *)
Definition is_continuation (c : ascii) : bool :=
  let n := nat_of_ascii c in ((128 <=? n) && (n <? 192))%nat.

(** [s[:n]] on a text of any characters: the first [n] characters,
    each with all its bytes. *)
Fixpoint take_chars (n : nat) (s : string) : string :=
  match s with
  | EmptyString => EmptyString
  | String c r =>
      if is_continuation c then String c (take_chars n r)
      else match n with
           | O => EmptyString
           | S n' => String c (take_chars n' r)
           end
  end.

(** [p in s] *)
Fixpoint contains (p s : string) : bool :=
  String.prefix p s ||
  match s with
  | EmptyString => false
  | String _ r => contains p r
  end.

(** The double-quote character, and a quoted token. *)
Definition dq : string := String (ascii_of_nat 34) EmptyString.
Definition quoted (s : string) : string := dq ++ s ++ dq.

(** [str(n)] for a non-negative integer. *)
Definition str_of_nat (n : nat) : string :=
  NilEmpty.string_of_uint (Nat.to_uint n).

(** [f"{n:02d}"]: decimal, padded with zeros on the left to width 2. *)
Definition fmt02d (n : nat) : string :=
  let d := str_of_nat n in
  if (String.length d <? 2)%nat then "0" ++ d else d.

(** Joining path components, as [pathlib]'s [/], for a directory as
    [pathlib] prints it (no [.], no trailing separator) and a relative
    file name. *)
Definition path_join (d f : string) : string := d ++ "/" ++ f.

(** [d.get(k)] on a dictionary written out as a literal. *)
Fixpoint assoc {A} (k : string) (l : list (string * A)) : option A :=
  match l with
  | [] => None
  | (k', v) :: l' => if String.eqb k k' then Some v else assoc k l'
  end.

(** Truth value of an optional string: [None] and the empty string are
    false. *)
Definition truthy (o : option string) : bool :=
  match o with
  | Some s => negb (is_empty s)
  | None => false
  end.

(** The receiver of a method of [str]: the text, or the exception of
    the call when the value is [None]. *)
Definition receiver (method : string) (v : option string) : Result string :=
  match v with
  | Some s => Ok s
  | None =>
      Raise (Exn "AttributeError"
               ("'NoneType' object has no attribute '" ++ method ++ "'"))
  end.

(** [o or ''] *)
Definition or_empty (o : option string) : string :=
  match o with
  | Some s => if is_empty s then EmptyString else s
  | None => EmptyString
  end.

(** [l[i]] *)
Definition index {A} (l : list A) (i : nat) : Result A :=
  match l !! i with
  | Some x => Ok x
  | None => Raise (Exn "IndexError" "list index out of range")
  end.

(** *** Effects: a state threaded through, and exceptions

    A computation reads and updates a state of type [St] and either
    returns a value or raises; what it did to the state before raising
    stays done. *)
Definition M (St A : Type) : Type := St -> Result A * St.

#[export] Instance Result_ret : MRet Result := fun A a => Ok a.
#[export] Instance Result_bind : MBind Result := fun A B k r => rbind r k.

#[export] Instance M_ret {St} : MRet (M St) := fun A a s => (Ok a, s).
#[export] Instance M_bind {St} : MBind (M St) := fun A B k m s =>
  match m s with
  | (Ok a, s') => k a s'
  | (Raise e, s') => (Raise e, s')
  end.

Definition raise {St A} (e : exn) : M St A := fun s => (Raise e, s).

Definition lift {St A} (r : Result A) : M St A := fun s => (r, s).

Definition get {St} : M St St := fun s => (Ok s, s).

Definition modify {St} (f : St -> St) : M St unit := fun s => (Ok tt, f s).

(** [try: body  except Exception as e: handler e] *)
Definition try_except {St A} (body : M St A) (handler : exn -> M St A)
  : M St A := fun s =>
  match body s with
  | (Ok a, s') => (Ok a, s')
  | (Raise e, s') => handler e s'
  end.

(** [try: body  finally: closing] *)
Definition try_finally {St A} (body : M St A) (closing : M St unit)
  : M St A := fun s =>
  let '(r, s1) := body s in
  match closing s1 with
  | (Ok _, s2) => (r, s2)
  | (Raise e, s2) => (Raise e, s2)
  end.

(** [asyncio.gather] with [return_exceptions=True], awaited, for
    coroutines that never suspend: each one runs to its end in the order
    given, and its exception, if any, becomes its entry in the result. *)
Fixpoint run_all {St A} (tasks : list (M St A)) (s : St)
  : list (Result A) * St :=
  match tasks with
  | [] => ([], s)
  | t :: ts =>
      let '(r, s1) := t s in
      let '(rs, s2) := run_all ts s1 in
      (r :: rs, s2)
  end.

Definition gather {St A} (tasks : list (M St A)) : M St (list (Result A)) :=
  fun s => let '(rs, s') := run_all tasks s in (Ok rs, s').

End Py.

(** ** JSON values and the [json] library *)

Module Json.
Import Py.

(** What [json.loads] can return.  Numbers keep the text they were
    written with; objects list their members in insertion order, with
    distinct keys. *)
#[warnings="-register-all"]
Inductive value : Type :=
| JNull
| JBool (b : bool)
| JNum (lexeme : string)
| JStr (s : string)
| JArr (items : list value)
| JObj (members : list (string * value)).

(** [d.get(k)] on the members of an object. *)
Fixpoint lookup (k : string) (m : list (string * value)) : option value :=
  match m with
  | [] => None
  | (k', v) :: m' => if String.eqb k k' then Some v else lookup k m'
  end.

(** [d[k] = v]: replaces the value of an existing key in place, or
    appends a new member. *)
Fixpoint dict_set (k : string) (v : value) (m : list (string * value))
  : list (string * value) :=
  match m with
  | [] => [(k, v)]
  | (k', v') :: m' =>
      if String.eqb k k' then (k, v) :: m' else (k', v') :: dict_set k v m'
  end.

(** The options of [json.dumps] that the repository uses. *)
Record dump_opts : Type := DumpOpts {
  ensure_ascii : bool;
  indent : option nat
}.

(** The name of the type of a value, as it stands in the text of a
    [TypeError] or an [AttributeError]. *)
Definition type_name (v : value) : string :=
  match v with
  | JNull => "NoneType"
  | JBool _ => "bool"
  | JNum lexeme =>
      if all_chars (fun c => is_digit c || Ascii.eqb c "-") lexeme
      then "int" else "float"
  | JStr _ => "str"
  | JArr _ => "list"
  | JObj _ => "dict"
  end.

(** The libraries, as far as the repository calls them: [json.loads],
    [json.dumps], the conversion to [bool] that pydantic applies to a
    value that is not a boolean ([None] when it rejects the value),
    [repr] of a value inside a formatted string, and the text of the
    exception that the call of a model class on an unpacked value
    raises: of the [TypeError] for a value that is no dictionary, of
    pydantic's [ValidationError], which reports every field at fault
    and quotes the dictionary, for one that the class rejects. *)
Record Lib : Type := MkLib {
  json_loads : string -> Result value;
  json_dumps : dump_opts -> value -> string;
  lax_bool : value -> option bool;
  py_repr : value -> string;
  rejection_message : value -> string
}.

End Json.

(** ** The multi-page generator ([multi_slide_generator.py]) *)

Module MultiSlide.
Import Py Json.

(** One entry of [slides_data]: a dictionary in which every key is
    optional. *)
Record SlideData : Type := MkSlideData {
  sd_type : option string;
  sd_title : option string;
  sd_template : option string;
  sd_content : option value;
  sd_html_content : option string
}.

(** [ppt_config] *)
Record PptConfig : Type := MkPptConfig {
  cfg_title : option string;
  cfg_theme : option string;
  cfg_color_scheme : option value
}.

(** One entry of [metadata['slides']]. *)
Record SlideMeta : Type := MkSlideMeta {
  slide_id : string;
  slide_number : nat;
  file_name : string;
  type : string;
  title : string;
  template : string;
  prev : option string;
  next : option string
}.

Record Metadata : Type := MkMetadata {
  ppt_title : string;
  total_slides : nat;
  generation_time : string;
  theme : string;
  color_scheme : value;
  slides : list SlideMeta
}.

(** The keyword arguments of [template.render] for one slide. *)
Record RenderData : Type := MkRenderData {
  rd_content : value;
  rd_slide_number : nat;
  rd_total_slides : nat;
  rd_slide_title : string;
  rd_slide_type : string;
  rd_prev_slide : option string;
  rd_next_slide : option string;
  rd_theme : string;
  rd_colors : value;
  rd_ppt_title : string;
  rd_aigc_metadata : string
}.

Inductive render_args : Type :=
| SlideArgs (d : RenderData)
| NavArgs (metadata : Metadata).

(** The output tree: directories made and files written. *)
Record FS : Type := MkFS {
  dirs : gset string;
  files : gmap string string
}.

Inductive io_op : Type :=
| Mkdir (path : string)
| WriteText (path : string) (text : string).

(** What the generator does not control: whether an operation on the
    file system fails, the template engine ([get_template] followed by
    [render]), the clock and the random identifiers. *)
Record Env : Type := MkEnv {
  io_fault : FS -> io_op -> option exn;
  render_template : string -> render_args -> Result string;
  now : string;
  uuid4 : nat -> string
}.

(** The result dictionary of [generate_ppt]: one of its two literals. *)
Inductive Response : Type :=
| Success (ppt_dir : string) (total : nat) (slide_files : list string)
          (index_page presenter_page : string)
| Error (error : string).

Definition status (r : Response) : string :=
  match r with
  | Success _ _ _ _ _ => "success"
  | Error _ => "error"
  end.

Section Generator.
Variable lib : Lib.
Variable env : Env.

Definition mkdir (path : string) : M FS unit := fun fs =>
  match io_fault env fs (Mkdir path) with
  | Some e => (Raise e, fs)
  | None => (Ok tt, MkFS ({[ path ]} ∪ dirs fs) (files fs))
  end.

Definition write_text (path text : string) : M FS unit := fun fs =>
  match io_fault env fs (WriteText path text) with
  | Some e => (Raise e, fs)
  | None => (Ok tt, MkFS (dirs fs) (<[ path := text ]> (files fs)))
  end.

Definition _create_directory_structure (output_dir : string) : M FS string :=
  let ppt_dir := path_join output_dir "ppt" in
  _ ← mkdir ppt_dir;
  _ ← mkdir (path_join ppt_dir "slides");
  _ ← mkdir (path_join (path_join ppt_dir "assets") "styles");
  _ ← mkdir (path_join (path_join ppt_dir "assets") "scripts");
  _ ← mkdir (path_join (path_join ppt_dir "assets") "images");
  _ ← mkdir (path_join ppt_dir "data");
  mret ppt_dir.

(** [slide_data.get('type', 'content')] *)
Definition get_type (slide_data : SlideData) : string :=
  default "content" (sd_type slide_data).

(** [f"slide_{n:02d}_{ty}.html"] *)
Definition slide_file (n : nat) (ty : string) : string :=
  "slide_" ++ fmt02d n ++ "_" ++ ty ++ ".html".

(** The body of the loop of [_create_slides_metadata], at index [i]. *)
Definition slide_meta_at (slides_data : list SlideData) (total_slides i : nat)
    (slide_data : SlideData) : Result SlideMeta :=
  let slide_number := i + 1 in
  let slide_type := get_type slide_data in
  let file_name := slide_file slide_number slide_type in
  prev_file ←
    (if (0 <? i)%nat
     then d ← index slides_data (i - 1);
          mret (Some (slide_file (slide_number - 1) (get_type d)))
     else mret None);
  next_file ←
    (if (i <? total_slides - 1)%nat
     then d ← index slides_data (i + 1);
          mret (Some (slide_file (slide_number + 1) (get_type d)))
     else mret None);
  mret {| slide_id := "slide_" ++ fmt02d slide_number;
          slide_number := slide_number;
          file_name := file_name;
          type := slide_type;
          title := default ("Slide " ++ str_of_nat slide_number)
                           (sd_title slide_data);
          template := default slide_type (sd_template slide_data);
          prev := prev_file;
          next := next_file |}.

(** The loop itself, from index [i] over the entries [rest] still to
    visit. *)
Fixpoint slides_meta_from (slides_data : list SlideData) (total_slides i : nat)
    (rest : list SlideData) : Result (list SlideMeta) :=
  match rest with
  | [] => mret []
  | slide_data :: rest' =>
      m ← slide_meta_at slides_data total_slides i slide_data;
      ms ← slides_meta_from slides_data total_slides (S i) rest';
      mret (m :: ms)
  end.

Definition default_color_scheme : value :=
  JObj [("primary", JStr "#2E8B57"); ("secondary", JStr "#FF8C00");
        ("accent", JStr "#E6E6FA")].

Definition _create_slides_metadata (slides_data : list SlideData)
    (ppt_config : PptConfig) : Result Metadata :=
  let total_slides := length slides_data in
  slides_meta ← slides_meta_from slides_data total_slides 0 slides_data;
  mret {| ppt_title := default "Untitled Presentation" (cfg_title ppt_config);
          total_slides := total_slides;
          generation_time := now env;
          theme := default "business" (cfg_theme ppt_config);
          color_scheme := default default_color_scheme
                                  (cfg_color_scheme ppt_config);
          slides := slides_meta |}.

(** The dictionary [metadata] as a JSON value, keys in the order the
    source writes them. *)
Definition json_of_option (o : option string) : value :=
  match o with Some s => JStr s | None => JNull end.

Definition slide_meta_json (m : SlideMeta) : value :=
  JObj [("slide_id", JStr (slide_id m));
        ("slide_number", JNum (str_of_nat (slide_number m)));
        ("file_name", JStr (file_name m));
        ("type", JStr (type m));
        ("title", JStr (title m));
        ("template", JStr (template m));
        ("prev", json_of_option (prev m));
        ("next", json_of_option (next m))].

Definition metadata_json (metadata : Metadata) : value :=
  JObj [("ppt_title", JStr (ppt_title metadata));
        ("total_slides", JNum (str_of_nat (total_slides metadata)));
        ("generation_time", JStr (generation_time metadata));
        ("theme", JStr (theme metadata));
        ("color_scheme", color_scheme metadata);
        ("slides", JArr (map slide_meta_json (slides metadata)))].

(** [_generate_aigc_metadata]; [n] is the number of the slide being
    rendered and selects the identifier drawn for it. *)
Definition _generate_aigc_metadata (n : nat) : string :=
  let project_id := take_front 32 (uuid4 env n) in
  json_dumps lib (DumpOpts false None)
    (JObj [("AIGC", JObj [("Label", JStr "1");
                          ("ContentProducer", JStr "ai-content-generator");
                          ("ProduceID", JStr project_id);
                          ("ContentPropagator", JStr "ai-content-generator");
                          ("PropagateID", JStr project_id)])]).

Definition template_map : list (string * string) :=
  [("cover", "slide_cover.html"); ("toc", "slide_toc.html");
   ("content", "slide_content.html"); ("chart", "slide_chart.html");
   ("comparison", "slide_comparison.html");
   ("summary", "slide_summary.html")].

Definition _get_template_name (slide_type : string) : string :=
  default "slide_content.html" (assoc slide_type template_map).

Definition quote : string := "'".

Definition prev_button_html (prev_slide : string) : string :=
  String.concat EmptyString
    ["<button class="; dq; "nav-btn"; dq; " onclick="; dq; "window.location.href="; quote; prev_slide; quote; dq; "><i class="; dq; "fas fa-arrow-left"; dq; "></i> Previous</button>"].

Definition prev_button_disabled : string :=
  String.concat EmptyString
    ["<button class="; dq; "nav-btn"; dq; " disabled><i class="; dq; "fas fa-arrow-left"; dq; "></i> Previous</button>"].

Definition next_button_html (next_slide : string) : string :=
  String.concat EmptyString
    ["<button class="; dq; "nav-btn"; dq; " onclick="; dq; "window.location.href="; quote; next_slide; quote; dq; ">Next <i class="; dq; "fas fa-arrow-right"; dq; "></i></button>"].

Definition next_button_disabled : string :=
  String.concat EmptyString
    ["<button class="; dq; "nav-btn"; dq; " disabled>Next <i class="; dq; "fas fa-arrow-right"; dq; "></i></button>"].

(** The page wrapped around a fragment by [_wrap_slide_html]. *)
Definition slide_shell (content_html : string) (slide_meta : SlideMeta)
    (ppt_metadata : Metadata) (slide_number total_slides : nat)
    (prev_button next_button prev_slide_safe next_slide_safe : string)
  : string :=
  String.concat EmptyString
    ["<!DOCTYPE html>
<html lang="; dq; "en"; dq; ">
<head>
    <meta charset="; dq; "UTF-8"; dq; ">
    <meta name="; dq; "viewport"; dq; " content="; dq; "width=device-width, initial-scale=1.0"; dq; ">
    <title>"; title slide_meta; " - "; ppt_title ppt_metadata; "</title>
    <link href="; dq; "https://cdnjs.cloudflare.com/ajax/libs/font-awesome/6.0.0/css/all.min.css"; dq; " rel="; dq; "stylesheet"; dq; "/>
    <script src="; dq; "https://cdn.tailwindcss.com"; dq; "></script>
    <script src="; dq; "https://cdn.jsdelivr.net/npm/echarts@5/dist/echarts.min.js"; dq; "></script>
    <style>
        * {
            margin: 0;
            padding: 0;
            box-sizing: border-box;
        }
        body, html {
            width: 100%;
            height: 100%;
            overflow: hidden;
            font-family: -apple-system, BlinkMacSystemFont, "; dq; "Seguro UI"; dq; ", sans-serif;
        }
        .slide-controls {
            position: fixed;
            bottom: 20px;
            right: 20px;
            display: flex;
            gap: 10px;
            z-index: 1000;
        }
        .nav-btn {
            padding: 10px 20px;
            background: rgba(255, 255, 255, 0.9);
            border: 1px solid #ddd;
            border-radius: 5px;
            cursor: pointer;
            transition: all 0.3s;
        }
        .nav-btn:hover {
            background: white;
            box-shadow: 0 2px 8px rgba(0,0,0,0.1);
        }
        .nav-btn:disabled {
            opacity: 0.5;
            cursor: not-allowed;
        }
        .slide-number {
            position: fixed;
            bottom: 20px;
            left: 20px;
            padding: 8px 16px;
            background: rgba(255, 255, 255, 0.9);
            border-radius: 20px;
            font-size: 14px;
            font-weight: 600;
            z-index: 1000;
        }
    </style>
</head>
<body>
    "; content_html; "

    <div class="; dq; "slide-number"; dq; ">
        "; str_of_nat slide_number; " / "; str_of_nat total_slides; "
    </div>

    <div class="; dq; "slide-controls"; dq; ">
        <button class="; dq; "nav-btn"; dq; " onclick="; dq; "window.location.href='../index.html'"; dq; ">
            <i class="; dq; "fas fa-home"; dq; "></i> Home
        </button>
        "; prev_button; "
        "; next_button; "
    </div>

    <script>
        // Keyboard navigation
        document.addEventListener('keydown', (e) => {
            if (e.key === 'ArrowLeft' && '"; prev_slide_safe; "') {
                window.location.href = '"; prev_slide_safe; "';
            } else if (e.key === 'ArrowRight' && '"; next_slide_safe; "') {
                window.location.href = '"; next_slide_safe; "';
            } else if (e.key === 'Home') {
                window.location.href = '../index.html';
            }
        });
    </script>
</body>
</html>
"].

Definition _wrap_slide_html (content_html : string) (slide_meta : SlideMeta)
    (ppt_metadata : Metadata) : string :=
  let slide_number := slide_number slide_meta in
  let is_complete_html :=
    contains "<!DOCTYPE" content_html || contains "<html" content_html in
  if is_complete_html then content_html
  else
    let total_slides := total_slides ppt_metadata in
    let prev_slide := prev slide_meta in
    let next_slide := next slide_meta in
    let prev_button :=
      if truthy prev_slide then prev_button_html (or_empty prev_slide)
      else prev_button_disabled in
    let next_button :=
      if truthy next_slide then next_button_html (or_empty next_slide)
      else next_button_disabled in
    let prev_slide_safe := or_empty prev_slide in
    let next_slide_safe := or_empty next_slide in
    slide_shell content_html slide_meta ppt_metadata slide_number
      total_slides prev_button next_button prev_slide_safe next_slide_safe.

Definition _generate_single_slide (slide_data : SlideData)
    (slide_meta : SlideMeta) (ppt_metadata : Metadata) (ppt_dir : string)
  : M FS string :=
  try_except
    (let slide_number := slide_number slide_meta in
     let slide_type := type slide_meta in
     html_content ←
       match sd_html_content slide_data with
       | Some html_content => mret html_content
       | None =>
           let template_name := _get_template_name slide_type in
           let render_data :=
             {| rd_content := default (JObj []) (sd_content slide_data);
                rd_slide_number := slide_number;
                rd_total_slides := total_slides ppt_metadata;
                rd_slide_title := title slide_meta;
                rd_slide_type := slide_type;
                rd_prev_slide := prev slide_meta;
                rd_next_slide := next slide_meta;
                rd_theme := theme ppt_metadata;
                rd_colors := color_scheme ppt_metadata;
                rd_ppt_title := ppt_title ppt_metadata;
                rd_aigc_metadata := _generate_aigc_metadata slide_number |} in
           lift (render_template env template_name (SlideArgs render_data))
       end;
     let html_content := _wrap_slide_html html_content slide_meta ppt_metadata in
     let output_file :=
       path_join (path_join ppt_dir "slides") (file_name slide_meta) in
     _ ← write_text output_file html_content;
     mret output_file)
    (fun e => raise e).

(** The coroutines of [_generate_all_slides], one per entry of
    [slides_data], each with the entry of [metadata['slides']] at the
    same index. *)
Fixpoint slide_tasks (metadata : Metadata) (ppt_dir : string) (i : nat)
    (rest : list SlideData) : Result (list (M FS string)) :=
  match rest with
  | [] => mret []
  | slide_data :: rest' =>
      slide_meta ← index (slides metadata) i;
      let task := _generate_single_slide slide_data slide_meta metadata ppt_dir in
      tasks ← slide_tasks metadata ppt_dir (S i) rest';
      mret (task :: tasks)
  end.

(** The results that are not exceptions, in order. *)
Fixpoint successes {A} (results : list (Result A)) : list A :=
  match results with
  | [] => []
  | Ok a :: rs => a :: successes rs
  | Raise _ :: rs => successes rs
  end.

Definition _generate_all_slides (slides_data : list SlideData)
    (metadata : Metadata) (ppt_dir : string) : M FS (list string) :=
  tasks ← lift (slide_tasks metadata ppt_dir 0 slides_data);
  results ← gather tasks;
  mret (successes results).

Definition _generate_index_page (metadata : Metadata) (ppt_dir : string)
  : M FS unit :=
  try_except
    (html ← lift (render_template env "index.html" (NavArgs metadata));
     write_text (path_join ppt_dir "index.html") html)
    (fun _ => mret tt).

Definition _generate_presenter_page (metadata : Metadata) (ppt_dir : string)
  : M FS unit :=
  try_except
    (html ← lift (render_template env "presenter.html" (NavArgs metadata));
     write_text (path_join ppt_dir "presenter.html") html)
    (fun _ => mret tt).

Definition _generate_navigation_pages (metadata : Metadata) (ppt_dir : string)
  : M FS unit :=
  _ ← _generate_index_page metadata ppt_dir;
  _generate_presenter_page metadata ppt_dir.

Definition _save_metadata (metadata : Metadata) (ppt_dir : string)
  : M FS unit :=
  let metadata_file :=
    path_join (path_join ppt_dir "data") "slides_metadata.json" in
  write_text metadata_file
    (json_dumps lib (DumpOpts false (Some 2)) (metadata_json metadata)).

Definition _copy_common_assets (ppt_dir : string) : M FS unit := mret tt.

(** The [try] block of [generate_ppt]. *)
Definition generate_ppt_body (slides_data : list SlideData)
    (ppt_config : PptConfig) (output_dir : string) : M FS Response :=
  ppt_dir ← _create_directory_structure output_dir;
  metadata ← lift (_create_slides_metadata slides_data ppt_config);
  slide_files ← _generate_all_slides slides_data metadata ppt_dir;
  _ ← _generate_navigation_pages metadata ppt_dir;
  _ ← _save_metadata metadata ppt_dir;
  _ ← _copy_common_assets ppt_dir;
  mret (Success ppt_dir (length slides_data) slide_files
          (path_join ppt_dir "index.html")
          (path_join ppt_dir "presenter.html")).

Definition generate_ppt (slides_data : list SlideData)
    (ppt_config : PptConfig) (output_dir : string) : M FS Response :=
  try_except
    (generate_ppt_body slides_data ppt_config output_dir)
    (fun e => mret (Error (exn_str e))).

End Generator.
End MultiSlide.

(** ** The model provider, as the agents call it ([llm/client.py]) *)

Module Llm.
Import Py Json.

Record Message : Type := MkMessage { role : string; content : string }.

(** The arguments of [chat_completion]: the messages and the keyword
    arguments that the callers pass. *)
Record Request : Type := MkRequest {
  messages : list Message;
  max_tokens : option nat;
  temperature : option Q;
  response_format : option value
}.

(** What a dictionary holds under the key [content]: nothing, the
    value [None] (the provider gave no text), or a text. *)
Inductive Content : Type :=
| Absent
| IsNone
| Text (text : string).

(** The dictionary [chat_completion] returns. *)
Record ChatResponse : Type := MkChatResponse {
  resp_content : Content;
  resp_model : string;
  resp_finish_reason : string
}.

(** A client over a provider whose state is of type [World]: a call may
    return a response or raise, and changes the state of the provider. *)
Record Client (World : Type) : Type := MkClient {
  chat_completion : Request -> M World ChatResponse
}.
Arguments chat_completion {World} c req.

(** [response.get] of the key [content], the empty text by default:
    a text, or [None] when that is what the dictionary holds. *)
Definition get_content (response : ChatResponse) : option string :=
  match resp_content response with
  | Absent => Some EmptyString
  | IsNone => None
  | Text text => Some text
  end.

End Llm.

(** ** The design coordinator ([design_coordinator.py]) *)

Module Design.
Import Py Json Llm.

Record DesignSpec : Type := MkDesignSpec {
  primary_color : string;
  secondary_color : string;
  accent_color : string;
  background_color : string;
  text_color : string;
  text_secondary_color : string;
  title_font_size : string;
  content_font_size : string;
  font_family : string;
  layout_style : string;
  spacing : string;
  border_radius : string;
  use_shadows : bool;
  use_gradients : bool;
  animation_style : string;
  chart_colors : list string
}.

(** The outline: a dictionary of values of any kind. *)
Definition Outline : Type := list (string * value).

Definition style_guides : list (string * string) :=
  [("ted",
    "TED presentation style, minimalism, each page has only large title + core points, minimal text, suitable for live presentations. Color scheme flexibly chosen based on theme, bold and impactful");
   ("business",
    "Business presentation style, detailed content, includes detailed data, charts, bullet points, suitable for professional presentations. Color scheme flexibly chosen based on theme content");
   ("academic",
    "Academic rigorous style, color scheme should be chosen based on theme content, can use dark colors or other suitable colors");
   ("creative",
    "Creative and lively style, encourages bold and interesting color schemes");
   ("simple",
    "Minimalist style, use simple color scheme, but can choose appropriate colors based on theme")].

(** [p.get] of [topic], the empty text by default, for each [p] of the
    pages: a page that is no dictionary has no [get]. *)
Fixpoint topics_of (pages : list value) : Result (list value) :=
  match pages with
  | [] => Ok []
  | JObj members :: rest =>
      topics ← topics_of rest;
      mret (default (JStr EmptyString) (lookup "topic" members) :: topics)
  | p :: _ =>
      Raise (Exn "AttributeError"
               ("'" ++ type_name p ++ "' object has no attribute 'get'"))
  end.

(** The topics of the first five pages: [outline.get] of [pages], the
    empty list by default, cut by [[:5]].  A text is cut too and its
    characters have no [get]; a dictionary cannot be cut (the
    [TypeError] of Python before 3.12, a [KeyError] since), nor can
    [None], a boolean or a number. *)
Definition page_topics (outline : Outline) : Result (list value) :=
  match default (JArr []) (lookup "pages" outline) with
  | JArr pages => topics_of (take 5 pages)
  | JStr text =>
      if is_empty text then Ok []
      else Raise (Exn "AttributeError" "'str' object has no attribute 'get'")
  | JObj _ => Raise (Exn "TypeError" "unhashable type: 'slice'")
  | pages =>
      Raise (Exn "TypeError"
               ("'" ++ type_name pages ++ "' object is not subscriptable"))
  end.

(** The items that [str.join] joins have to be texts; [i] is the index
    of the first item. *)
Fixpoint joined_items (i : nat) (items : list value) : Result (list string) :=
  match items with
  | [] => Ok []
  | JStr text :: rest =>
      texts ← joined_items (S i) rest;
      mret (text :: texts)
  | item :: _ =>
      Raise (Exn "TypeError"
               ("sequence item " ++ str_of_nat i
                ++ ": expected str instance, " ++ type_name item ++ " found"))
  end.

(** The text of the prompt, for the topics of the pages. *)
Definition design_prompt_text (topic : string) (page_topics : list string)
    (style : string) : string :=
  let style_hint :=
    default "Freely choose appropriate color scheme based on theme content"
      (assoc style style_guides) in
  String.concat EmptyString
    ["You are a creative PPT visual designer. Please design a unique and attractive visual scheme based on the PPT topic content.

# PPT Topic Analysis
**Topic**: "; topic; "
**Main Content**: "; String.concat ", " page_topics; "
**Style**: "; style; " - "; style_hint; "

# Design Task
**Please creatively design color scheme and visual style based on the characteristics of the topic content!**

## Color Design Key Points
1. **Style Priority**:
   - **If the style is "; style; ", please prioritize following the requirements of that style**
   - ted style: Bold and impactful color scheme, choose the most attractive color combinations based on theme
   - business style: Professional but flexible, choose appropriate color scheme based on theme, not limited to blue
   - creative style: Bold use of contrasting colors and vibrant colors

2. **Theme Relevance** (while following style requirements):
   - Gaming theme? Consider vibrant, energetic colors (purple, orange, cyan, magenta, etc.)
   - Pet theme? Consider warm, cute colors (pink, light orange, sky blue, grass green, etc.)
   - Technology theme? Consider futuristic colors (dark blue, cyan, purple, etc.)
   - Nature/Environmental theme? Consider green tones, earth tones
   - Food theme? Consider warm colors (red, orange, yellow)
   - Finance/Professional theme? Consider stable colors (dark blue, dark green, gray)

3. **Color Matching**: Primary, secondary, and accent colors should form interesting contrast and harmony
4. **Readability**: Ensure sufficient contrast between text and background

## Visual Element Design
- **layout_style**: Choose based on theme (modern/playful/elegant/tech/artistic/minimal, etc.)
- **use_gradients**: Gaming and technology themes are suitable for gradients
- **border_radius**: Cute themes use large radius, professional themes use small radius
- **animation_style**: Lively themes use dynamic, serious themes use subtle or none

# Creative Examples

**TED Presentation Style Example (for ted style)**:
{
    "; dq; "primary_color"; dq; ": "; dq; "#dc2626"; dq; ",  // Bold primary color - choose based on theme
    "; dq; "secondary_color"; dq; ": "; dq; "#1f2937"; dq; ",  // Dark color - contrast
    "; dq; "accent_color"; dq; ": "; dq; "#fbbf24"; dq; ",  // Accent color - attract attention
    "; dq; "background_color"; dq; ": "; dq; "#ffffff"; dq; ",
    "; dq; "title_font_size"; dq; ": "; dq; "4rem"; dq; ",  // TED style uses extra-large titles
    "; dq; "content_font_size"; dq; ": "; dq; "1.5rem"; dq; ",  // Body text also large
    "; dq; "use_shadows"; dq; ": false,  // Minimal, no shadows
    "; dq; "use_gradients"; dq; ": false,  // Minimal, no gradients
    "; dq; "animation_style"; dq; ": "; dq; "none"; dq; ",  // Minimal, no animation
    "; dq; "chart_colors"; dq; ": ["; dq; "#dc2626"; dq; ", "; dq; "#1f2937"; dq; ", "; dq; "#fbbf24"; dq; ", "; dq; "#6b7280"; dq; ", "; dq; "#f97316"; dq; "]
}

**Gaming Theme Example**:
{
    "; dq; "primary_color"; dq; ": "; dq; "#8b5cf6"; dq; ",  // Purple - gaming feel
    "; dq; "secondary_color"; dq; ": "; dq; "#ec4899"; dq; ",  // Magenta - energy
    "; dq; "accent_color"; dq; ": "; dq; "#f59e0b"; dq; ",  // Orange - emphasis
    "; dq; "chart_colors"; dq; ": ["; dq; "#8b5cf6"; dq; ", "; dq; "#ec4899"; dq; ", "; dq; "#06b6d4"; dq; ", "; dq; "#10b981"; dq; ", "; dq; "#f59e0b"; dq; "]
}

**Pet Theme Example**:
{
    "; dq; "primary_color"; dq; ": "; dq; "#f472b6"; dq; ",  // Pink - cute
    "; dq; "secondary_color"; dq; ": "; dq; "#fb923c"; dq; ",  // Light orange - warm
    "; dq; "accent_color"; dq; ": "; dq; "#60a5fa"; dq; ",  // Sky blue - fresh
    "; dq; "chart_colors"; dq; ": ["; dq; "#f472b6"; dq; ", "; dq; "#fb923c"; dq; ", "; dq; "#a78bfa"; dq; ", "; dq; "#34d399"; dq; ", "; dq; "#fbbf24"; dq; "]
}

**Technology/AI Theme Example**:
{
    "; dq; "primary_color"; dq; ": "; dq; "#06b6d4"; dq; ",  // Cyan - tech feel
    "; dq; "secondary_color"; dq; ": "; dq; "#8b5cf6"; dq; ",  // Purple - futuristic
    "; dq; "accent_color"; dq; ": "; dq; "#10b981"; dq; ",  // Green - intelligent
    "; dq; "chart_colors"; dq; ": ["; dq; "#06b6d4"; dq; ", "; dq; "#8b5cf6"; dq; ", "; dq; "#10b981"; dq; ", "; dq; "#f59e0b"; dq; ", "; dq; "#ec4899"; dq; "]
}

# Output Requirements
**Output ONLY JSON! No explanations!**

JSON Structure:
{
    "; dq; "primary_color"; dq; ": "; dq; "#xxxxxx"; dq; ",
    "; dq; "secondary_color"; dq; ": "; dq; "#xxxxxx"; dq; ",
    "; dq; "accent_color"; dq; ": "; dq; "#xxxxxx"; dq; ",
    "; dq; "background_color"; dq; ": "; dq; "#ffffff"; dq; ",
    "; dq; "text_color"; dq; ": "; dq; "#1f2937"; dq; ",
    "; dq; "text_secondary_color"; dq; ": "; dq; "#6b7280"; dq; ",
    "; dq; "title_font_size"; dq; ": "; dq; "2.5rem"; dq; ",
    "; dq; "content_font_size"; dq; ": "; dq; "1rem"; dq; ",
    "; dq; "font_family"; dq; ": "; dq; "'Segoe UI', 'Microsoft YaHei', sans-serif"; dq; ",
    "; dq; "layout_style"; dq; ": "; dq; "Choose based on theme"; dq; ",
    "; dq; "spacing"; dq; ": "; dq; "normal"; dq; ",
    "; dq; "border_radius"; dq; ": "; dq; "1rem"; dq; ",
    "; dq; "use_shadows"; dq; ": true,
    "; dq; "use_gradients"; dq; ": true,
    "; dq; "animation_style"; dq; ": "; dq; "subtle"; dq; ",
    "; dq; "chart_colors"; dq; ": ["; dq; "color1"; dq; ", "; dq; "color2"; dq; ", "; dq; "color3"; dq; ", "; dq; "color4"; dq; ", "; dq; "color5"; dq; "]
}

**Important Notes**:
- Current style is "; dq; style; dq; ", please strictly follow the requirements of that style
- ted style requires extra-large font (title_font_size: 4rem), minimal design, bold color scheme
- business style requires detailed content, moderate font, professional color scheme
- Don't always use blue! Choose the most suitable color based on theme "; dq; topic; dq; "
- Be creative, let the color scheme resonate with the theme content
- chart_colors should include 5 harmonious colors

Output JSON immediately:
"].

Definition _build_design_prompt (topic : string) (outline : Outline)
    (style : string) : Result string :=
  topics ← page_topics outline;
  texts ← joined_items 0 topics;
  mret (design_prompt_text topic texts style).

Definition default_ted : DesignSpec :=
  {| primary_color := "#dc2626";
     secondary_color := "#1f2937";
     accent_color := "#fbbf24";
     background_color := "#ffffff";
     text_color := "#1f2937";
     text_secondary_color := "#6b7280";
     title_font_size := "4rem";
     content_font_size := "1.5rem";
     font_family := "'Segoe UI', 'Microsoft YaHei', sans-serif";
     layout_style := "minimal";
     spacing := "spacious";
     border_radius := "0px";
     use_shadows := false;
     use_gradients := false;
     animation_style := "none";
     chart_colors := ["#dc2626"; "#1f2937"; "#fbbf24"; "#6b7280"; "#f97316"] |}.

Definition default_business : DesignSpec :=
  {| primary_color := "#2563eb";
     secondary_color := "#1d4ed8";
     accent_color := "#3b82f6";
     background_color := "#ffffff";
     text_color := "#1f2937";
     text_secondary_color := "#6b7280";
     title_font_size := "2.5rem";
     content_font_size := "1rem";
     font_family := "'Segoe UI', 'Microsoft YaHei', sans-serif";
     layout_style := "business";
     spacing := "normal";
     border_radius := "0.5rem";
     use_shadows := true;
     use_gradients := true;
     animation_style := "subtle";
     chart_colors := ["#2563eb"; "#3b82f6"; "#60a5fa"; "#93c5fd"; "#dbeafe"] |}.

Definition default_simple : DesignSpec :=
  {| primary_color := "#1f2937";
     secondary_color := "#374151";
     accent_color := "#4b5563";
     background_color := "#ffffff";
     text_color := "#1f2937";
     text_secondary_color := "#6b7280";
     title_font_size := "2.5rem";
     content_font_size := "1rem";
     font_family := "'Segoe UI', 'Microsoft YaHei', sans-serif";
     layout_style := "minimal";
     spacing := "spacious";
     border_radius := "0px";
     use_shadows := false;
     use_gradients := false;
     animation_style := "none";
     chart_colors := ["#1f2937"; "#374151"; "#4b5563"; "#6b7280"; "#9ca3af"] |}.

(** [_get_default_design] *)
Definition default_designs : list (string * DesignSpec) :=
  [("ted", default_ted); ("business", default_business);
   ("simple", default_simple)].

Definition _get_default_design (style : string) : DesignSpec :=
  default default_business (assoc style default_designs).

Section Coordinator.
Variable lib : Lib.
Context {World : Type}.
Variable llm_client : Client World.

(** What pydantic finds at fault in one field; the exception that
    leaves [DesignSpec] is built from all of them, see [DesignSpec_init]. *)
Definition validation_error (field msg : string) : exn :=
  Exn "ValidationError" (field ++ ": " ++ msg).

(** A required field declared [str]. *)
Definition field_str (k : string) (d : list (string * value)) : Result string :=
  match lookup k d with
  | None => Raise (validation_error k "Field required")
  | Some (JStr s) => Ok s
  | Some _ => Raise (validation_error k "Input should be a valid string")
  end.

(** A required field declared [bool]. *)
Definition field_bool (k : string) (d : list (string * value)) : Result bool :=
  match lookup k d with
  | None => Raise (validation_error k "Field required")
  | Some (JBool b) => Ok b
  | Some v =>
      match lax_bool lib v with
      | Some b => Ok b
      | None => Raise (validation_error k "Input should be a valid boolean")
      end
  end.

Fixpoint all_str (items : list value) : option (list string) :=
  match items with
  | [] => Some []
  | JStr s :: items' => option_map (cons s) (all_str items')
  | _ :: _ => None
  end.

(** A required field declared [list[str]]. *)
Definition field_str_list (k : string) (d : list (string * value))
  : Result (list string) :=
  match lookup k d with
  | None => Raise (validation_error k "Field required")
  | Some (JArr items) =>
      match all_str items with
      | Some l => Ok l
      | None => Raise (validation_error k "Input should be a valid string")
      end
  | Some _ => Raise (validation_error k "Input should be a valid list")
  end.

(** The validation of the declared fields, one after the other. *)
Definition DesignSpec_fields (d : list (string * value)) : Result DesignSpec :=
      primary_color' ← field_str "primary_color" d;
      secondary_color' ← field_str "secondary_color" d;
      accent_color' ← field_str "accent_color" d;
      background_color' ← field_str "background_color" d;
      text_color' ← field_str "text_color" d;
      text_secondary_color' ← field_str "text_secondary_color" d;
      title_font_size' ← field_str "title_font_size" d;
      content_font_size' ← field_str "content_font_size" d;
      font_family' ← field_str "font_family" d;
      layout_style' ← field_str "layout_style" d;
      spacing' ← field_str "spacing" d;
      border_radius' ← field_str "border_radius" d;
      use_shadows' ← field_bool "use_shadows" d;
      use_gradients' ← field_bool "use_gradients" d;
      animation_style' ← field_str "animation_style" d;
      chart_colors' ← field_str_list "chart_colors" d;
      mret {| primary_color := primary_color';
              secondary_color := secondary_color';
              accent_color := accent_color';
              background_color := background_color';
              text_color := text_color';
              text_secondary_color := text_secondary_color';
              title_font_size := title_font_size';
              content_font_size := content_font_size';
              font_family := font_family';
              layout_style := layout_style';
              spacing := spacing';
              border_radius := border_radius';
              use_shadows := use_shadows';
              use_gradients := use_gradients';
              animation_style := animation_style';
              chart_colors := chart_colors' |}.

(** [DesignSpec] called on the unpacked [design_dict]: the argument has
    to be a mapping, every declared field has to be there with a value
    of its declared type; other keys are ignored.  The text of the
    exception is the library's, for the whole argument. *)
Definition DesignSpec_init (design_dict : value) : Result DesignSpec :=
  match design_dict with
  | JObj d =>
      match DesignSpec_fields d with
      | Ok design_spec => Ok design_spec
      | Raise _ =>
          Raise (Exn "ValidationError" (rejection_message lib design_dict))
      end
  | _ => Raise (Exn "TypeError" (rejection_message lib design_dict))
  end.

(** The removal of code block markers in [generate_design_spec]. *)
Definition clean_design_content (content : string) : string :=
  let content := strip content in
  let content :=
    if startswith "```json" content then drop_front 7 content
    else if startswith "```" content then drop_front 3 content
    else content in
  let content :=
    if endswith "```" content then drop_back 3 content else content in
  strip content.

(** What the [try] block of [generate_design_spec] computes from the
    text of a response. *)
Definition decoded_design (content : string) : Result DesignSpec :=
  d ← json_loads lib (clean_design_content content);
  DesignSpec_init d.

Definition design_request (prompt : string) : Request :=
  {| messages := [MkMessage "user" prompt];
     max_tokens := Some 1000;
     temperature := Some (9 # 10)%Q;
     response_format := None |}.

Definition generate_design_spec (topic : string) (outline : Outline)
    (style : string) : M World DesignSpec :=
  prompt ← lift (_build_design_prompt topic outline style);
  response ← chat_completion llm_client (design_request prompt);
  content ← lift (receiver "strip" (get_content response));
  let content := clean_design_content content in
  try_except
    (design_dict ← lift (json_loads lib content);
     design_spec ← lift (DesignSpec_init design_dict);
     mret design_spec)
    (fun e => mret (_get_default_design style)).

End Coordinator.
End Design.

(** ** The page agent ([page_agent.py]) *)

Module Page.
Import Py Json Llm.

Record PageSpec : Type := MkPageSpec {
  slide_number : nat;
  page_type : string;
  topic : string;
  key_points : list string;
  has_chart : bool
}.

Record GlobalContext : Type := MkGlobalContext {
  ppt_title : string;
  style : string;
  colors : list (string * string);
  total_slides : nat;
  speech_scene : option string
}.

(** The dictionary returned by [generate_page_html]; the key
    [speech_notes] is there only when notes were generated. *)
Record PageResult : Type := MkPageResult {
  html_content : string;
  speech_notes : option string
}.

Definition colors_value (colors : list (string * string)) : value :=
  JObj (map (fun kv => (fst kv, JStr (snd kv))) colors).

Definition layout_hints : list (string * string) :=
  [("title", EmptyString); ("section", EmptyString); ("content", "//");
   ("conclusion", EmptyString)].

Definition ted_style_hint : string :=
  String.concat EmptyString
    ["
****TED Presentation Style Requirements (IMPORTANT!)****
This is a TED-style PPT and must follow these principles:

1. **Minimal Content**:
   - Each page has only 1 large title + 1-3 core points
   - Title must use extra-large font size (text-6xl or text-7xl, font-size: 3-5rem)
   - Core points use large font size (text-2xl or text-3xl, font-size: 1.5-2rem)
   - **Do NOT** use long paragraphs, detailed lists, or dense text

2. **Visual Impact**:
   - Lots of white space, centered content
   - Use bold colors from the global color scheme
   - Simple background, highlight core information

3. **Layout Proportions**:
   - Title area: 30-40% (extra-large title)
   - Core points area: 30-40% (1-3 sentences)
   - Other areas: white space
   - Minimal footer (only page number)

4. **Forbidden Elements**:
   - ❌ No multi-level lists
   - ❌ No detailed data tables
   - ❌ No long paragraph explanations
   - ❌ No complex layouts

**TED Style Example**:
```html
<div style="; dq; "height: 60%; display: flex; align-items: center; justify-content: center;"; dq; ">
    <h1 style="; dq; "font-size: 4rem; font-weight: bold; text-align: center;"; dq; ">
        Core Point Title
    </h1>
</div>
<div style="; dq; "height: 30%; display: flex; align-items: center; justify-content: center;"; dq; ">
    <p style="; dq; "font-size: 1.8rem; text-align: center; max-width: 70%;"; dq; ">
        One sentence explaining the core point
    </p>
</div>
```
"].

Definition business_style_hint : string :=
  String.concat EmptyString
    ["
****Business Presentation Style Requirements****
This is a business presentation style PPT that can include detailed content:

1. **Detailed Content**: Can include multiple points, data, charts
2. **Clear Structure**: Use lists, cards to organize content
3. **Professional Layout**: Title, content area, charts properly distributed
4. **Moderate Font Sizes**: Title text-4xl (2.5rem), body text-base (1rem)
"].

Definition chart_generation_hint : string :=
  String.concat EmptyString
    ["
****Chart Generation Requirements****
**Use Chart.js to create charts**

1. **Canvas Element Requirements**
   <canvas id="; dq; "chart_{page_spec.slide_number}_{{random_number}}"; dq; "></canvas>

2. **Chart Container Height Limit (IMPORTANT!)**
   Chart container must have explicit height to avoid exceeding page boundaries:
   - Recommended fixed height: height: 350px or height: 400px
   - Or use max-height limit: max-height: 400px
   - **Do NOT** use flex: 1 or 100% height, this will cause charts to exceed page

3. **Chart.js Configuration Example**
   <script>
   document.addEventListener('DOMContentLoaded', function() {{
       const canvas = document.getElementById('chart_{{page_spec.slide_number}}_12345');
       if (!canvas) return;

       const ctx = canvas.getContext('2d');
       new Chart(ctx, {{
           type: 'bar',  // bar, line, pie, doughnut
           data: {{
               labels: ['2020', '2021', '2022', '2023', '2024'],
               datasets: [{{
                   label: 'Data Label',
                   data: [100, 120, 150, 180, 200],
                   backgroundColor: 'rgba(59, 130, 246, 0.5)',
                   borderColor: 'rgba(59, 130, 246, 1)',
                   borderWidth: 2
               }}]
           }},
           options: {{
               responsive: true,
               maintainAspectRatio: false,
               plugins: {{
                   legend: {{ display: true }}
               }},
               scales: {{
                   y: {{ beginAtZero: true }}
               }}
           }}
       }});
   }});
   </script>

****Important Notes****
- **Canvas ID**: Use chart_{{page_spec.slide_number}}_{{random_number}} to avoid ID conflicts
- **Chart Container**: Must set fixed height (e.g., height: 350px), do not use flex: 1
- **Chart Types**: bar (bar chart), line (line chart), pie (pie chart), doughnut (doughnut chart)
- **responsive**: Set to true, chart will adapt to container
- **maintainAspectRatio**: Set to false, chart height controlled by container
- **ID in script tag**: Must exactly match canvas ID
"].

Definition is_letter (c : ascii) : bool :=
  let n := nat_of_ascii c in
  (((65 <=? n) && (n <=? 90)) || ((97 <=? n) && (n <=? 122)))%nat.

(** [re.search(r'<[a-zA-Z!]', s)]: the start of the first match. *)
Fixpoint first_tag (s : string) : option nat :=
  match s with
  | EmptyString => None
  | String c r =>
      let here :=
        Ascii.eqb c "<" &&
        match r with
        | String c' _ => is_letter c' || Ascii.eqb c' "!"
        | EmptyString => false
        end in
      if here then Some 0 else option_map S (first_tag r)
  end.

Section Agent.
Variable lib : Lib.
Context {World : Type}.
Variable llm_client : Client World.
Variable css_guide : string.

Definition _build_prompt (page_spec : PageSpec)
    (global_context : GlobalContext) (content_data : string) : string :=
  let style_hint :=
    if String.eqb (style global_context) "ted" then ted_style_hint
    else if String.eqb (style global_context) "business"
         then business_style_hint
    else EmptyString in
  let chart_hint :=
    if has_chart page_spec then chart_generation_hint else EmptyString in
  String.concat EmptyString
    ["You are an HTML code generator. You can ONLY output HTML code, nothing else.

# Task
Generate complete HTML code for PPT slide "; str_of_nat (slide_number page_spec); "

# Global Information
- PPT Title: "; ppt_title global_context; "
- Style: "; style global_context; "
- Color Scheme: "; py_repr lib (colors_value (colors global_context)); "
- Total Slides: "; str_of_nat (total_slides global_context); "

# This Page Information
- Page Number: "; str_of_nat (slide_number page_spec); "/"; str_of_nat (total_slides global_context); "
- Type: "; page_type page_spec; "
- Topic: "; topic page_spec; "
- Key Points: "; py_repr lib (JArr (map JStr (key_points page_spec))); "

# Style Requirements
"; style_hint; "

# Layout Suggestions
"; default EmptyString (assoc (page_type page_spec) layout_hints); "

"; chart_hint; "

# Content Data
"; take_chars 1000 content_data; "

"; css_guide; "

# ================================
# Strict Output Requirements (CRITICAL!)
# ================================

**You must strictly follow these rules, otherwise output will be rejected:**

1. **Output ONLY HTML code! Do NOT output any explanations, descriptions, comments, or design thoughts!**
2. **Do NOT output markdown code block markers! No ```html or ```!**
3. **Do NOT output descriptive text like "; dq; "Based on the content provided"; dq; ", "; dq; "I will create"; dq; ", "; dq; "## Design Notes"; dq; ", etc.!**
4. **Start directly with <!DOCTYPE html> and end with </html>!**
5. **HTML must be complete, self-contained page, 100vw × 100vh full-screen layout**
6. **Use colors from global color scheme, do not modify on your own**
7. **Must include complete <head> section, including Chart.js reference (if charts needed)**

**Forbidden Output Examples (These are all WRONG):**
❌ "; dq; "# Pet Market Analysis..."; dq; "
❌ "; dq; "Based on the content provided, I will create..."; dq; "
❌ "; dq; "```html"; dq; "
❌ "; dq; "## Design Notes"; dq; "
❌ "; dq; "Here is the HTML code:"; dq; "

**Correct Output Format (The ONLY correct format):**
✅ Direct output: <!DOCTYPE html><html lang="; dq; "en"; dq; "><head>...

**Layout Proportion Suggestions:**
- Header (title area): 10-15%, use text-4xl or text-5xl
- Content area: 70-80%, use flex-1
- Footer (page number, etc.): 5-10%, use text-sm or text-base

**Emphasis again: Output ONLY HTML code! No explanations! Start outputting HTML code immediately:**
"].

Definition speech_prompt (page_spec : PageSpec)
    (global_context : GlobalContext) (html_content : string) : string :=
  String.concat EmptyString
    ["PPT"; str_of_nat (slide_number page_spec); "

# 
"; default "None" (speech_scene global_context); "

# PPT
- PPT: "; ppt_title global_context; "
- : "; str_of_nat (slide_number page_spec); "/"; str_of_nat (total_slides global_context); "
- : "; page_type page_spec; "

# 
- : "; topic page_spec; "
- : "; py_repr lib (JArr (map JStr (key_points page_spec))); "

# 
"; take_chars 500 html_content; "  # HTML

# 
1. **"; default "None" (speech_scene global_context); "**
2. 
   - title(): 
   - section(): 
   - content(): 
   - conclusion(): 
3. 150-300
4. 
5. 
6. ****


"].

(** The arguments of the two model calls. *)
Definition page_request (prompt : string) : Request :=
  {| messages := [MkMessage "user" prompt];
     max_tokens := Some 2000;
     temperature := Some (9 # 10)%Q;
     response_format := None |}.

Definition speech_request (prompt : string) : Request :=
  {| messages := [MkMessage "user" prompt];
     max_tokens := Some 500;
     temperature := Some (7 # 10)%Q;
     response_format := None |}.

Definition _generate_speech_notes (page_spec : PageSpec)
    (global_context : GlobalContext) (content_data html_content : string)
  : M World string :=
  let prompt := speech_prompt page_spec global_context html_content in
  response ← chat_completion llm_client (speech_request prompt);
  content ← lift (receiver "strip" (get_content response));
  let speech_notes := strip content in
  mret speech_notes.

(** The cleaning of the model output in [generate_page_html]. *)
Definition clean_html (content : string) : string :=
  let html := strip content in
  let html :=
    match first_tag html with
    | Some start => drop_front start html
    | None => html
    end in
  let html := if startswith "```html" html then drop_front 7 html else html in
  let html := if startswith "```" html then drop_front 3 html else html in
  let html := if endswith "```" html then drop_back 3 html else html in
  let html := strip html in
  let html :=
    match first_tag html with
    | Some start => if (0 <? start)%nat then drop_front start html else html
    | None => html
    end in
  html.

(** Truth value of [global_context.speech_scene]. *)
Definition speech_requested (global_context : GlobalContext) : bool :=
  match speech_scene global_context with
  | Some scene => negb (is_empty scene)
  | None => false
  end.

Definition generate_page_html (page_spec : PageSpec)
    (global_context : GlobalContext) (content_data : string)
  : M World PageResult :=
  let prompt := _build_prompt page_spec global_context content_data in
  response ← chat_completion llm_client (page_request prompt);
  content ← lift (receiver "strip" (get_content response));
  let html := clean_html content in
  let result := {| html_content := strip html; speech_notes := None |} in
  if speech_requested global_context then
    speech_notes ← _generate_speech_notes page_spec global_context
                     content_data html;
    mret {| html_content := html_content result;
            speech_notes := Some speech_notes |}
  else mret result.

End Agent.
End Page.

(** ** The structured-output fallback of the gateway ([llm/client.py]) *)

Module Gateway.
Import Py Json Llm.

(** A pydantic model class producing records of type [T]:
    [model_json_schema] when the class has that attribute, and the call
    of the class on the unpacked data. *)
Record ResponseModel (T : Type) : Type := MkResponseModel {
  model_json_schema : option value;
  construct : value -> Result T
}.
Arguments model_json_schema {T} r.
Arguments construct {T} r data.

(** What the fallback returns: an instance of the model, or the decoded
    data when no model is given. *)
Inductive Structured (T : Type) : Type :=
| Instance_ (t : T)
| Data (data : value).
Arguments Instance_ {T} t.
Arguments Data {T} data.

Section Fallback.
Variable lib : Lib.
Context {World T : Type}.
Variable client : Client World.

Definition enhanced_prompt (prompt : string)
    (response_model : option (ResponseModel T)) : string :=
  match response_model with
  | Some rm =>
      match model_json_schema rm with
      | Some schema =>
          prompt ++ "

Please respond with a JSON object matching this schema:
```json
" ++ json_dumps lib (DumpOpts false (Some 2)) schema ++ "
```

Respond ONLY with valid JSON."
      | None => prompt
      end
  | None => prompt
  end.

(** The removal of code block markers in
    [_fallback_structured_response]. *)
Definition clean_fallback_content (content : string) : string :=
  let content := strip content in
  let content :=
    if startswith "```json" content then drop_front 7 content else content in
  let content :=
    if startswith "```" content then drop_front 3 content else content in
  let content :=
    if endswith "```" content then drop_back 3 content else content in
  strip content.

(** The statements after the model call: from the text of the response
    to the value returned. *)
Definition parse_fallback_content (response_model : option (ResponseModel T))
    (content : string) : Result (Structured T) :=
  let content := clean_fallback_content content in
  data ← json_loads lib content;
  match response_model with
  | Some rm => t ← construct rm data; mret (Instance_ t)
  | None => mret (Data data)
  end.

Definition fallback_request (prompt : string) (system_prompt : option string)
    (response_model : option (ResponseModel T)) : Request :=
  let messages :=
    (match system_prompt with
     | Some sp => if is_empty sp then [] else [MkMessage "system" sp]
     | None => []
     end ++ [MkMessage "user" (enhanced_prompt prompt response_model)])%list in
  {| messages := messages;
     max_tokens := None;
     temperature := None;
     response_format := Some (JObj [("type", JStr "json_object")]) |}.

Definition _fallback_structured_response (prompt : string)
    (system_prompt : option string)
    (response_model : option (ResponseModel T)) : M World (Structured T) :=
  result ← chat_completion client
             (fallback_request prompt system_prompt response_model);
  content ← lift (receiver "strip" (get_content result));
  lift (parse_fallback_content response_model content).

End Fallback.
End Gateway.

(** ** The background task ([backend/tasks.py]) *)

Module Tasks.
Import Py Json.

Inductive ProjectStatus : Type :=
| PENDING | PROCESSING | COMPLETED | FAILED | CANCELLED.

(** A row of the table [projects], as far as the task reads or writes
    its columns. *)
Record Project : Type := MkProject {
  id : Z;
  title : string;
  query : string;
  document_type : string;
  output_format : option string;
  generate_images : bool;
  status : ProjectStatus;
  progress : Z;
  error_message : option string;
  output_path : option string;
  output_size : option nat;
  project_metadata : option string;
  search_results_count : Z;
  processing_time : option Q;
  updated_at : option string;
  completed_at : option string
}.

(** Assignments to the attributes of the loaded object. *)
Definition set_status (v : ProjectStatus) (p : Project) : Project :=
  {| id := id p; title := title p; query := query p;
     document_type := document_type p; output_format := output_format p;
     generate_images := generate_images p; status := v;
     progress := progress p; error_message := error_message p;
     output_path := output_path p; output_size := output_size p;
     project_metadata := project_metadata p;
     search_results_count := search_results_count p;
     processing_time := processing_time p; updated_at := updated_at p;
     completed_at := completed_at p |}.

Definition set_progress (v : Z) (p : Project) : Project :=
  {| id := id p; title := title p; query := query p;
     document_type := document_type p; output_format := output_format p;
     generate_images := generate_images p; status := status p;
     progress := v; error_message := error_message p;
     output_path := output_path p; output_size := output_size p;
     project_metadata := project_metadata p;
     search_results_count := search_results_count p;
     processing_time := processing_time p; updated_at := updated_at p;
     completed_at := completed_at p |}.

Definition set_error_message (v : option string) (p : Project) : Project :=
  {| id := id p; title := title p; query := query p;
     document_type := document_type p; output_format := output_format p;
     generate_images := generate_images p; status := status p;
     progress := progress p; error_message := v;
     output_path := output_path p; output_size := output_size p;
     project_metadata := project_metadata p;
     search_results_count := search_results_count p;
     processing_time := processing_time p; updated_at := updated_at p;
     completed_at := completed_at p |}.

Definition set_output_path (v : option string) (p : Project) : Project :=
  {| id := id p; title := title p; query := query p;
     document_type := document_type p; output_format := output_format p;
     generate_images := generate_images p; status := status p;
     progress := progress p; error_message := error_message p;
     output_path := v; output_size := output_size p;
     project_metadata := project_metadata p;
     search_results_count := search_results_count p;
     processing_time := processing_time p; updated_at := updated_at p;
     completed_at := completed_at p |}.

Definition set_output_size (v : option nat) (p : Project) : Project :=
  {| id := id p; title := title p; query := query p;
     document_type := document_type p; output_format := output_format p;
     generate_images := generate_images p; status := status p;
     progress := progress p; error_message := error_message p;
     output_path := output_path p; output_size := v;
     project_metadata := project_metadata p;
     search_results_count := search_results_count p;
     processing_time := processing_time p; updated_at := updated_at p;
     completed_at := completed_at p |}.

Definition set_project_metadata (v : option string) (p : Project) : Project :=
  {| id := id p; title := title p; query := query p;
     document_type := document_type p; output_format := output_format p;
     generate_images := generate_images p; status := status p;
     progress := progress p; error_message := error_message p;
     output_path := output_path p; output_size := output_size p;
     project_metadata := v; search_results_count := search_results_count p;
     processing_time := processing_time p; updated_at := updated_at p;
     completed_at := completed_at p |}.

Definition set_search_results_count (v : Z) (p : Project) : Project :=
  {| id := id p; title := title p; query := query p;
     document_type := document_type p; output_format := output_format p;
     generate_images := generate_images p; status := status p;
     progress := progress p; error_message := error_message p;
     output_path := output_path p; output_size := output_size p;
     project_metadata := project_metadata p; search_results_count := v;
     processing_time := processing_time p; updated_at := updated_at p;
     completed_at := completed_at p |}.

Definition set_processing_time (v : option Q) (p : Project) : Project :=
  {| id := id p; title := title p; query := query p;
     document_type := document_type p; output_format := output_format p;
     generate_images := generate_images p; status := status p;
     progress := progress p; error_message := error_message p;
     output_path := output_path p; output_size := output_size p;
     project_metadata := project_metadata p;
     search_results_count := search_results_count p; processing_time := v;
     updated_at := updated_at p; completed_at := completed_at p |}.

Definition set_updated_at (v : option string) (p : Project) : Project :=
  {| id := id p; title := title p; query := query p;
     document_type := document_type p; output_format := output_format p;
     generate_images := generate_images p; status := status p;
     progress := progress p; error_message := error_message p;
     output_path := output_path p; output_size := output_size p;
     project_metadata := project_metadata p;
     search_results_count := search_results_count p;
     processing_time := processing_time p; updated_at := v;
     completed_at := completed_at p |}.

Definition set_completed_at (v : option string) (p : Project) : Project :=
  {| id := id p; title := title p; query := query p;
     document_type := document_type p; output_format := output_format p;
     generate_images := generate_images p; status := status p;
     progress := progress p; error_message := error_message p;
     output_path := output_path p; output_size := output_size p;
     project_metadata := project_metadata p;
     search_results_count := search_results_count p;
     processing_time := processing_time p; updated_at := updated_at p;
     completed_at := v |}.

(** The dictionary returned by the search agent. *)
Record SearchResult : Type := MkSearchResult {
  r_status : option string;
  r_error : option string;
  r_search_results_count : option Z;
  r_sources : option value;
  r_subtasks : option value;
  r_output_path : option string;
  r_project_dir : option string
}.

(** The messages of [ConnectionManager]. *)
Inductive WsMessage : Type :=
| ProgressUpdate (project_id progress : Z) (status message : string)
| CompletionNotification (project_id : Z) (output_path : string)
| ErrorNotification (project_id : Z) (error : string).

(** What an observer of one run sees, in the order it happens: a row
    committed to the database and a message delivered to the client. *)
Inductive Event : Type :=
| Committed (row : Project)
| Delivered (msg : WsMessage).

(** The state of a run: the object returned by the query once it is
    loaded, and the events so far. *)
Record Run : Type := MkRun {
  project : option Project;
  trace : list Event
}.

(** What the task does not control.  The faults and the delivery may
    depend on everything that happened before. *)
Record Env : Type := MkEnv {
  first_project : Result (option Project);
  commit_fault : list Event -> Project -> option exn;
  delivers : list Event -> WsMessage -> bool;
  init_agents : option exn;
  search : Project -> Result SearchResult;
  path_exists : string -> bool;
  getsize : string -> Result nat;
  elapsed : Q;
  utcnow : string
}.

Section Task.
Variable lib : Lib.
Variable env : Env.

(** The object [project]; the name is unbound until the query has
    returned. *)
Definition the_project : M Run Project := fun s =>
  match project s with
  | Some p => (Ok p, s)
  | None =>
      (Raise (Exn "UnboundLocalError"
                  "cannot access local variable 'project'"), s)
  end.

(** [project.attr = v] *)
Definition assign (set : Project -> Project) : M Run unit :=
  p ← the_project;
  modify (fun s => MkRun (Some (set p)) (trace s)).

(** [db.commit()]: the row is written as the object stands, or the
    commit raises and the object stays as assigned. *)
Definition commit : M Run unit :=
  p ← the_project;
  s ← get;
  match commit_fault env (trace s) p with
  | Some e => raise e
  | None => modify (fun s => MkRun (project s) (trace s ++ [Committed p]))
  end.

(** [send_personal_message]: the message reaches the client when it is
    connected and the socket accepts it; a failure is swallowed. *)
Definition send_personal_message (msg : WsMessage) : M Run unit :=
  s ← get;
  if delivers env (trace s) msg
  then modify (fun s => MkRun (project s) (trace s ++ [Delivered msg]))
  else mret tt.

Definition send_progress_update (project_id progress : Z)
    (status message : string) : M Run unit :=
  send_personal_message (ProgressUpdate project_id progress status message).

Definition send_completion_notification (project_id : Z)
    (output_path : string) : M Run unit :=
  send_personal_message (CompletionNotification project_id output_path).

Definition send_error_notification (project_id : Z) (error : string)
  : M Run unit :=
  send_personal_message (ErrorNotification project_id error).

(** [db.query(Project).filter(...).first()], bound to [project]. *)
Definition load_project : M Run (option Project) := fun s =>
  match first_project env with
  | Ok found => (Ok found, MkRun found (trace s))
  | Raise e => (Raise e, s)
  end.

(** [os.path.join(a, b)] *)
Definition os_path_join (a b : string) : string :=
  if endswith "/" a then a ++ b else a ++ "/" ++ b.

(** The search for the generated document when the result names none. *)
Definition resolve_output_path (result : SearchResult) : option string :=
  let output_path := r_output_path result in
  if truthy output_path then output_path
  else
    let project_dir := r_project_dir result in
    match project_dir with
    | Some dir =>
        if is_empty dir then output_path
        else
          let html_path :=
            os_path_join (os_path_join dir "reports") "FINAL_REPORT.html" in
          if path_exists env html_path then Some html_path
          else
            let md_path :=
              os_path_join (os_path_join dir "reports") "FINAL_REPORT.md" in
            if path_exists env md_path then Some md_path else output_path
    | None => output_path
    end.

(** The [try] block, after the project has been found. *)
Definition generate_document_steps (project_id user_id : Z) : M Run unit :=
  _ ← assign (set_status PROCESSING);
  _ ← assign (set_progress 0);
  _ ← commit;
  _ ← send_progress_update project_id 0 "processing"
        "Starting document generation...";
  _ ← match init_agents env with Some e => raise e | None => mret tt end;
  _ ← assign (set_progress 10);
  _ ← commit;
  _ ← send_progress_update project_id 10 "processing"
        "Initialized search agent...";
  _ ← assign (set_progress 20);
  _ ← commit;
  _ ← send_progress_update project_id 20 "processing"
        "Executing deep search...";
  p ← the_project;
  result ← lift (search env p);
  _ ← assign (set_progress 60);
  _ ← commit;
  _ ← send_progress_update project_id 60 "processing"
        "Search completed, generating document...";
  _ ← (if match r_status result with
           | Some st => String.eqb st "success"
           | None => false
           end
       then mret tt
       else raise (Exn "Exception"
                     (default "Unknown error during search" (r_error result))));
  _ ← assign (set_search_results_count
                (default 0%Z (r_search_results_count result)));
  _ ← assign (set_project_metadata
                (Some (json_dumps lib (DumpOpts true None)
                         (JObj [("sources", default (JArr []) (r_sources result));
                                ("subtasks",
                                 default (JArr []) (r_subtasks result))]))));
  _ ← assign (set_progress 80);
  _ ← commit;
  _ ← send_progress_update project_id 80 "processing"
        "Finalizing document...";
  let output_path := resolve_output_path result in
  match output_path with
  | Some path =>
      if negb (is_empty path) && path_exists env path then
        file_size ← lift (getsize env path);
        _ ← assign (set_status COMPLETED);
        _ ← assign (set_progress 100);
        _ ← assign (set_output_path (Some path));
        _ ← assign (set_output_size (Some file_size));
        _ ← assign (set_processing_time (Some (elapsed env)));
        _ ← assign (set_completed_at (Some (utcnow env)));
        _ ← commit;
        send_completion_notification project_id path
      else
        raise (Exn "Exception"
                 ("Generated document not found. Project dir: "
                  ++ default "None" (r_project_dir result)))
  | None =>
      raise (Exn "Exception"
               ("Generated document not found. Project dir: "
                ++ default "None" (r_project_dir result)))
  end.

(** The [except] block. *)
Definition on_failure (project_id user_id : Z) (e : exn) : M Run unit :=
  _ ← assign (set_status FAILED);
  _ ← assign (set_error_message (Some (exn_str e)));
  _ ← assign (set_updated_at (Some (utcnow env)));
  _ ← commit;
  send_error_notification project_id (exn_str e).

Definition generate_document_task (project_id user_id : Z) : M Run unit :=
  try_finally
    (try_except
       (found ← load_project;
        match found with
        | None => mret tt
        | Some _ => generate_document_steps project_id user_id
        end)
       (on_failure project_id user_id))
    (mret tt).

(** The progress values an observer has seen, oldest first. *)
Definition progress_of (ev : Event) : option Z :=
  match ev with
  | Committed row => Some (progress row)
  | Delivered (ProgressUpdate _ p _ _) => Some p
  | Delivered _ => None
  end.

Definition reported_progress (t : list Event) : list Z :=
  omap progress_of t.

End Task.
End Tasks.

(** ** A concrete library, to run the definitions on examples

    [loads] decodes JSON text written in ASCII without [\u] escapes and
    without the constants [NaN] and [Infinity]; on such text it returns
    the value [json.loads] returns and raises where it raises (the text
    of the exception is not that of Python).  [dumps] and [repr] write
    values whose strings are ASCII and whose numbers are integers,
    [to_bool] follows the table of pydantic for the values [loads]
    produces.  The theorems below hold for any library; these instances
    are used where a definition is evaluated on a concrete input. *)

Module Ref.
Import Py Json.

Definition decode_error (msg : string) : exn := Exn "JSONDecodeError" msg.

Definition is_json_ws (c : ascii) : bool :=
  let n := nat_of_ascii c in
  ((n =? 32) || (n =? 9) || (n =? 10) || (n =? 13))%nat.

Fixpoint skip_ws (s : string) : string :=
  match s with
  | String c r => if is_json_ws c then skip_ws r else s
  | EmptyString => s
  end.

Definition unescape (c : ascii) : option ascii :=
  let n := nat_of_ascii c in
  if (n =? 34)%nat then Some c             (* quote *)
  else if (n =? 92)%nat then Some c        (* backslash *)
  else if (n =? 47)%nat then Some c        (* slash *)
  else if (n =? 98)%nat then Some (ascii_of_nat 8)
  else if (n =? 102)%nat then Some (ascii_of_nat 12)
  else if (n =? 110)%nat then Some (ascii_of_nat 10)
  else if (n =? 114)%nat then Some (ascii_of_nat 13)
  else if (n =? 116)%nat then Some (ascii_of_nat 9)
  else None.

(** The characters of a string literal after its opening quote, and the
    text after its closing quote. *)
Fixpoint scan_string (s : string) : option (string * string) :=
  match s with
  | EmptyString => None
  | String c r =>
      let n := nat_of_ascii c in
      if (n =? 34)%nat then Some (EmptyString, r)
      else if (n =? 92)%nat then
        match r with
        | String e r' =>
            match unescape e, scan_string r' with
            | Some c', Some (body, rest) => Some (String c' body, rest)
            | _, _ => None
            end
        | EmptyString => None
        end
      else if (n <? 32)%nat then None
      else
        match scan_string r with
        | Some (body, rest) => Some (String c body, rest)
        | None => None
        end
  end.

Fixpoint span_digits (s : string) : string * string :=
  match s with
  | String c r =>
      if is_digit c then let '(d, rest) := span_digits r in (String c d, rest)
      else (EmptyString, s)
  | EmptyString => (EmptyString, s)
  end.

(** A number: sign, integer part, fraction, exponent. *)
Definition scan_number (s : string) : option (string * string) :=
  let '(sign, s1) :=
    match s with
    | String "-" r => ("-", r)
    | _ => (EmptyString, s)
    end in
  let '(int_part, s2) := span_digits s1 in
  let int_ok :=
    match int_part with
    | EmptyString => false
    | String "0" (String _ _) => false
    | _ => true
    end in
  if negb int_ok then None
  else
    let '(frac, s3) :=
      match s2 with
      | String "." r =>
          let '(d, rest) := span_digits r in
          if is_empty d then (EmptyString, s2) else ("." ++ d, rest)
      | _ => (EmptyString, s2)
      end in
    let '(expo, s4) :=
      match s3 with
      | String e r =>
          if Ascii.eqb e "e" || Ascii.eqb e "E" then
            let '(esign, r1) :=
              match r with
              | String "+" r' => ("+", r')
              | String "-" r' => ("-", r')
              | _ => (EmptyString, r)
              end in
            let '(d, rest) := span_digits r1 in
            if is_empty d then (EmptyString, s3)
            else (String e esign ++ d, rest)
          else (EmptyString, s3)
      | EmptyString => (EmptyString, s3)
      end in
    Some (sign ++ int_part ++ frac ++ expo, s4).

Fixpoint parse_value (fuel : nat) (s : string) : option (value * string) :=
  match fuel with
  | O => None
  | S fuel' =>
      match skip_ws s with
      | EmptyString => None
      | String c r =>
          let n := nat_of_ascii c in
          if (n =? 34)%nat then
            match scan_string r with
            | Some (body, rest) => Some (JStr body, rest)
            | None => None
            end
          else if Ascii.eqb c "{" then
            match skip_ws r with
            | String "}" rest => Some (JObj [], rest)
            | _ =>
                match parse_members fuel' r with
                | Some (m, rest) =>
                    Some (JObj (fold_left (fun d kv => dict_set (fst kv) (snd kv) d)
                                          m []), rest)
                | None => None
                end
            end
          else if Ascii.eqb c "[" then
            match skip_ws r with
            | String "]" rest => Some (JArr [], rest)
            | _ =>
                match parse_items fuel' r with
                | Some (l, rest) => Some (JArr l, rest)
                | None => None
                end
            end
          else if String.prefix "true" (String c r)
          then Some (JBool true, drop_front 4 (String c r))
          else if String.prefix "false" (String c r)
          then Some (JBool false, drop_front 5 (String c r))
          else if String.prefix "null" (String c r)
          then Some (JNull, drop_front 4 (String c r))
          else
            match scan_number (String c r) with
            | Some (lexeme, rest) => Some (JNum lexeme, rest)
            | None => None
            end
      end
  end
with parse_items (fuel : nat) (s : string) : option (list value * string) :=
  match fuel with
  | O => None
  | S fuel' =>
      match parse_value fuel' s with
      | Some (v, rest) =>
          match skip_ws rest with
          | String "," rest' =>
              match parse_items fuel' rest' with
              | Some (l, rest'') => Some (v :: l, rest'')
              | None => None
              end
          | String "]" rest' => Some ([v], rest')
          | _ => None
          end
      | None => None
      end
  end
with parse_members (fuel : nat) (s : string)
  : option (list (string * value) * string) :=
  match fuel with
  | O => None
  | S fuel' =>
      match skip_ws s with
      | String q r =>
          if negb (nat_of_ascii q =? 34)%nat then None
          else
            match scan_string r with
            | Some (k, r1) =>
                match skip_ws r1 with
                | String ":" r2 =>
                    match parse_value fuel' r2 with
                    | Some (v, r3) =>
                        match skip_ws r3 with
                        | String "," r4 =>
                            match parse_members fuel' r4 with
                            | Some (m, r5) => Some ((k, v) :: m, r5)
                            | None => None
                            end
                        | String "}" r4 => Some ([(k, v)], r4)
                        | _ => None
                        end
                    | None => None
                    end
                | _ => None
                end
            | None => None
            end
      | EmptyString => None
      end
  end.

Definition loads (s : string) : Result value :=
  match parse_value (2 * String.length s + 4) s with
  | Some (v, rest) =>
      if is_empty (skip_ws rest) then Ok v
      else Raise (decode_error "Extra data")
  | None => Raise (decode_error "Expecting value")
  end.

Definition hex_digit (n : nat) : ascii :=
  if (n <? 10)%nat then ascii_of_nat (48 + n) else ascii_of_nat (87 + n).

Definition backslash : string := String (ascii_of_nat 92) EmptyString.

Definition escape_char (c : ascii) : string :=
  let n := nat_of_ascii c in
  if (n =? 34)%nat then backslash ++ dq
  else if (n =? 92)%nat then backslash ++ backslash
  else if (n =? 10)%nat then backslash ++ "n"
  else if (n =? 13)%nat then backslash ++ "r"
  else if (n =? 9)%nat then backslash ++ "t"
  else if (n =? 8)%nat then backslash ++ "b"
  else if (n =? 12)%nat then backslash ++ "f"
  else if (n <? 32)%nat then
    backslash ++ "u00" ++ String (hex_digit (n / 16))
                            (String (hex_digit (n mod 16)) EmptyString)
  else String c EmptyString.

Fixpoint escape (s : string) : string :=
  match s with
  | EmptyString => EmptyString
  | String c r => escape_char c ++ escape r
  end.

Fixpoint spaces (n : nat) : string :=
  match n with
  | O => EmptyString
  | S n' => String " " (spaces n')
  end.

Definition newline : string := String (ascii_of_nat 10) EmptyString.

(** Opening, separating and closing text of a container at nesting
    depth [level]. *)
Definition layout (indent : option nat) (level : nat)
  : string * string * string :=
  match indent with
  | Some w =>
      (newline ++ spaces (w * S level),
       "," ++ newline ++ spaces (w * S level),
       newline ++ spaces (w * level))
  | None => (EmptyString, ", ", EmptyString)
  end.

Fixpoint dumps_at (indent : option nat) (level : nat) (v : value) : string :=
  match v with
  | JNull => "null"
  | JBool true => "true"
  | JBool false => "false"
  | JNum lexeme => lexeme
  | JStr s => quoted (escape s)
  | JArr [] => "[]"
  | JArr items =>
      let '(open, sep, close) := layout indent level in
      "[" ++ open
      ++ String.concat sep (map (dumps_at indent (S level)) items)
      ++ close ++ "]"
  | JObj [] => "{}"
  | JObj members =>
      let '(open, sep, close) := layout indent level in
      "{" ++ open
      ++ String.concat sep
           (map (fun kv => quoted (escape (fst kv)) ++ ": "
                           ++ dumps_at indent (S level) (snd kv)) members)
      ++ close ++ "}"
  end.

Definition dumps (opts : dump_opts) (v : value) : string :=
  dumps_at (indent opts) 0 v.

Definition lower (c : ascii) : ascii :=
  let n := nat_of_ascii c in
  if ((65 <=? n) && (n <=? 90))%nat then ascii_of_nat (n + 32) else c.

Fixpoint lowercase (s : string) : string :=
  match s with
  | EmptyString => EmptyString
  | String c r => String (lower c) (lowercase r)
  end.

Definition mem (x : string) (l : list string) : bool :=
  existsb (String.eqb x) l.

Definition to_bool (v : value) : option bool :=
  match v with
  | JBool b => Some b
  | JNum lexeme =>
      if mem lexeme ["0"; "0.0"] then Some false
      else if mem lexeme ["1"; "1.0"] then Some true
      else None
  | JStr s =>
      if mem (lowercase s) ["0"; "off"; "f"; "false"; "n"; "no"] then Some false
      else if mem (lowercase s) ["1"; "on"; "t"; "true"; "y"; "yes"]
      then Some true
      else None
  | _ => None
  end.

Definition repr_char (q : ascii) (c : ascii) : string :=
  let n := nat_of_ascii c in
  if Ascii.eqb c q || (n =? 92)%nat then backslash ++ String c EmptyString
  else if (n =? 10)%nat then backslash ++ "n"
  else if (n =? 13)%nat then backslash ++ "r"
  else if (n =? 9)%nat then backslash ++ "t"
  else if ((n <? 32) || (n =? 127))%nat then
    backslash ++ "x" ++ String (hex_digit (n / 16))
                          (String (hex_digit (n mod 16)) EmptyString)
  else String c EmptyString.

Definition repr_str (s : string) : string :=
  let q :=
    if contains "'" s && negb (contains dq s) then ascii_of_nat 34
    else "'"%char in
  let fix body (s : string) : string :=
    match s with
    | EmptyString => EmptyString
    | String c r => repr_char q c ++ body r
    end in
  String q (body s ++ String q EmptyString).

Fixpoint repr (v : value) : string :=
  match v with
  | JNull => "None"
  | JBool true => "True"
  | JBool false => "False"
  | JNum lexeme => lexeme
  | JStr s => repr_str s
  | JArr items => "[" ++ String.concat ", " (map repr items) ++ "]"
  | JObj members =>
      "{" ++ String.concat ", "
               (map (fun kv => repr_str (fst kv) ++ ": " ++ repr (snd kv))
                    members) ++ "}"
  end.

Definition lib : Lib :=
  {| json_loads := loads;
     json_dumps := dumps;
     lax_bool := to_bool;
     py_repr := repr;
     rejection_message := fun v => "rejected: " ++ repr v |}.

End Ref.

(** ** Vocabulary of the properties *)

Module Chain.
Import Py MultiSlide.

(** The slide a navigation pointer names. *)
Definition find_slide (name : string) (ms : list SlideMeta) : option SlideMeta :=
  List.find (fun m => String.eqb (file_name m) name) ms.

(** The slides met when following [next] from [cur], at most [fuel]
    steps. *)
Fixpoint walk (ms : list SlideMeta) (fuel : nat) (cur : SlideMeta)
  : list SlideMeta :=
  cur ::
  match fuel with
  | O => []
  | S fuel' =>
      match next cur with
      | None => []
      | Some name =>
          match find_slide name ms with
          | Some m => walk ms fuel' m
          | None => []
          end
      end
  end.

(** The entry that the loop of [_create_slides_metadata] builds at index
    [i] for [slide_data], its two pointers read from [slides_data] by
    position. *)
Definition meta_of (slides_data : list SlideData) (i : nat)
    (slide_data : SlideData) : SlideMeta :=
  {| slide_id := "slide_" ++ fmt02d (i + 1);
     slide_number := i + 1;
     file_name := slide_file (i + 1) (get_type slide_data);
     type := get_type slide_data;
     title := default ("Slide " ++ str_of_nat (i + 1)) (sd_title slide_data);
     template := default (get_type slide_data) (sd_template slide_data);
     prev := if (0 <? i)%nat
             then (fun d => slide_file (i + 1 - 1) (get_type d))
                    <$> slides_data !! (i - 1)
             else None;
     next := if (i <? length slides_data - 1)%nat
             then (fun d => slide_file (i + 1 + 1) (get_type d))
                    <$> slides_data !! (i + 1)
             else None |}.

(** The file name of the slide at a position, if that position exists. *)
Definition file_at (ms : list SlideMeta) (i : nat) : option string :=
  file_name <$> ms !! i.

(** What each unit of a run of [generate_ppt] came to: the entries of the
    list that [asyncio.gather] returns.  [None] when the run does not
    reach the generation of the slides. *)
Definition unit_results (lib : Json.Lib) (env : Env)
    (slides_data : list SlideData) (ppt_config : PptConfig)
    (output_dir : string) (fs : FS) : option (list (Result string)) :=
  match _create_directory_structure env output_dir fs with
  | (Ok ppt_dir, fs1) =>
      match _create_slides_metadata env slides_data ppt_config with
      | Ok metadata =>
          match slide_tasks lib env metadata ppt_dir 0 slides_data with
          | Ok tasks => Some (fst (run_all tasks fs1))
          | Raise _ => None
          end
      | Raise _ => None
      end
  | (Raise _, _) => None
  end.

Definition metadata_path (output_dir : string) : string :=
  path_join (path_join (path_join output_dir "ppt") "data")
            "slides_metadata.json".

Definition empty_fs : FS := MkFS ∅ ∅.

End Chain.

Module Palette.
Import Py Design.

Definition is_hex_digit (c : ascii) : bool :=
  let n := nat_of_ascii c in
  (((48 <=? n) && (n <=? 57)) || ((65 <=? n) && (n <=? 70))
   || ((97 <=? n) && (n <=? 102)))%nat.

(** [#RRGGBB] *)
Definition is_hex_color (s : string) : bool :=
  match s with
  | String "#" r => (String.length r =? 6)%nat && all_chars is_hex_digit r
  | _ => false
  end.

Definition valid_design (d : DesignSpec) : bool :=
  is_hex_color (primary_color d) && is_hex_color (secondary_color d)
  && is_hex_color (accent_color d) && is_hex_color (background_color d)
  && is_hex_color (text_color d) && is_hex_color (text_secondary_color d)
  && (length (chart_colors d) =? 5)%nat.

(** The colors and the palette of a validated record are the strings of
    the object it was built from. *)
Definition copied_from (members : list (string * Json.value)) (spec : DesignSpec)
  : Prop :=
  Json.lookup "primary_color" members = Some (Json.JStr (primary_color spec))
  /\ Json.lookup "secondary_color" members = Some (Json.JStr (secondary_color spec))
  /\ Json.lookup "accent_color" members = Some (Json.JStr (accent_color spec))
  /\ Json.lookup "background_color" members = Some (Json.JStr (background_color spec))
  /\ Json.lookup "text_color" members = Some (Json.JStr (text_color spec))
  /\ Json.lookup "text_secondary_color" members
     = Some (Json.JStr (text_secondary_color spec))
  /\ exists items, Json.lookup "chart_colors" members = Some (Json.JArr items)
                   /\ all_str items = Some (chart_colors spec).

(** The style tags that have guidance in the prompt. *)
Definition known_styles : list string := map fst style_guides.

End Palette.

Module Fence.
Import Py.

(** Text that, once trimmed, opens with a brace and closes with one: the
    way a JSON object is written. *)
Definition is_object_text (p : string) : bool :=
  match strip p with
  | String c r => Ascii.eqb c "{" && endswith "}" r
  | EmptyString => false
  end.

(** The opening marker of a code block, with or without the language. *)
Definition is_fence (f : string) : bool :=
  String.eqb f "```json" || String.eqb f "```".

End Fence.

(** The staircase of progress values. *)
Module Staircase.
Import Py Tasks.

(** The values assigned to [project.progress] in the task. *)
Definition checkpoints : list Z := [0; 10; 20; 60; 80; 100]%Z.

Fixpoint nondecreasing (l : list Z) : Prop :=
  match l with
  | a :: (b :: _) as rest => (a <= b)%Z /\ nondecreasing rest
  | _ => True
  end.

(** A run starts with [project] unbound and nothing reported. *)
Definition start : Run := MkRun None [].

(** What holds of everything reported so far, while the loaded project
    has progress [b]. *)
Definition at_step (b : Z) (s : Run) : Prop :=
  exists p, project s = Some p /\ progress p = b /\ In b checkpoints
            /\ nondecreasing (reported_progress (trace s))
            /\ Forall (fun v => (v <= b)%Z /\ In v checkpoints)
                      (reported_progress (trace s)).

(** The project is loaded and nothing has been reported yet. *)
Definition loaded (s : Run) : Prop :=
  (exists p, project s = Some p) /\ trace s = [].

(** The states in which an exception can leave the [try] block. *)
Definition interrupted (s : Run) : Prop :=
  s = start \/ exists b, at_step b s.

Definition staircase (s : Run) : Prop :=
  nondecreasing (reported_progress (trace s))
  /\ Forall (fun v => (0 <= v <= 100)%Z /\ In v checkpoints)
            (reported_progress (trace s)).

(** A computation started in a state satisfying [P] ends in a state
    satisfying [Q] when it returns and [E] when it raises. *)
Definition hoare {A} (P : Run -> Prop) (m : M Run A)
    (Q : A -> Run -> Prop) (E : Run -> Prop) : Prop :=
  forall s, P s ->
    match m s with
    | (Ok a, s') => Q a s'
    | (Raise _, s') => E s'
    end.

End Staircase.

(** A provider that answers from a script: each call consumes the next
    entry, whatever the request. *)
Module Scripted.
Import Py Llm.

Definition Script : Type := list (Result ChatResponse).

Definition client : Client Script :=
  {| chat_completion := fun _ script =>
       match script with
       | r :: script' => (r, script')
       | [] => (Raise (Exn "ConnectionError" "no answer"), [])
       end |}.

Definition says (text : string) : Result ChatResponse :=
  Ok {| resp_content := Text text; resp_model := "m";
        resp_finish_reason := "stop" |}.

Definition fails (msg : string) : Result ChatResponse :=
  Raise (Exn "ConnectionError" msg).


End Scripted.

(** ** Concrete inputs *)

Module Examples.
Import Py Json.

Definition member (k v : string) : string := quoted k ++ ": " ++ v.

(** A response that is a JSON object with every field of [DesignSpec],
    colors given by name and a palette of one entry. *)
Definition loose_design_text : string :=
  "{" ++ String.concat ", "
    [member "primary_color" (quoted "red");
     member "secondary_color" (quoted "blue");
     member "accent_color" (quoted "#fff");
     member "background_color" (quoted "white");
     member "text_color" (quoted "black");
     member "text_secondary_color" (quoted "grey");
     member "title_font_size" (quoted "2.5rem");
     member "content_font_size" (quoted "1rem");
     member "font_family" (quoted "serif");
     member "layout_style" (quoted "modern");
     member "spacing" (quoted "normal");
     member "border_radius" (quoted "1rem");
     member "use_shadows" "true";
     member "use_gradients" "true";
     member "animation_style" (quoted "none");
     member "chart_colors" ("[" ++ quoted "red" ++ "]")] ++ "}".

(** A small target record and its model class. *)
Record Answer : Type := MkAnswer { answer : string }.

Definition answer_model : Gateway.ResponseModel Answer :=
  {| Gateway.model_json_schema := Some (JObj [("type", JStr "object")]);
     Gateway.construct := fun data =>
       match data with
       | JObj m =>
           match lookup "answer" m with
           | Some (JStr s) => Ok (MkAnswer s)
           | Some _ =>
               Raise (Exn "ValidationError" "answer: Input should be a valid string")
           | None => Raise (Exn "ValidationError" "answer: Field required")
           end
       | _ => Raise (Exn "TypeError" "argument after ** must be a mapping")
       end |}.

Definition bare_answer : string := "{" ++ member "answer" (quoted "42") ++ "}".

(** The same object inside a code block, with prose before and after. *)
Definition wrapped_answer : string :=
  "Here is the JSON you asked for:
```json
" ++ bare_answer ++ "
```
Let me know if you need anything else.".

Definition newline : string := String (ascii_of_nat 10) EmptyString.

(** A slide that comes with its HTML. *)
Definition slide (html : string) : MultiSlide.SlideData :=
  MultiSlide.MkSlideData None None None None (Some html).

Definition five_slides : list MultiSlide.SlideData :=
  [slide "<html>one</html>"; slide "<html>two</html>";
   slide "<html>three</html>"; slide "<html>four</html>";
   slide "<html>five</html>"].

Definition pets_config : MultiSlide.PptConfig :=
  MultiSlide.MkPptConfig (Some "Pets") None None.

(** A template engine that knows the two navigation pages and renders
    them as the list of the file names in the metadata. *)
Definition render_listing (name : string) (args : MultiSlide.render_args)
  : Result string :=
  match args with
  | MultiSlide.NavArgs md =>
      Ok (String.concat "," (map MultiSlide.file_name (MultiSlide.slides md)))
  | MultiSlide.SlideArgs _ => Raise (Exn "TemplateNotFound" name)
  end.

(** An environment in which exactly the writes to [path] fail. *)
Definition env_failing_write (path : string) : MultiSlide.Env :=
  {| MultiSlide.io_fault := fun _ op =>
       match op with
       | MultiSlide.WriteText p _ =>
           if String.eqb p path
           then Some (Exn "OSError" "No space left on device")
           else None
       | MultiSlide.Mkdir _ => None
       end;
     MultiSlide.render_template := render_listing;
     MultiSlide.now := "2024-05-01 12:00:00";
     MultiSlide.uuid4 := fun _ => "00000000-0000-4000-8000-000000000000" |}.

(** The third slide cannot be written. *)
Definition env_third_fails : MultiSlide.Env :=
  env_failing_write "out/ppt/slides/slide_03_content.html".

(** Every slide is written, the metadata cannot be. *)
Definition env_save_fails : MultiSlide.Env :=
  env_failing_write "out/ppt/data/slides_metadata.json".

(** A project waiting to be generated, and two environments for its
    run: in the first everything works and the report is found where the
    search says; in the second the search raises. *)
Definition pets_project : Tasks.Project :=
  {| Tasks.id := 7; Tasks.title := "Pets"; Tasks.query := "pet market 2024";
     Tasks.document_type := "report"; Tasks.output_format := Some "html";
     Tasks.generate_images := false; Tasks.status := Tasks.PENDING;
     Tasks.progress := 0; Tasks.error_message := None;
     Tasks.output_path := None; Tasks.output_size := None;
     Tasks.project_metadata := None; Tasks.search_results_count := 0;
     Tasks.processing_time := None; Tasks.updated_at := None;
     Tasks.completed_at := None |}.

Definition found_report : Tasks.SearchResult :=
  {| Tasks.r_status := Some "success"; Tasks.r_error := None;
     Tasks.r_search_results_count := Some 12%Z;
     Tasks.r_sources := None; Tasks.r_subtasks := None;
     Tasks.r_output_path := Some "runs/7/reports/FINAL_REPORT.html";
     Tasks.r_project_dir := Some "runs/7" |}.

Definition env_task_ok : Tasks.Env :=
  {| Tasks.first_project := Ok (Some pets_project);
     Tasks.commit_fault := fun _ _ => None;
     Tasks.delivers := fun _ _ => true;
     Tasks.init_agents := None;
     Tasks.search := fun _ => Ok found_report;
     Tasks.path_exists := String.eqb "runs/7/reports/FINAL_REPORT.html";
     Tasks.getsize := fun _ => Ok 2048;
     Tasks.elapsed := (3 # 2)%Q;
     Tasks.utcnow := "2024-05-01 12:00:00" |}.

Definition env_search_raises : Tasks.Env :=
  {| Tasks.first_project := Ok (Some pets_project);
     Tasks.commit_fault := fun _ _ => None;
     Tasks.delivers := fun _ _ => true;
     Tasks.init_agents := None;
     Tasks.search := fun _ => Raise (Exn "TimeoutError" "search timed out");
     Tasks.path_exists := fun _ => false;
     Tasks.getsize := fun _ => Ok 0;
     Tasks.elapsed := (3 # 2)%Q;
     Tasks.utcnow := "2024-05-01 12:00:00" |}.

(** A page of a deck for which speaker notes are requested. *)
Definition opening_page : Page.PageSpec :=
  {| Page.slide_number := 1; Page.page_type := "title";
     Page.topic := "Pets"; Page.key_points := ["Cats"; "Dogs"];
     Page.has_chart := false |}.

Definition keynote_context : Page.GlobalContext :=
  {| Page.ppt_title := "Pets"; Page.style := "ted";
     Page.colors := [("primary", "#dc2626")]; Page.total_slides := 5;
     Page.speech_scene := Some "keynote" |}.

End Examples.

(** ** More of the multi-page generator *)

Module Slides.
Import Py Json MultiSlide.

(** Where the page of a slide is written. *)
Definition slide_path (ppt_dir : string) (m : SlideMeta) : string :=
  path_join (path_join ppt_dir "slides") (file_name m).

(** The six directories of the output tree. *)
Definition output_dirs (output_dir : string) : list string :=
  let ppt_dir := path_join output_dir "ppt" in
  [ppt_dir; path_join ppt_dir "slides";
   path_join (path_join ppt_dir "assets") "styles";
   path_join (path_join ppt_dir "assets") "scripts";
   path_join (path_join ppt_dir "assets") "images";
   path_join ppt_dir "data"].

(** A computation that removes no file and no directory. *)
Definition keeps_files {A} (m : M FS A) : Prop :=
  forall fs r fs', m fs = (r, fs') ->
    dom (files fs) ⊆ dom (files fs') /\ dirs fs ⊆ dirs fs'.

(** The coroutines of the slides [ds], paired with the entries [ms] of
    the metadata. *)
Definition tasks_of (lib : Lib) (env : Env) (md : Metadata)
    (ppt_dir : string) (ds : list SlideData) (ms : list SlideMeta)
  : list (M FS string) :=
  zip_with (fun d m => _generate_single_slide lib env d m md ppt_dir) ds ms.


End Slides.

(** ** More concrete inputs *)

Module Cases.
Import Py Json.

(** An environment in which no directory can be made. *)
Definition env_no_dirs : MultiSlide.Env :=
  {| MultiSlide.io_fault := fun _ op =>
       match op with
       | MultiSlide.Mkdir _ => Some (Exn "PermissionError" "Permission denied")
       | MultiSlide.WriteText _ _ => None
       end;
     MultiSlide.render_template := Examples.render_listing;
     MultiSlide.now := "2024-05-01 12:00:00";
     MultiSlide.uuid4 := fun _ => "00000000-0000-4000-8000-000000000000" |}.


(** Two environments of the background task: the query finds no
    project, and the query raises. *)
Definition env_no_project : Tasks.Env :=
  {| Tasks.first_project := Ok None;
     Tasks.commit_fault := fun _ _ => None;
     Tasks.delivers := fun _ _ => true;
     Tasks.init_agents := None;
     Tasks.search := fun _ => Ok Examples.found_report;
     Tasks.path_exists := fun _ => false;
     Tasks.getsize := fun _ => Ok 0;
     Tasks.elapsed := (3 # 2)%Q;
     Tasks.utcnow := "2024-05-01 12:00:00" |}.

Definition env_query_fails : Tasks.Env :=
  {| Tasks.first_project :=
       Raise (Exn "OperationalError" "database is locked");
     Tasks.commit_fault := fun _ _ => None;
     Tasks.delivers := fun _ _ => true;
     Tasks.init_agents := None;
     Tasks.search := fun _ => Ok Examples.found_report;
     Tasks.path_exists := fun _ => false;
     Tasks.getsize := fun _ => Ok 0;
     Tasks.elapsed := (3 # 2)%Q;
     Tasks.utcnow := "2024-05-01 12:00:00" |}.

End Cases.

(** ** The dictionary of a design specification *)

Module DesignDict.
Import Py Json Design.

(** [model_dump] of the record: one member per field, in the order of
    the declarations. *)
Definition model_dump (s : DesignSpec) : list (string * value) :=
       [("primary_color", JStr (primary_color s));
        ("secondary_color", JStr (secondary_color s));
        ("accent_color", JStr (accent_color s));
        ("background_color", JStr (background_color s));
        ("text_color", JStr (text_color s));
        ("text_secondary_color", JStr (text_secondary_color s));
        ("title_font_size", JStr (title_font_size s));
        ("content_font_size", JStr (content_font_size s));
        ("font_family", JStr (font_family s));
        ("layout_style", JStr (layout_style s));
        ("spacing", JStr (spacing s));
        ("border_radius", JStr (border_radius s));
        ("use_shadows", JBool (use_shadows s));
        ("use_gradients", JBool (use_gradients s));
        ("animation_style", JStr (animation_style s));
        ("chart_colors", JArr (JStr <$> chart_colors s))].

Definition design_spec_to_dict (s : DesignSpec) : value :=
  JObj (model_dump s).

(** What pydantic makes of the value of a field declared [bool]. *)
Definition as_bool (lib : Lib) (v : value) : option bool :=
  match v with
  | JBool b => Some b
  | _ => lax_bool lib v
  end.

(** The dictionaries that the class [DesignSpec] accepts, and the
    record it makes of each: every field declared [str] holds a text,
    the two declared [bool] hold a value that counts as a boolean, the
    one declared [list[str]] holds a list of texts. *)
Definition built_from (lib : Lib) (members : list (string * value))
    (s : DesignSpec) : Prop :=
  lookup "primary_color" members = Some (JStr (primary_color s))
  /\ lookup "secondary_color" members = Some (JStr (secondary_color s))
  /\ lookup "accent_color" members = Some (JStr (accent_color s))
  /\ lookup "background_color" members = Some (JStr (background_color s))
  /\ lookup "text_color" members = Some (JStr (text_color s))
  /\ lookup "text_secondary_color" members
     = Some (JStr (text_secondary_color s))
  /\ lookup "title_font_size" members = Some (JStr (title_font_size s))
  /\ lookup "content_font_size" members = Some (JStr (content_font_size s))
  /\ lookup "font_family" members = Some (JStr (font_family s))
  /\ lookup "layout_style" members = Some (JStr (layout_style s))
  /\ lookup "spacing" members = Some (JStr (spacing s))
  /\ lookup "border_radius" members = Some (JStr (border_radius s))
  /\ (exists v, lookup "use_shadows" members = Some v
                /\ as_bool lib v = Some (use_shadows s))
  /\ (exists v, lookup "use_gradients" members = Some v
                /\ as_bool lib v = Some (use_gradients s))
  /\ lookup "animation_style" members = Some (JStr (animation_style s))
  /\ lookup "chart_colors" members = Some (JArr (JStr <$> chart_colors s)).

(** The fields that the class [DesignSpec] declares; none of them has a
    default. *)
Definition fields : list string :=
  ["primary_color"; "secondary_color"; "accent_color"; "background_color";
   "text_color"; "text_secondary_color"; "title_font_size";
   "content_font_size"; "font_family"; "layout_style"; "spacing";
   "border_radius"; "use_shadows"; "use_gradients"; "animation_style";
   "chart_colors"].

End DesignDict.

(** ** The outcome of the background task *)

Module Outcome.
Import Py Tasks.

Definition is_processing (row : Project) : bool :=
  match status row with PROCESSING => true | _ => false end.

(** A row that closes a run: completed, at 100 with the path of a
    document that exists and its size, or failed, with a message. *)
Definition terminal (env : Env) (row : Project) : bool :=
  match status row with
  | COMPLETED =>
      (progress row =? 100)%Z
      && match output_path row with
         | Some path => negb (is_empty path) && path_exists env path
         | None => false
         end
      && match output_size row with Some _ => true | None => false end
  | FAILED => match error_message row with Some _ => true | None => false end
  | _ => false
  end.

(** What is reported while the work goes on. *)
Definition quiet (ev : Event) : bool :=
  match ev with
  | Committed row => is_processing row
  | Delivered (ProgressUpdate _ _ _ _) => true
  | Delivered _ => false
  end.

(** The notification that tells the client what a closing row holds. *)
Definition notice (project_id : Z) (row : Project) : WsMessage :=
  match status row with
  | COMPLETED =>
      CompletionNotification project_id
        (default EmptyString (output_path row))
  | _ =>
      ErrorNotification project_id (default EmptyString (error_message row))
  end.

#[global] Instance WsMessage_eq_dec : EqDecision WsMessage.
Proof. solve_decision. Defined.

(** The shape of what one run reports: rows in processing and progress
    updates, then at most one closing row, and after it at most the
    notification of that row. *)
Fixpoint finished (env : Env) (project_id : Z) (t : list Event) : bool :=
  match t with
  | [] => true
  | ev :: rest =>
      if quiet ev then finished env project_id rest
      else match ev, rest with
           | Committed row, [] => terminal env row
           | Committed row, [Delivered msg] =>
               terminal env row && bool_decide (msg = notice project_id row)
           | _, _ => false
           end
  end.

(** The work goes on: the loaded object satisfies [c], nothing closing
    has been reported. *)
Definition working (c : Project -> Prop) (s : Run) : Prop :=
  exists p, project s = Some p /\ c p /\ forallb quiet (trace s) = true.

(** The closing row has just been committed. *)
Definition closed (env : Env) (c : Project -> Prop) (s : Run) : Prop :=
  exists t r, trace s = (t ++ [Committed r])%list
              /\ forallb quiet t = true /\ terminal env r = true /\ c r.

Definition done (env : Env) (project_id : Z) (s : Run) : Prop :=
  finished env project_id (trace s) = true.

End Outcome.

(** ** The connection manager ([backend/websocket_manager.py]) *)

Module Ws.
Import Py.

(** A [WebSocket] object, by its identity. *)
Definition Socket : Type := nat.

(** The dictionary [active_connections], in insertion order, and what
    the sockets have taken so far, oldest first.  A method runs to its
    end before another one touches the dictionary. *)
Record St : Type := MkSt {
  active_connections : list (string * Socket);
  wire : list (Socket * string)
}.

(** What the manager does not control: whether a socket accepts the
    connection, and whether it takes a text, which may depend on what
    was sent before. *)
Record Env : Type := MkEnv {
  accept_fault : Socket -> option exn;
  send_fault : list (Socket * string) -> Socket -> string -> option exn
}.

(** [d[k] = v] on a dictionary: the value of an existing key is
    replaced where it stands, a new key goes to the end. *)
Fixpoint dict_put {V} (k : string) (v : V) (d : list (string * V))
  : list (string * V) :=
  match d with
  | [] => [(k, v)]
  | (k', v') :: d' =>
      if String.eqb k k' then (k, v) :: d' else (k', v') :: dict_put k v d'
  end.

(** [del d[k]] for a key that is there. *)
Fixpoint dict_del {V} (k : string) (d : list (string * V))
  : list (string * V) :=
  match d with
  | [] => []
  | (k', v') :: d' =>
      if String.eqb k k' then d' else (k', v') :: dict_del k d'
  end.

(** [k in d] *)
Definition dict_has {V} (k : string) (d : list (string * V)) : bool :=
  match assoc k d with Some _ => true | None => false end.

(** [for x in l: f x] *)
Fixpoint for_each {St A} (l : list A) (f : A -> M St unit) : M St unit :=
  match l with
  | [] => mret tt
  | x :: l' => _ ← f x; for_each l' f
  end.

Section Manager.
Variable env : Env.

Definition accept (websocket : Socket) : M St unit :=
  match accept_fault env websocket with
  | Some e => raise e
  | None => mret tt
  end.

Definition send_text (websocket : Socket) (message : string) : M St unit :=
  fun s =>
    match send_fault env (wire s) websocket message with
    | Some e => (Raise e, s)
    | None =>
        (Ok tt, MkSt (active_connections s)
                     (wire s ++ [(websocket, message)]))
    end.

Definition connect (websocket : Socket) (client_id : string) : M St unit :=
  _ ← accept websocket;
  modify (fun s => MkSt (dict_put client_id websocket (active_connections s))
                        (wire s)).

Definition disconnect (client_id : string) : M St unit :=
  modify (fun s =>
            if dict_has client_id (active_connections s)
            then MkSt (dict_del client_id (active_connections s)) (wire s)
            else s).

Definition send_personal_message (message client_id : string) : M St unit :=
  s ← get;
  match assoc client_id (active_connections s) with
  | Some websocket =>
      try_except (send_text websocket message)
                 (fun e => disconnect client_id)
  | None => mret tt
  end.

(** The first loop of [broadcast], over the items of the dictionary. *)
Fixpoint broadcast_sends (message : string) (items : list (string * Socket))
    (disconnected_clients : list string) : M St (list string) :=
  match items with
  | [] => mret disconnected_clients
  | (client_id, connection) :: items' =>
      disconnected_clients ←
        try_except (_ ← send_text connection message;
                    mret disconnected_clients)
                   (fun e => mret (disconnected_clients ++ [client_id])%list);
      broadcast_sends message items' disconnected_clients
  end.

Definition broadcast (message : string) : M St unit :=
  s ← get;
  disconnected_clients ←
    broadcast_sends message (active_connections s) [];
  for_each disconnected_clients disconnect.

End Manager.

(** The keys of a dictionary, in its order. *)
Definition keys {V} (d : list (string * V)) : list string := fst <$> d.

End Ws.

(** ** The detection of a provider ([src/llm/manager.py]) *)

Module Manager.
Import Py.

Section Environ.
(** [os.getenv] *)
Variable getenv : string -> option string.

(** The loop over [env_keys] in [_detect_api_key]: the value of the
    first variable that is set to a text that is not empty. *)
Fixpoint first_env (env_keys : list string) : option string :=
  match env_keys with
  | [] => None
  | env_key :: rest =>
      let api_key := getenv env_key in
      if truthy api_key then api_key else first_env rest
  end.

(** The variables read for a provider; [None] for the provider that
    needs no key. *)
Definition api_key_names (provider : string) : option (list string) :=
  if String.eqb provider "openai" then Some ["OPENAI_API_KEY"; "LLM_API_KEY"]
  else if String.eqb provider "azure_openai"
  then Some ["AZURE_OPENAI_API_KEY"; "LLM_API_KEY"]
  else if String.eqb provider "anthropic"
  then Some ["ANTHROPIC_API_KEY"; "LLM_API_KEY"]
  else if String.eqb provider "zhipu" then Some ["ZHIPU_API_KEY"; "LLM_API_KEY"]
  else if String.eqb provider "qwen"
  then Some ["DASHSCOPE_API_KEY"; "QWEN_API_KEY"; "LLM_API_KEY"]
  else if String.eqb provider "deepseek"
  then Some ["DEEPSEEK_API_KEY"; "LLM_API_KEY"]
  else if String.eqb provider "ollama" then None
  else Some ["LLM_API_KEY"].

Definition _detect_api_key (provider : string) : option string :=
  match api_key_names provider with
  | Some env_keys => first_env env_keys
  | None => None
  end.

Definition provider_env_keys : list (string * list string) :=
  [("qwen", ["DASHSCOPE_API_KEY"; "QWEN_API_KEY"]);
   ("deepseek", ["DEEPSEEK_API_KEY"]);
   ("zhipu", ["ZHIPU_API_KEY"]);
   ("openai", ["OPENAI_API_KEY"]);
   ("anthropic", ["ANTHROPIC_API_KEY"]);
   ("ollama", [])].

Definition providers_priority : list (string * list string) :=
  [("openai", ["OPENAI_API_KEY"]);
   ("anthropic", ["ANTHROPIC_API_KEY"]);
   ("deepseek", ["DEEPSEEK_API_KEY"]);
   ("qwen", ["DASHSCOPE_API_KEY"; "QWEN_API_KEY"]);
   ("zhipu", ["ZHIPU_API_KEY"]);
   ("ollama", [])].

(** [any(os.getenv(key) for key in env_keys)] *)
Definition any_set (env_keys : list string) : bool :=
  existsb (fun key => truthy (getenv key)) env_keys.

(** The loop over [providers_priority]: the first provider one of whose
    variables is set. *)
Fixpoint first_provider (priority : list (string * list string))
  : option string :=
  match priority with
  | [] => None
  | (provider, env_keys) :: rest =>
      if any_set env_keys then Some provider else first_provider rest
  end.

Definition _detect_best_provider : string :=
  let default_provider := getenv "DEFAULT_LLM_PROVIDER" in
  let specified :=
    match default_provider with
    | Some name =>
        if is_empty name then None
        else
          let env_keys := default [] (assoc name provider_env_keys) in
          if match env_keys with [] => true | _ :: _ => false end
             || any_set env_keys
          then Some name else None
    | None => None
    end in
  match specified with
  | Some name => name
  | None =>
      if truthy (getenv "LLM_API_KEY") then "openai"
      else default "ollama" (first_provider providers_priority)
  end.

End Environ.

(** The providers whose requests carry a key of their own. *)
Definition keyed_providers : list string :=
  ["openai"; "anthropic"; "deepseek"; "qwen"; "zhipu"].

(** The variables that the detection of a provider reads for a key. *)
Definition key_variables : list string :=
  ["LLM_API_KEY"; "OPENAI_API_KEY"; "ANTHROPIC_API_KEY"; "DEEPSEEK_API_KEY";
   "DASHSCOPE_API_KEY"; "QWEN_API_KEY"; "ZHIPU_API_KEY"].

(** An environment given by a list of assignments. *)
Definition environ (vars : list (string * string)) (name : string)
  : option string := assoc name vars.

End Manager.

(** ** Providers and structured answers ([src/llm/config.py],
    [src/llm/client.py]) *)

Module Config.

Inductive LLMProvider : Type :=
| OPENAI | AZURE_OPENAI | ANTHROPIC | ZHIPU | QWEN | DEEPSEEK | OLLAMA.

#[global] Instance LLMProvider_eq_dec : EqDecision LLMProvider.
Proof. solve_decision. Defined.

(** The value of a member of the enumeration. *)
Definition provider_value (p : LLMProvider) : string :=
  match p with
  | OPENAI => "openai"
  | AZURE_OPENAI => "azure_openai"
  | ANTHROPIC => "anthropic"
  | ZHIPU => "zhipu"
  | QWEN => "qwen"
  | DEEPSEEK => "deepseek"
  | OLLAMA => "ollama"
  end.

End Config.

Module Instructor.
Import Py Json Llm Gateway Config.

(** The providers [get_structured_response] hands to [instructor]. *)
Definition openai_compatible_providers : list LLMProvider :=
  [OPENAI; AZURE_OPENAI; DEEPSEEK; ZHIPU; QWEN].

(** What [instructor] does, as far as [get_structured_response] uses
    it: importing it and wrapping the client may raise; a call with a
    response model returns an instance of the model or raises; a call
    without one returns a completion that is not looked at. *)
Record Lib (World T : Type) : Type := MkLib {
  import_instructor : Result unit;
  from_openai : Result unit;
  create : list Message -> ResponseModel T -> Q -> nat -> M World T;
  create_plain : list Message -> Q -> nat -> M World unit
}.
Arguments import_instructor {World T} l.
Arguments from_openai {World T} l.
Arguments create {World T} l messages response_model temperature max_tokens.
Arguments create_plain {World T} l messages temperature max_tokens.

Section Structured.
Variable lib : Json.Lib.
Context {World T : Type}.
Variable client : Client World.
Variable instructor : Lib World T.
Variable provider : LLMProvider.
(** [self.config.temperature] and [self.config.max_tokens] *)
Variable config_temperature : Q.
Variable config_max_tokens : nat.

Definition structured_messages (prompt : string)
    (system_prompt : option string) : list Message :=
  (match system_prompt with
   | Some sp => if is_empty sp then [] else [MkMessage "system" sp]
   | None => []
   end ++ [MkMessage "user" prompt])%list.

(** The [try] block of [get_structured_response]. *)
Definition structured_body (prompt : string) (system_prompt : option string)
    (response_model : option (ResponseModel T))
    (temperature : option Q) (max_tokens : option nat)
  : M World (Structured T) :=
  _ ← lift (import_instructor instructor);
  if bool_decide (provider ∈ openai_compatible_providers) then
    _ ← lift (from_openai instructor);
    let messages := structured_messages prompt system_prompt in
    let temperature := default config_temperature temperature in
    let max_tokens := default config_max_tokens max_tokens in
    match response_model with
    | Some rm =>
        response ← create instructor messages rm temperature max_tokens;
        mret (Instance_ response)
    | None =>
        _ ← create_plain instructor messages temperature max_tokens;
        raise (Exn "AttributeError"
                 "'NoneType' object has no attribute '__name__'")
    end
  else
    _fallback_structured_response lib client prompt system_prompt
      response_model.

(** Both handlers, the one for [ImportError] and the one for every
    other exception, return what the fallback returns. *)
Definition get_structured_response (prompt : string)
    (system_prompt : option string)
    (response_model : option (ResponseModel T))
    (temperature : option Q) (max_tokens : option nat)
  : M World (Structured T) :=
  try_except
    (structured_body prompt system_prompt response_model temperature
       max_tokens)
    (fun e =>
       _fallback_structured_response lib client prompt system_prompt
         response_model).

End Structured.
End Instructor.


(** ** The client of a provider ([src/llm/client.py]) *)

Module Client.
Import Py Json Config.

(** The fields of [LLMConfig] that the client reads when it is made
    and when it chats. *)
Record LLMConfig : Type := MkLLMConfig {
  provider : LLMProvider;
  model_name : string;
  api_key : option string;
  base_url : option string;
  azure_deployment : option string;
  temperature : Q;
  max_tokens : nat;
  top_p : Q;
  stream : bool
}.

(** [str.lower], for text whose letters are ASCII. *)
Definition lower_char (c : ascii) : ascii :=
  let n := nat_of_ascii c in
  if ((65 <=? n) && (n <=? 90))%nat then ascii_of_nat (n + 32) else c.

Fixpoint lower (s : string) : string :=
  match s with
  | EmptyString => EmptyString
  | String c r => String (lower_char c) (lower r)
  end.

(** The arguments of [chat.completions.create]. *)
Record Params : Type := MkParams {
  p_model : string;
  p_messages : list Llm.Message;
  p_temperature : Q;
  p_max_tokens : nat;
  p_top_p : Q;
  p_stream : bool;
  p_response_format : option value
}.

(** The arguments of [messages.create]; [a_system] is [None] when the
    key [system] is not set. *)
Record MessageParams : Type := MkMessageParams {
  a_model : string;
  a_messages : list Llm.Message;
  a_max_tokens : nat;
  a_temperature : Q;
  a_response_format : option value;
  a_system : option string
}.

Record Usage : Type := MkUsage {
  prompt_tokens : nat;
  completion_tokens : nat;
  total_tokens : nat
}.

Record Choice : Type := MkChoice {
  message_content : option string;
  choice_finish_reason : option string
}.

Record Completion : Type := MkCompletion {
  choices : list Choice;
  completion_model : string;
  completion_usage : option Usage
}.

(** A block of the content of an answer of Anthropic: text, or a block
    of another class, which has no attribute [text]. *)
Inductive Block : Type :=
| TextBlock (text : string)
| OtherBlock (class_name : string).

Record AnthropicMessage : Type := MkAnthropicMessage {
  content_blocks : list Block;
  message_model : string;
  input_tokens : nat;
  output_tokens : nat;
  stop_reason : option string
}.

(** The dictionary that the chat functions return. *)
Record Reply : Type := MkReply {
  content : option string;
  model : string;
  usage : Usage;
  finish_reason : option string
}.

(** The two libraries behind [self._client]. *)
Record Sdk (World : Type) : Type := MkSdk {
  chat_create : Params -> M World Completion;
  messages_create : MessageParams -> M World AnthropicMessage
}.
Arguments chat_create {World} s params.
Arguments messages_create {World} s params.

Definition block_text (b : Block) : Result string :=
  match b with
  | TextBlock text => Ok text
  | OtherBlock class_name =>
      Raise (Exn "AttributeError"
               ("'" ++ class_name ++ "' object has no attribute 'text'"))
  end.

Definition is_system (msg : Llm.Message) : bool :=
  String.eqb (Llm.role msg) "system".

(** The loop of [_anthropic_chat_completion] over the messages: the
    content of the system message seen last, and the other messages. *)
Definition split_system (messages : list Llm.Message)
  : option string * list Llm.Message :=
  fold_left
    (fun '(system_message, converted_messages) msg =>
       if is_system msg then (Some (Llm.content msg), converted_messages)
       else (system_message, (converted_messages ++ [msg])%list))
    messages (None, []).

Section Chat.
Context {World : Type}.
Variable sdk : Sdk World.
Variable config : LLMConfig.
(** The text of [self.config.provider] in a formatted string. *)
Variable format_provider : LLMProvider -> string.
(** [MONITORING_AVAILABLE], and [monitor.log_llm_call], which catches
    its own exceptions: the trace, the output and the error logged. *)
Variable MONITORING_AVAILABLE : bool.
Variable log_llm_call : string -> option string -> option string ->
                        World -> World.

Definition value_error (msg : string) : exn := Exn "ValueError" msg.

Definition _openai_chat_completion (params : Params) : M World Reply :=
  try_except
    (response ← chat_create sdk params;
     first ← lift (index (choices response) 0);
     mret {| content := message_content first;
             model := completion_model response;
             usage :=
               match completion_usage response with
               | Some u => MkUsage (prompt_tokens u) (completion_tokens u)
                                   (total_tokens u)
               | None => MkUsage 0 0 0
               end;
             finish_reason := choice_finish_reason first |})
    (fun e =>
       match provider config with
       | QWEN =>
           if contains "InvalidApiKey" (exn_str e)
           then raise (value_error
                         "Invalid Qwen API key. Please set DASHSCOPE_API_KEY")
           else if contains "ModelNotFound" (exn_str e)
           then raise (value_error
                         ("Model " ++ model_name config
                          ++ " not found for Qwen"))
           else raise e
       | ZHIPU =>
           if contains "invalid_api_key" (exn_str e)
           then raise (value_error
                         "Invalid Zhipu AI API key. Please check your API key")
           else raise e
       | DEEPSEEK =>
           if contains "invalid_api_key" (exn_str e)
           then raise (value_error
                         "Invalid DeepSeek API key. Please check your API key")
           else raise e
       | OLLAMA =>
           if contains "Connection" (exn_str e)
           then raise (value_error
                         "Failed to connect to Ollama. Please make sure Ollama is running (ollama serve)")
           else raise e
       | _ => raise e
       end).

Definition message_params (request : Llm.Request) : MessageParams :=
  let '(system_message, converted_messages) :=
    split_system (Llm.messages request) in
  {| a_model := model_name config;
     a_messages := converted_messages;
     a_max_tokens := default (max_tokens config) (Llm.max_tokens request);
     a_temperature := default (temperature config) (Llm.temperature request);
     a_response_format := Llm.response_format request;
     a_system := if truthy system_message then system_message else None |}.

Definition _anthropic_chat_completion (request : Llm.Request)
  : M World Reply :=
  response ← messages_create sdk (message_params request);
  first ← lift (index (content_blocks response) 0);
  text ← lift (block_text first);
  mret {| content := Some text;
          model := message_model response;
          usage := MkUsage (input_tokens response) (output_tokens response)
                           (input_tokens response + output_tokens response);
          finish_reason := stop_reason response |}.

Definition monitored (trace_id : option string) (output error : option string)
  : M World unit :=
  match trace_id with
  | Some id =>
      if MONITORING_AVAILABLE && negb (is_empty id)
      then modify (log_llm_call id output error)
      else mret tt
  | None => mret tt
  end.

(** The choice of the exception that [chat_completion] raises for an
    exception of the call. *)
Definition classified (e : exn) : exn :=
  let text := lower (exn_str e) in
  if contains "api_key" text
  then value_error ("API key error (" ++ format_provider (provider config)
                    ++ "): Please check your API key")
  else if contains "model" text
  then value_error ("Model error (" ++ format_provider (provider config)
                    ++ "): Model " ++ model_name config
                    ++ " may not be available")
  else if contains "base_url" text || contains "connection" text
  then value_error ("Connection error ("
                    ++ format_provider (provider config)
                    ++ "): Please check base_url: "
                    ++ default "None" (base_url config))
  else e.

(** The dictionary [params] of [chat_completion]: the values of the
    configuration, and over them the keyword arguments of the call. *)
Definition chat_params (request : Llm.Request) : Params :=
  {| p_model := model_name config;
     p_messages := Llm.messages request;
     p_temperature := default (temperature config) (Llm.temperature request);
     p_max_tokens := default (max_tokens config) (Llm.max_tokens request);
     p_top_p := top_p config;
     p_stream := stream config;
     p_response_format := Llm.response_format request |}.

Definition chat_completion (request : Llm.Request)
    (trace_id : option string) : M World Reply :=
  try_except
    (let params := chat_params request in
     result ← (if bool_decide (provider config = ANTHROPIC)
               then _anthropic_chat_completion request
               else _openai_chat_completion params);
     _ ← monitored trace_id (content result) None;
     mret result)
    (fun e =>
       _ ← monitored trace_id (Some EmptyString) (Some (exn_str e));
       raise (classified e)).

End Chat.

(** The messages of [_openai_chat_completion] that name a provider, by
    provider: the text looked for in the exception and the message
    raised. *)
Definition provider_messages : list (LLMProvider * (string * string)) :=
  [(QWEN, ("InvalidApiKey",
           "Invalid Qwen API key. Please set DASHSCOPE_API_KEY"));
   (ZHIPU, ("invalid_api_key",
            "Invalid Zhipu AI API key. Please check your API key"));
   (DEEPSEEK, ("invalid_api_key",
               "Invalid DeepSeek API key. Please check your API key"));
   (OLLAMA, ("Connection",
             "Failed to connect to Ollama. Please make sure Ollama is running (ollama serve)"))].

End Client.


(** ** The search agent ([src/deep_search_agent.py]) *)

Module DeepSearch.
Import Py Json Tasks.

(** The dictionary that [search] returns when the coordinator raises;
    of its keys the task reads [status] and [error]. *)
Definition error_result (e : exn) : SearchResult :=
  {| r_status := Some "error";
     r_error := Some (exn_str e);
     r_search_results_count := None;
     r_sources := None;
     r_subtasks := None;
     r_output_path := None;
     r_project_dir := None |}.

(** [DeepSearchAgent.search] around [coordinator.process_query]; the
    calls to the monitor catch their own exceptions and change nothing
    that [search] returns. *)
Definition search (process_query : Project -> Result SearchResult)
    (project : Project) : Result SearchResult :=
  match process_query project with
  | Ok result => Ok result
  | Raise e => Ok (error_result e)
  end.

(** The rows committed in a run, oldest first. *)
Definition committed (t : list Event) : list Project :=
  omap (fun ev => match ev with
                  | Committed row => Some row
                  | Delivered _ => None
                  end) t.

(** What [send_personal_message] adds to the trace. *)
Definition sent (env : Env) (t : list Event) (msg : WsMessage)
  : list Event :=
  if delivers env t msg then [Delivered msg] else [].

End DeepSearch.


(** ** The configurations and clients of the manager
    ([src/llm/manager.py], [src/llm/client.py]) *)

Module Registry.
Import Py Config Client.

(** An [LLMClient]: its configuration and the key and the address its
    library client was made with. *)
Record LLMClient : Type := MkLLMClient {
  client_config : LLMConfig;
  client_api_key : string;
  client_base_url : option string
}.

Record LLMManager : Type := MkLLMManager {
  configs : gmap string LLMConfig;
  clients : gmap string LLMClient
}.

Section Manager.
(** Whether the two libraries could be imported, the exception, if any,
    of the constructor of the library client for a provider, a key and
    an address, the text of a provider in a formatted string, and
    [repr] of a text. *)
Variable OPENAI_AVAILABLE ANTHROPIC_AVAILABLE : bool.
Variable library_fault : LLMProvider -> string -> option string -> option exn.
Variable format_provider : LLMProvider -> string.
Variable repr : string -> string.

(** The call of [AsyncOpenAI] or [AsyncAnthropic] that ends every
    initialization. *)
Definition library_client (config : LLMConfig) (key : string)
    (url : option string) : Result LLMClient :=
  match library_fault (provider config) key url with
  | Some e => Raise e
  | None => Ok (MkLLMClient config key url)
  end.

Definition openai_missing : exn :=
  Exn "ImportError" "OpenAI library not installed: pip install openai".

Definition _initialize_openai (config : LLMConfig) : Result LLMClient :=
  if negb OPENAI_AVAILABLE then Raise openai_missing
  else if negb (truthy (api_key config))
  then Raise (value_error "OpenAI API key is required")
  else library_client config (or_empty (api_key config)) (base_url config).

Definition _initialize_azure_openai (config : LLMConfig)
  : Result LLMClient :=
  if negb OPENAI_AVAILABLE then Raise openai_missing
  else if negb (truthy (api_key config))
  then Raise (value_error "Azure OpenAI API key is required")
  else if negb (truthy (azure_deployment config))
  then Raise (value_error "Azure deployment name is required")
  else
    match base_url config with
    | None =>
        Raise (Exn "AttributeError"
                 "'NoneType' object has no attribute 'endswith'")
    | Some url =>
        let azure_base_url := if endswith "/" url then url else url ++ "/" in
        library_client config (or_empty (api_key config))
          (Some (azure_base_url ++ "openai/deployments/"
                 ++ or_empty (azure_deployment config)))
    end.

Definition _initialize_anthropic (config : LLMConfig) : Result LLMClient :=
  if negb ANTHROPIC_AVAILABLE
  then Raise (Exn "ImportError"
                "Anthropic library not installed: pip install anthropic")
  else if negb (truthy (api_key config))
  then Raise (value_error "Anthropic API key is required")
  else library_client config (or_empty (api_key config)) None.

Definition default_base_url (p : LLMProvider) : Result string :=
  match p with
  | ZHIPU => Ok "https://open.bigmodel.cn/api/paas/v4"
  | QWEN => Ok "https://dashscope.aliyuncs.com/compatible-mode/v1"
  | DEEPSEEK => Ok "https://api.deepseek.com/v1"
  | OLLAMA => Ok "http://localhost:11434/v1"
  | _ => Raise (value_error ("No default base_url for provider: "
                             ++ format_provider p))
  end.

Definition _initialize_openai_compatible (config : LLMConfig)
  : Result LLMClient :=
  if negb OPENAI_AVAILABLE then Raise openai_missing
  else
    key ← (if bool_decide (provider config = OLLAMA) then Ok "ollama"
           else if negb (truthy (api_key config))
           then Raise (value_error (format_provider (provider config)
                                    ++ " API key is required"))
           else Ok (or_empty (api_key config)));
    url ← (if truthy (base_url config) then Ok (or_empty (base_url config))
           else default_base_url (provider config));
    library_client config key (Some url).

(** [LLMClient(config)] *)
Definition LLMClient_init (config : LLMConfig) : Result LLMClient :=
  match provider config with
  | OPENAI => _initialize_openai config
  | AZURE_OPENAI => _initialize_azure_openai config
  | ANTHROPIC => _initialize_anthropic config
  | ZHIPU | QWEN | DEEPSEEK | OLLAMA => _initialize_openai_compatible config
  end.

Definition key_error (text : string) : exn := Exn "KeyError" (repr text).

Definition get_client (config_name : string) : M LLMManager LLMClient :=
  m ← get;
  match clients m !! config_name with
  | Some client => mret client
  | None =>
      let config_name :=
        if bool_decide (is_Some (configs m !! config_name))
        then config_name else "default" in
      match configs m !! config_name with
      | None => raise (key_error config_name)
      | Some config =>
          client ← lift (LLMClient_init config);
          _ ← modify (fun m => MkLLMManager (configs m)
                                 (<[config_name := client]> (clients m)));
          mret client
      end
  end.

Definition get_config (config_name : string) : M LLMManager LLMConfig :=
  m ← get;
  let config_name :=
    if bool_decide (is_Some (configs m !! config_name))
    then config_name else "default" in
  match configs m !! config_name with
  | None => raise (key_error config_name)
  | Some config => mret config
  end.

Definition add_config (name : string) (config : LLMConfig)
  : M LLMManager unit :=
  modify (fun m => MkLLMManager (<[name := config]> (configs m))
                                (delete name (clients m))).

(** [update_config]; [updated] is what [LLMConfig] makes of the dumped
    configuration with the keyword arguments over it: a configuration,
    or the exception of the validation. *)
Definition update_config (name : string)
    (updated : LLMConfig -> Result LLMConfig) : M LLMManager unit :=
  m ← get;
  match configs m !! name with
  | None => raise (key_error ("Configuration not found: " ++ name))
  | Some current_config =>
      config ← lift (updated current_config);
      modify (fun m => MkLLMManager (<[name := config]> (configs m))
                                    (delete name (clients m)))
  end.

Definition remove_config (name : string) : M LLMManager unit :=
  if String.eqb name "default"
  then raise (value_error "Cannot remove default configuration")
  else modify (fun m => MkLLMManager (delete name (configs m))
                                     (delete name (clients m))).

(** A call of one of the methods, and the manager after a list of
    calls, whatever they return or raise. *)
Inductive Call : Type :=
| GetClient (config_name : string)
| GetConfig (config_name : string)
| AddConfig (name : string) (config : LLMConfig)
| UpdateConfig (name : string) (updated : LLMConfig -> Result LLMConfig)
| RemoveConfig (name : string).

Definition after_call (m : LLMManager) (c : Call) : LLMManager :=
  match c with
  | GetClient config_name => snd (get_client config_name m)
  | GetConfig config_name => snd (get_config config_name m)
  | AddConfig name config => snd (add_config name config m)
  | UpdateConfig name updated => snd (update_config name updated m)
  | RemoveConfig name => snd (remove_config name m)
  end.

Definition after_calls (m : LLMManager) (calls : list Call) : LLMManager :=
  fold_left after_call calls m.

(** Every client kept is the client of the configuration kept under
    the same name. *)
Definition coherent (m : LLMManager) : Prop :=
  forall name client,
    clients m !! name = Some client ->
    exists config, configs m !! name = Some config
                   /\ LLMClient_init config = Ok client.

End Manager.
End Registry.

(** ** More concrete libraries *)

Module Replies.
Import Py Json.

(** An [instructor] whose structured call rejects every answer. *)
Definition instructor_rejecting
  : Instructor.Lib Scripted.Script Examples.Answer :=
  {| Instructor.import_instructor := Ok tt;
     Instructor.from_openai := Ok tt;
     Instructor.create := fun _ _ _ _ =>
       raise (Exn "InstructorRetryException" "validation failed");
     Instructor.create_plain := fun _ _ _ =>
       raise (Exn "InstructorRetryException" "validation failed") |}.

(** A library whose calls all raise the same exception, and two
    configurations. *)
Definition sdk_failing (e : exn) : Client.Sdk unit :=
  {| Client.chat_create := fun _ => raise e;
     Client.messages_create := fun _ => raise e |}.

Definition config_of (p : Config.LLMProvider) (name : string)
  : Client.LLMConfig :=
  {| Client.provider := p; Client.model_name := name;
     Client.api_key := Some "sk-1"; Client.base_url := None;
     Client.azure_deployment := None; Client.temperature := (7 # 10)%Q;
     Client.max_tokens := 4000; Client.top_p := (9 # 10)%Q;
     Client.stream := false |}.

Definition hello_request : Llm.Request :=
  {| Llm.messages := [Llm.MkMessage "user" "hello"];
     Llm.max_tokens := None; Llm.temperature := None;
     Llm.response_format := None |}.

(** The task with the search agent in front of a coordinator that
    raises. *)
Definition env_coordinator_raises : Tasks.Env :=
  {| Tasks.first_project := Ok (Some Examples.pets_project);
     Tasks.commit_fault := fun _ _ => None;
     Tasks.delivers := fun _ _ => true;
     Tasks.init_agents := None;
     Tasks.search :=
       DeepSearch.search
         (fun _ => Raise (Exn "RuntimeError" "no search engine"));
     Tasks.path_exists := fun _ => false;
     Tasks.getsize := fun _ => Ok 0;
     Tasks.elapsed := (3 # 2)%Q;
     Tasks.utcnow := "2024-05-01 12:00:00" |}.

(** A text of a thousand characters. *)
Definition filler : string :=
  String.concat EmptyString (repeat "0123456789" 100).

(** The pages of an outline of six pages, whose last topic is [closing]. *)
Definition six_pages (closing : string) : list Json.value :=
  (fun topic => Json.JObj [("topic", Json.JStr topic)])
  <$> ["Cats"; "Dogs"; "Birds"; "Fish"; "Mice"; closing].

(** A manager with one configuration and no client yet, and calls that
    make a client for [default] and then change the configuration. *)
Definition fresh_manager : Registry.LLMManager :=
  Registry.MkLLMManager
    {[ "default" := config_of Config.OPENAI "gpt-4o-mini" ]} ∅.

Definition switch_to_qwen : list Registry.Call :=
  [Registry.GetClient "default";
   Registry.UpdateConfig "default"
     (fun _ => Ok (config_of Config.QWEN "qwen-turbo"));
   Registry.RemoveConfig "default"].

End Replies.

(** * Properties *)

#[local] Arguments String.append !_ _ / : simpl nomatch.

(** ** The definitions on small inputs *)

Example fmt02d_small : Py.fmt02d 7 = "07".
Proof. reflexivity. Qed.

Example fmt02d_large : Py.fmt02d 123 = "123".
Proof. reflexivity. Qed.

Example strip_both_ends : Py.strip "  a b
 " = "a b".
Proof. reflexivity. Qed.

Example slide_file_cover : MultiSlide.slide_file 1 "cover" = "slide_01_cover.html".
Proof. reflexivity. Qed.

Example clean_design_fenced :
  Design.clean_design_content "```json
{}
```" = "{}".
Proof. reflexivity. Qed.

Example clean_fallback_keeps_prose :
  Gateway.clean_fallback_content "Here: ```json {} ```" = "Here: ```json {}".
Proof. reflexivity. Qed.

Example clean_html_drops_prose :
  Page.clean_html "Here is the page: <div>x</div>" = "<div>x</div>".
Proof. reflexivity. Qed.

Example loads_object :
  Ref.loads Examples.bare_answer
  = Py.Ok (Json.JObj [("answer", Json.JStr "42")]).
Proof. reflexivity. Qed.

Example loads_prose : Py.is_ok (Ref.loads Examples.wrapped_answer) = false.
Proof. reflexivity. Qed.

(** ** Text *)

Section Text.
Import Py.

Lemma append_assoc (a b c : string) : (a ++ b) ++ c = a ++ (b ++ c).
Proof. induction a as [|x a IH]; simpl; [reflexivity|now rewrite IH]. Qed.

Lemma append_empty_r (a : string) : a ++ EmptyString = a.
Proof. induction a as [|x a IH]; simpl; [reflexivity|now rewrite IH]. Qed.

Lemma length_append (a b : string) :
  String.length (a ++ b) = String.length a + String.length b.
Proof. induction a as [|x a IH]; simpl; [reflexivity|now rewrite IH]. Qed.

Lemma space2_bytes a b :
  is_space2 a b = true ->
  (128 <= nat_of_ascii a /\ 128 <= nat_of_ascii b)%nat.
Proof.
  unfold is_space2. cbv zeta.
  rewrite !andb_true_iff, !orb_true_iff, !Nat.eqb_eq. lia.
Qed.

Lemma space3_bytes a b c :
  is_space3 a b c = true ->
  (128 <= nat_of_ascii a /\ 128 <= nat_of_ascii c)%nat.
Proof.
  unfold is_space3. cbv zeta.
  rewrite !orb_true_iff, !andb_true_iff, !orb_true_iff, !andb_true_iff,
    !Nat.eqb_eq, !Nat.leb_le.
  lia.
Qed.

Lemma plain_byte c :
  is_plain c = true -> (nat_of_ascii c < 128)%nat /\ is_space c = false.
Proof.
  unfold is_plain. rewrite andb_true_iff, Nat.ltb_lt, negb_true_iff. tauto.
Qed.

Lemma plain_not_space2_l a b : is_plain a = true -> is_space2 a b = false.
Proof.
  intros [H _]%plain_byte. destruct (is_space2 a b) eqn:E; [|reflexivity].
  apply space2_bytes in E. lia.
Qed.

Lemma plain_not_space2_r a b : is_plain b = true -> is_space2 a b = false.
Proof.
  intros [H _]%plain_byte. destruct (is_space2 a b) eqn:E; [|reflexivity].
  apply space2_bytes in E. lia.
Qed.

Lemma plain_not_space3_l a b c : is_plain a = true -> is_space3 a b c = false.
Proof.
  intros [H _]%plain_byte. destruct (is_space3 a b c) eqn:E; [|reflexivity].
  apply space3_bytes in E. lia.
Qed.

Lemma plain_not_space3_r a b c : is_plain c = true -> is_space3 a b c = false.
Proof.
  intros [H _]%plain_byte. destruct (is_space3 a b c) eqn:E; [|reflexivity].
  apply space3_bytes in E. lia.
Qed.

Lemma space_not_space2 a b : is_space a = true -> is_space2 a b = false.
Proof.
  intros H. destruct (is_space2 a b) eqn:E; [|reflexivity].
  apply space2_bytes in E. unfold is_space in H. cbv zeta in H.
  rewrite orb_true_iff, !andb_true_iff, !Nat.leb_le in H. lia.
Qed.

(** A character of ASCII at the head of a text is skipped by [lstrip]
    when it is white space, and ends the skipping when it is not. *)
Lemma lstrip_space a r : is_space a = true -> lstrip (String a r) = lstrip r.
Proof. intros H. cbn [lstrip]. rewrite H. reflexivity. Qed.

Lemma lstrip_plain a r : is_plain a = true -> lstrip (String a r) = String a r.
Proof.
  intros H. cbn [lstrip]. rewrite (proj2 (plain_byte a H)).
  destruct r as [|b [|c r]]; [reflexivity| |].
  - rewrite plain_not_space2_l by exact H. reflexivity.
  - rewrite plain_not_space2_l, plain_not_space3_l by exact H. reflexivity.
Qed.

Lemma rstrip_cons c r :
  rstrip (String c r)
  = if is_one_space (String c (rstrip r)) then EmptyString
    else String c (rstrip r).
Proof. reflexivity. Qed.

Lemma rstrip_plain a r :
  is_plain a = true -> rstrip (String a r) = String a (rstrip r).
Proof.
  intros H. rewrite rstrip_cons. unfold is_one_space.
  destruct (rstrip r) as [|b [|c [|d t]]]; try reflexivity.
  - rewrite (proj2 (plain_byte a H)). reflexivity.
  - rewrite plain_not_space2_l by exact H. reflexivity.
  - rewrite plain_not_space3_l by exact H. reflexivity.
Qed.

Lemma lstrip_spaces ws s :
  all_space ws = true -> lstrip (ws ++ s) = lstrip s.
Proof.
  induction ws as [|c ws IH]; [reflexivity|].
  intros H. apply andb_true_iff in H as [Hc Hws].
  change (String c ws ++ s) with (String c (ws ++ s)).
  rewrite lstrip_space by exact Hc. auto.
Qed.

Lemma rstrip_all_space ws : all_space ws = true -> rstrip ws = EmptyString.
Proof.
  induction ws as [|c ws IH]; [reflexivity|].
  intros H. apply andb_true_iff in H as [Hc Hws].
  rewrite rstrip_cons, (IH Hws). cbn [is_one_space]. rewrite Hc.
  reflexivity.
Qed.

Lemma rstrip_spaces s ws :
  all_space ws = true -> rstrip (s ++ ws) = rstrip s.
Proof.
  intros H. induction s as [|c s IH].
  - apply rstrip_all_space, H.
  - change (String c s ++ ws) with (String c (s ++ ws)).
    rewrite !rstrip_cons, IH. reflexivity.
Qed.

Lemma rstrip_keeps s c :
  is_plain c = true ->
  rstrip (s ++ String c EmptyString) = s ++ String c EmptyString.
Proof.
  intros Hc. induction s as [|x s IH].
  - apply (rstrip_plain c EmptyString Hc).
  - change (String x s ++ String c EmptyString)
      with (String x (s ++ String c EmptyString)).
    rewrite rstrip_cons, IH. unfold is_one_space.
    destruct s as [|y [|z s]]; cbn [append].
    + rewrite plain_not_space2_r by exact Hc. reflexivity.
    + rewrite plain_not_space3_r by exact Hc. reflexivity.
    + destruct s; reflexivity.
Qed.

(** Trimming text that is padded with ASCII white space around a core
    whose first and last characters are ASCII and not white space. *)
Lemma strip_padded ws1 c1 mid c2 ws2 :
  all_space ws1 = true -> all_space ws2 = true ->
  is_plain c1 = true -> is_plain c2 = true ->
  strip (ws1 ++ String c1 (mid ++ String c2 ws2))
  = String c1 (mid ++ String c2 EmptyString).
Proof.
  intros H1 H2 Hc1 Hc2. unfold strip.
  replace (ws1 ++ String c1 (mid ++ String c2 ws2))
    with ((ws1 ++ String c1 mid) ++ String c2 EmptyString ++ ws2)
    by (rewrite !append_assoc; reflexivity).
  rewrite <- append_assoc, (rstrip_spaces _ ws2 H2), rstrip_keeps by exact Hc2.
  rewrite !append_assoc, lstrip_spaces by exact H1.
  change (String c1 mid ++ String c2 EmptyString)
    with (String c1 (mid ++ String c2 EmptyString)).
  apply lstrip_plain, Hc1.
Qed.

(** White space beyond ASCII is trimmed too: here a no-break space
    (U+00A0) before the text and an ideographic space (U+3000) after. *)
Example strip_wide_spaces :
  strip (String (ascii_of_nat 194) (String (ascii_of_nat 160)
           ("{}" ++ String (ascii_of_nat 227) (String (ascii_of_nat 128)
                      (String (ascii_of_nat 128) EmptyString)))))
  = "{}".
Proof. reflexivity. Qed.

Lemma startswith_append a b : startswith a (a ++ b) = true.
Proof.
  unfold startswith. induction a as [|x a IH]; simpl.
  - destruct b; reflexivity.
  - destruct (ascii_dec x x); [exact IH|contradiction].
Qed.

Lemma drop_front_append a b : drop_front (String.length a) (a ++ b) = b.
Proof. induction a as [|x a IH]; simpl; [reflexivity|exact IH]. Qed.

Lemma endswith_cons p c s :
  endswith p (String c s) = String.eqb (String c s) p || endswith p s.
Proof. reflexivity. Qed.

Lemma endswith_refl p : endswith p p = true.
Proof.
  destruct p; [reflexivity|]. rewrite endswith_cons, String.eqb_refl.
  reflexivity.
Qed.

Lemma endswith_append p s : endswith p (s ++ p) = true.
Proof.
  induction s as [|c s IH].
  - apply endswith_refl.
  - change (String c s ++ p) with (String c (s ++ p)).
    rewrite endswith_cons, IH. apply orb_true_r.
Qed.

Lemma take_front_append s t : take_front (String.length s) (s ++ t) = s.
Proof. induction s as [|c s IH]; simpl; [now destruct t|now rewrite IH]. Qed.

Lemma drop_back_append s p : drop_back (String.length p) (s ++ p) = s.
Proof.
  unfold drop_back. rewrite length_append.
  replace (String.length s + String.length p - String.length p)%nat
    with (String.length s) by lia.
  apply take_front_append.
Qed.

Lemma endswith_split p s :
  endswith p s = true -> exists pre, s = pre ++ p.
Proof.
  induction s as [|c s IH]; intros H.
  - destruct p; [|discriminate]. exists EmptyString. reflexivity.
  - rewrite endswith_cons in H. apply orb_true_iff in H as [H|H].
    + apply String.eqb_eq in H. exists EmptyString. exact H.
    + destruct (IH H) as [pre ->]. exists (String c pre). reflexivity.
Qed.

Lemma append_last_inj a b c d :
  a ++ String c EmptyString = b ++ String d EmptyString -> a = b /\ c = d.
Proof.
  revert b. induction a as [|x a IH]; intros [|y b]; simpl; intros H.
  - inversion H. auto.
  - inversion H as [[Hx Hr]]. destruct b; discriminate.
  - inversion H as [[Hx Hr]]. destruct a; discriminate.
  - inversion H as [[Hx Hr]]. destruct (IH _ Hr) as [-> ->]. auto.
Qed.

(** Text that ends with a closing brace does not end with a code block
    marker. *)
Lemma endswith_fence_brace s :
  endswith "```" (s ++ "}") = false.
Proof.
  destruct (endswith "```" (s ++ "}")) eqn:E; [|reflexivity].
  apply endswith_split in E as [pre E].
  change "```" with ("``" ++ "`") in E. rewrite <- append_assoc in E.
  apply append_last_inj in E as [_ E]. discriminate.
Qed.

End Text.

(** ** The design coordinator *)

Section DesignProperties.
Import Py Json Llm Design Palette.
Variable lib : Lib.
Context {World : Type}.
Variable llm_client : Client World.

Lemma generate_design_spec_run topic outline style w :
  generate_design_spec lib llm_client topic outline style w =
  match _build_design_prompt topic outline style with
  | Raise e => (Raise e, w)
  | Ok prompt =>
      match chat_completion llm_client (design_request prompt) w with
      | (Ok response, w') =>
          match receiver "strip" (get_content response) with
          | Raise e => (Raise e, w')
          | Ok content =>
              (Ok match decoded_design lib content with
                  | Ok parsed => parsed
                  | Raise _ => _get_default_design style
                  end, w')
          end
      | (Raise e, w') => (Raise e, w')
      end
  end.
Proof.
  unfold generate_design_spec, decoded_design, mbind, M_bind, lift.
  destruct (_build_design_prompt topic outline style) as [prompt|e];
    [|reflexivity].
  destruct (chat_completion _ _ w) as [[response|e] w']; [|reflexivity].
  destruct (receiver "strip" (get_content response)) as [content|e];
    [|reflexivity].
  unfold try_except, lift, mret, M_ret, Result_bind, rbind.
  destruct (json_loads lib _) as [d|e]; [|reflexivity].
  destruct (DesignSpec_init lib d); reflexivity.
Qed.

(** An exception of the model call itself is not handled by
    [generate_design_spec]. *)
Lemma generate_design_spec_call_raises topic outline style prompt w e w' :
  _build_design_prompt topic outline style = Ok prompt ->
  chat_completion llm_client (design_request prompt) w = (Raise e, w') ->
  generate_design_spec lib llm_client topic outline style w = (Raise e, w').
Proof. intros Hp H. rewrite generate_design_spec_run, Hp, H. reflexivity. Qed.

End DesignProperties.

Section DesignSpecFields.
Import Py Json Llm Design Palette DesignDict.
Variable lib : Lib.

Lemma field_str_ok k d s :
  field_str k d = Ok s -> lookup k d = Some (JStr s).
Proof.
  unfold field_str. destruct (lookup k d) as [[]|]; intros H;
    inversion H; reflexivity.
Qed.

Lemma field_str_list_ok k d l :
  field_str_list k d = Ok l ->
  exists items, lookup k d = Some (JArr items) /\ all_str items = Some l.
Proof.
  unfold field_str_list. destruct (lookup k d) as [[| | | |items|]|];
    try discriminate.
  destruct (all_str items) as [l'|] eqn:E; intros H; inversion H; subst.
  eauto.
Qed.

Lemma field_bool_ok k d b :
  field_bool lib k d = Ok b ->
  exists v, lookup k d = Some v /\ as_bool lib v = Some b.
Proof.
  unfold field_bool, as_bool. destruct (lookup k d) as [v|]; [|discriminate].
  destruct v; try (destruct (lax_bool lib _) eqn:E; [|discriminate]);
    intros [= <-]; eauto.
Qed.

Lemma field_str_of k d s :
  lookup k d = Some (JStr s) -> field_str k d = Ok s.
Proof. unfold field_str. intros ->. reflexivity. Qed.

Lemma field_bool_of k d v b :
  lookup k d = Some v -> as_bool lib v = Some b -> field_bool lib k d = Ok b.
Proof.
  unfold field_bool, as_bool. intros ->.
  destruct v; intros H; rewrite ?H; try reflexivity.
  inversion H. reflexivity.
Qed.

Lemma all_str_texts (l : list string) : all_str (JStr <$> l) = Some l.
Proof.
  induction l as [|x l IH]; [reflexivity|].
  cbn [fmap list_fmap all_str] in *. rewrite IH. reflexivity.
Qed.

Lemma all_str_inv items l : all_str items = Some l -> items = JStr <$> l.
Proof.
  revert l. induction items as [|v items IH]; intros l.
  - intros [= <-]. reflexivity.
  - cbn [all_str]. destruct v; try discriminate.
    destruct (all_str items) as [l'|]; [|discriminate].
    intros [= <-]. cbn [fmap list_fmap]. rewrite (IH l' eq_refl).
    reflexivity.
Qed.

Lemma field_str_list_of k d l :
  lookup k d = Some (JArr (JStr <$> l)) -> field_str_list k d = Ok l.
Proof.
  unfold field_str_list. intros ->. rewrite all_str_texts. reflexivity.
Qed.

(** The validation accepts exactly the dictionaries that hold every
    declared field with a value of its type. *)
Lemma DesignSpec_fields_built d spec :
  DesignSpec_fields lib d = Ok spec <-> built_from lib d spec.
Proof.
  split.
  - unfold DesignSpec_fields, mbind, Result_bind, rbind, mret, Result_ret.
    repeat match goal with
           | |- context [match ?f ?k d with _ => _ end] =>
               let E := fresh "E" in
               destruct (f k d) eqn:E; [|discriminate]
           end.
    intros H. inversion H; subst; clear H. unfold built_from; cbn.
    repeat match goal with
           | H : field_str _ _ = Ok _ |- _ => apply field_str_ok in H
           | H : field_bool _ _ _ = Ok _ |- _ => apply field_bool_ok in H
           | H : field_str_list _ _ = Ok _ |- _ =>
               apply field_str_list_ok in H as [items [H Hitems]];
               apply all_str_inv in Hitems; subst items
           end.
    repeat split; assumption.
  - destruct spec. unfold built_from. cbn.
    intros (H1 & H2 & H3 & H4 & H5 & H6 & H7 & H8 & H9 & H10 & H11 & H12
            & [v13 [H13 B13]] & [v14 [H14 B14]] & H15 & H16).
    unfold DesignSpec_fields, mbind, Result_bind, rbind, mret, Result_ret.
    rewrite (field_str_of _ _ _ H1), (field_str_of _ _ _ H2),
      (field_str_of _ _ _ H3), (field_str_of _ _ _ H4),
      (field_str_of _ _ _ H5), (field_str_of _ _ _ H6),
      (field_str_of _ _ _ H7), (field_str_of _ _ _ H8),
      (field_str_of _ _ _ H9), (field_str_of _ _ _ H10),
      (field_str_of _ _ _ H11), (field_str_of _ _ _ H12),
      (field_bool_of _ _ _ _ H13 B13), (field_bool_of _ _ _ _ H14 B14),
      (field_str_of _ _ _ H15), (field_str_list_of _ _ _ H16).
    reflexivity.
Qed.

Lemma DesignSpec_init_built d spec :
  DesignSpec_init lib d = Ok spec <->
  exists members, d = JObj members /\ built_from lib members spec.
Proof.
  split.
  - destruct d as [| | | | |members]; try discriminate.
    unfold DesignSpec_init.
    destruct (DesignSpec_fields lib members) as [s|e] eqn:E; [|discriminate].
    intros [= <-]. exists members. split; [reflexivity|].
    apply DesignSpec_fields_built, E.
  - intros [members [-> H]]. unfold DesignSpec_init.
    rewrite (proj2 (DesignSpec_fields_built members spec) H). reflexivity.
Qed.

Lemma built_copied members spec :
  built_from lib members spec -> copied_from members spec.
Proof.
  unfold built_from, copied_from.
  intros (H1 & H2 & H3 & H4 & H5 & H6 & _ & _ & _ & _ & _ & _ & _ & _ & _
          & H16).
  repeat (split; [assumption|]).
  eexists. split; [exact H16|apply all_str_texts].
Qed.

Lemma DesignSpec_init_ok d spec :
  DesignSpec_init lib d = Ok spec ->
  exists members, d = JObj members /\ copied_from members spec.
Proof.
  intros H. apply DesignSpec_init_built in H as [members [-> H]].
  exists members. split; [reflexivity|apply built_copied, H].
Qed.

Lemma default_design_valid style :
  valid_design (_get_default_design style) = true.
Proof.
  unfold _get_default_design, default_designs. cbn [Py.assoc].
  destruct (String.eqb style "ted"); [reflexivity|].
  destruct (String.eqb style "business"); [reflexivity|].
  destruct (String.eqb style "simple"); reflexivity.
Qed.


End DesignSpecFields.




(** C4, as the code has it.  A [DesignSpec] returned by
    [generate_design_spec] is either the default for the style tag, and
    then its six colors are [#RRGGBB] and its palette has five entries,
    or the record decoded from the answer of the model, and then its
    colors and its palette are the strings of that answer, unchecked. *)
Theorem design_spec_default_valid_or_copied
    (lib : Json.Lib) (World : Type) (llm_client : Llm.Client World)
    (topic : string) (outline : Design.Outline) (style : string)
    (w w' : World) (spec : Design.DesignSpec) :
  Design.generate_design_spec lib llm_client topic outline style w
  = (Py.Ok spec, w') ->
  (spec = Design._get_default_design style
   /\ Palette.valid_design spec = true)
  \/ (exists response content members,
        Llm.get_content response = Some content
        /\ Design.decoded_design lib content = Py.Ok spec
        /\ Json.json_loads lib (Design.clean_design_content content)
           = Py.Ok (Json.JObj members)
        /\ Palette.copied_from members spec).
Proof.
  rewrite generate_design_spec_run.
  destruct (Design._build_design_prompt topic outline style) as [prompt|e];
    [|discriminate].
  destruct (Llm.chat_completion _ _ w) as [[response|e] w1]; [|discriminate].
  destruct (Llm.get_content response) as [content|] eqn:Ec; [|discriminate].
  cbn [Py.receiver]. intros H. inversion H; subst; clear H.
  destruct (Design.decoded_design lib content) as [parsed|e] eqn:E.
  - right. exists response, content.
    unfold Design.decoded_design, mbind, Py.Result_bind, Py.rbind in E.
    destruct (Json.json_loads lib _) as [d|] eqn:El; [|discriminate].
    destruct (DesignSpec_init_ok lib d parsed E) as [members [-> Hc]].
    exists members. unfold Design.decoded_design, mbind, Py.Result_bind,
      Py.rbind.
    rewrite El. auto.
  - left. split; [reflexivity|apply default_design_valid].
Qed.

Lemma design_spec_default_valid_or_copied_witness :
  Design.default_ted = Design._get_default_design "ted"
  /\ Palette.valid_design Design.default_ted = true
  \/ (exists response content members,
        Llm.get_content response = Some content
        /\ Design.decoded_design Ref.lib content = Py.Ok Design.default_ted
        /\ Json.json_loads Ref.lib (Design.clean_design_content content)
           = Py.Ok (Json.JObj members)
        /\ Palette.copied_from members Design.default_ted).
Proof.
  apply (design_spec_default_valid_or_copied Ref.lib _ Scripted.client
           "Pets" [] "ted" [Scripted.says "Sorry, no JSON today"] []).
  vm_compute. reflexivity.
Defined.

(** C4 fails for a decoded record: an answer with colors given by name
    and a palette of one entry is accepted as it is. *)
Lemma design_spec_invariant_counterexample :
  exists spec,
    Design.generate_design_spec Ref.lib Scripted.client "Pets" [] "ted"
      [Scripted.says Examples.loose_design_text]
    = (Py.Ok spec, [])
    /\ Design.primary_color spec = "red"
    /\ Design.chart_colors spec = ["red"]
    /\ Palette.valid_design spec = false.
Proof.
  eexists. split; [vm_compute; reflexivity|].
  repeat split.
Qed.

(** C9, as the code has it.  The tags [ted], [business] and [simple]
    have a default of their own, three different records; every other
    tag, the known tags [academic] and [creative] included, gets the
    default of [business], which is the generic default. *)
Theorem default_design_by_style (style : string) :
  Design._get_default_design style
  = (if String.eqb style "ted" then Design.default_ted
     else if String.eqb style "simple" then Design.default_simple
     else Design.default_business)
  /\ Design.default_ted <> Design.default_business
  /\ Design.default_ted <> Design.default_simple
  /\ Design.default_business <> Design.default_simple
  /\ Design._get_default_design "academic" = Design.default_business
  /\ Design._get_default_design "creative" = Design.default_business.
Proof.
  split.
  - unfold Design._get_default_design, Design.default_designs.
    cbn [Py.assoc].
    destruct (String.eqb style "ted"); [reflexivity|].
    destruct (String.eqb_spec style "business") as [->|_]; [reflexivity|].
    destruct (String.eqb style "simple"); reflexivity.
  - repeat split; try discriminate; reflexivity.
Qed.

(** C9 fails as stated: [academic] is a known tag and the table of
    defaults has no record for it. *)
Lemma default_per_known_style_counterexample :
  ~ (forall style, In style Palette.known_styles ->
       exists d, Py.assoc style Design.default_designs = Some d).
Proof.
  intros H. destruct (H "academic") as [d Hd].
  - vm_compute. tauto.
  - discriminate Hd.
Qed.

(** ** The structured-output fallback *)

Section FenceCleaning.
Import Py Json Llm Gateway Fence.

(** What trimming leaves starts with the first character of the text,
    unless that one is white space or begins a character beyond
    ASCII. *)
Lemma strip_first p c r :
  strip p = String c r ->
  exists c0 r0, p = String c0 r0 /\ (is_plain c0 = false \/ c0 = c).
Proof.
  unfold strip. intros H.
  destruct p as [|c0 r0]; [discriminate|]. exists c0, r0. split; [reflexivity|].
  destruct (is_plain c0) eqn:E; [right|left; reflexivity].
  rewrite rstrip_plain, lstrip_plain in H by exact E.
  inversion H. reflexivity.
Qed.

Lemma is_object_text_inv p :
  is_object_text p = true ->
  exists body, strip p = String "{" (body ++ "}").
Proof.
  unfold is_object_text. destruct (strip p) as [|c r]; [discriminate|].
  intros H. apply andb_true_iff in H as [Hc Hr].
  apply Ascii.eqb_eq in Hc as ->.
  apply endswith_split in Hr as [body ->]. eauto.
Qed.

(** A payload that is the text of an object does not open like a code
    block, nor like the word after the marker. *)
Lemma object_text_head p :
  is_object_text p = true ->
  exists c0 r0, p = String c0 r0 /\ c0 <> "`"%char /\ c0 <> "j"%char.
Proof.
  intros H. apply is_object_text_inv in H as [body H].
  apply strip_first in H as [c0 [r0 [-> Hc0]]].
  exists c0, r0. split; [reflexivity|].
  destruct Hc0 as [Hs|E]; split; intros E'; subst;
    solve [discriminate | vm_compute in Hs; discriminate].
Qed.

Lemma prefix_cons_eq c p r :
  String.prefix (String c p) (String c r) = String.prefix p r.
Proof. simpl. destruct (ascii_dec c c); [reflexivity|contradiction]. Qed.

Lemma prefix_cons_ne c p c0 r :
  c <> c0 -> String.prefix (String c p) (String c0 r) = false.
Proof. intros H. simpl. destruct (ascii_dec c c0); [contradiction|reflexivity]. Qed.

Lemma clean_fallback_bare p :
  is_object_text p = true -> clean_fallback_content p = strip p.
Proof.
  intros H. apply is_object_text_inv in H as [body H].
  assert (S1 : startswith "```json" (strip p) = false)
    by (rewrite H; reflexivity).
  assert (S2 : startswith "```" (strip p) = false)
    by (rewrite H; reflexivity).
  assert (S3 : endswith "```" (strip p) = false)
    by (rewrite H; apply (endswith_fence_brace ("{" ++ body))).
  assert (S4 : strip (strip p) = strip p)
    by (rewrite H;
        apply (strip_padded EmptyString "{" body "}" EmptyString); reflexivity).
  unfold clean_fallback_content. cbv zeta.
  rewrite S1. cbv iota. rewrite S2. cbv iota. rewrite S3. cbv iota. exact S4.
Qed.

(** After the opening marker is gone, what is left is the payload
    followed by the closing marker; the rest of the cleaning returns the
    payload, trimmed. *)
Lemma clean_fallback_tail p :
  is_object_text p = true ->
  strip (if endswith "```"
              (if startswith "```" (p ++ "```")
               then drop_front 3 (p ++ "```") else p ++ "```")
         then drop_back 3
                (if startswith "```" (p ++ "```")
                 then drop_front 3 (p ++ "```") else p ++ "```")
         else (if startswith "```" (p ++ "```")
               then drop_front 3 (p ++ "```") else p ++ "```"))
  = strip p.
Proof.
  intros Hp. destruct (object_text_head p Hp) as [c0 [r0 [E [Hq Hj]]]].
  assert (S2 : startswith "```" (p ++ "```") = false)
    by (rewrite E; apply prefix_cons_ne; congruence).
  assert (D : drop_back 3 (p ++ "```") = p)
    by apply (drop_back_append p "```").
  rewrite S2. cbv iota. rewrite endswith_append. cbv iota.
  rewrite D. reflexivity.
Qed.

Lemma clean_fallback_fenced ws1 fence p ws2 :
  all_space ws1 = true -> all_space ws2 = true ->
  is_fence fence = true -> is_object_text p = true ->
  clean_fallback_content (ws1 ++ fence ++ p ++ "```" ++ ws2) = strip p.
Proof.
  intros H1 H2 Hf Hp.
  destruct (object_text_head p Hp) as [c0 [r0 [E [Hq Hj]]]].
  unfold is_fence in Hf. apply orb_true_iff in Hf as [Hf|Hf];
    apply String.eqb_eq in Hf; subst fence;
    unfold clean_fallback_content; cbv zeta.
  - replace (ws1 ++ "```json" ++ p ++ "```" ++ ws2)
      with (ws1 ++ String "`" (("``json" ++ p ++ "``") ++ String "`" ws2))
      by (rewrite !append_assoc; reflexivity).
    rewrite strip_padded by (assumption || reflexivity).
    remember (String "`" (("``json" ++ p ++ "``") ++ String "`" EmptyString))
      as X eqn:EX.
    assert (EX' : X = "```json" ++ p ++ "```")
      by (subst X; rewrite !append_assoc; reflexivity).
    assert (S1 : startswith "```json" X = true)
      by (rewrite EX'; apply startswith_append).
    assert (D1 : drop_front 7 X = p ++ "```")
      by (rewrite EX'; apply (drop_front_append "```json")).
    rewrite S1. cbv iota. rewrite D1. apply clean_fallback_tail, Hp.
  - replace (ws1 ++ "```" ++ p ++ "```" ++ ws2)
      with (ws1 ++ String "`" (("``" ++ p ++ "``") ++ String "`" ws2))
      by (rewrite !append_assoc; reflexivity).
    rewrite strip_padded by (assumption || reflexivity).
    remember (String "`" (("``" ++ p ++ "``") ++ String "`" EmptyString))
      as X eqn:EX.
    assert (EX' : X = "```" ++ p ++ "```")
      by (subst X; rewrite !append_assoc; reflexivity).
    assert (S1 : startswith "```json" X = false).
    { rewrite EX', E. unfold startswith.
      change ("```" ++ String c0 r0 ++ "```")
        with (String "`" (String "`" (String "`" (String c0 (r0 ++ "```"))))).
      rewrite !prefix_cons_eq. apply prefix_cons_ne. congruence. }
    assert (S2 : startswith "```" X = true)
      by (rewrite EX'; apply startswith_append).
    assert (D2 : drop_front 3 X = p ++ "```")
      by (rewrite EX'; apply (drop_front_append "```")).
    rewrite S1. cbv iota. rewrite S2. cbv iota. rewrite D2.
    assert (S3 : startswith "```" (p ++ "```") = false)
      by (rewrite E; apply prefix_cons_ne; congruence).
    pose proof (clean_fallback_tail p Hp) as T. rewrite S3 in T.
    exact T.
Qed.

End FenceCleaning.

(** C6, as the code has it.  When the answer of the model is nothing but
    a code block (opened by [```json] or by [```], closed by [```]) with
    white space around it, and the payload inside is the text of a JSON
    object, the fallback returns exactly what it returns for the payload
    alone: the same record, or the same exception. *)
Theorem fallback_fenced_same_as_bare
    (lib : Json.Lib) (World T : Type) (client : Llm.Client World)
    (prompt : string) (system_prompt : option string)
    (response_model : option (Gateway.ResponseModel T))
    (ws1 fence payload ws2 : string)
    (w1 w1' w2 w2' : World) (r1 r2 : Llm.ChatResponse) :
  Py.all_space ws1 = true -> Py.all_space ws2 = true ->
  Fence.is_fence fence = true -> Fence.is_object_text payload = true ->
  Llm.chat_completion client
    (Gateway.fallback_request lib prompt system_prompt response_model) w1
  = (Py.Ok r1, w1') ->
  Llm.chat_completion client
    (Gateway.fallback_request lib prompt system_prompt response_model) w2
  = (Py.Ok r2, w2') ->
  Llm.get_content r1 = Some (ws1 ++ fence ++ payload ++ "```" ++ ws2) ->
  Llm.get_content r2 = Some payload ->
  fst (Gateway._fallback_structured_response lib client prompt system_prompt
         response_model w1)
  = fst (Gateway._fallback_structured_response lib client prompt system_prompt
           response_model w2).
Proof.
  intros H1 H2 Hf Hp Hc1 Hc2 E1 E2.
  unfold Gateway._fallback_structured_response, mbind, Py.M_bind.
  rewrite Hc1, Hc2, E1, E2. cbn [Py.receiver Py.lift].
  unfold Py.lift, Gateway.parse_fallback_content. cbn [fst].
  rewrite clean_fallback_fenced, clean_fallback_bare by assumption.
  reflexivity.
Qed.

Lemma fallback_fenced_same_as_bare_witness :
  fst (Gateway._fallback_structured_response Ref.lib Scripted.client
         "What is the answer?" None (Some Examples.answer_model)
         [Scripted.says (" " ++ "```json"
                         ++ (Examples.newline ++ Examples.bare_answer
                             ++ Examples.newline)
                         ++ "```" ++ Examples.newline)])
  = fst (Gateway._fallback_structured_response Ref.lib Scripted.client
           "What is the answer?" None (Some Examples.answer_model)
           [Scripted.says (Examples.newline ++ Examples.bare_answer
                           ++ Examples.newline)]).
Proof.
  eapply (fallback_fenced_same_as_bare Ref.lib _ _ Scripted.client
            "What is the answer?" None (Some Examples.answer_model)
            " " "```json"
            (Examples.newline ++ Examples.bare_answer ++ Examples.newline)
            Examples.newline);
    reflexivity.
Defined.

(** C6 fails as stated: with prose before and after the code block the
    markers are not at the ends of the text, nothing is removed, and
    decoding raises, while the bare payload gives the record. *)
Lemma fallback_wrapped_counterexample :
  fst (Gateway._fallback_structured_response Ref.lib Scripted.client
         "What is the answer?" None (Some Examples.answer_model)
         [Scripted.says Examples.wrapped_answer])
  = Py.Raise (Ref.decode_error "Expecting value")
  /\ fst (Gateway._fallback_structured_response Ref.lib Scripted.client
            "What is the answer?" None (Some Examples.answer_model)
            [Scripted.says Examples.bare_answer])
     = Py.Ok (Gateway.Instance_ (Examples.MkAnswer "42")).
Proof. split; vm_compute; reflexivity. Qed.

(** ** The page agent *)




(** ** Slide numbers and file names *)

Section FileNames.
Import Py MultiSlide.

Lemma string_of_uint_digits d :
  all_chars is_digit (NilEmpty.string_of_uint d) = true.
Proof. induction d; simpl; auto. Qed.

Lemma fmt02d_digits n : all_chars is_digit (fmt02d n) = true.
Proof.
  unfold fmt02d, str_of_nat.
  destruct (_ <? 2)%nat; simpl; apply string_of_uint_digits.
Qed.

(** Reading the number back, leading zeros allowed. *)
Lemma fmt02d_read n :
  option_map Nat.of_uint (NilEmpty.uint_of_string (fmt02d n)) = Some n.
Proof.
  unfold fmt02d, str_of_nat.
  destruct (_ <? 2)%nat; simpl; rewrite NilEmpty.usu; simpl;
    f_equal; apply DecimalNat.Unsigned.of_to.
Qed.

Lemma fmt02d_inj n m : fmt02d n = fmt02d m -> n = m.
Proof.
  intros H. pose proof (fmt02d_read n) as Hn. rewrite H, fmt02d_read in Hn.
  congruence.
Qed.

(** Two texts that start with digits followed by an underscore have the
    same digits. *)
Lemma digits_then_underscore a b x y :
  all_chars is_digit a = true -> all_chars is_digit b = true ->
  a ++ String "_" x = b ++ String "_" y -> a = b.
Proof.
  revert b. induction a as [|c a IH]; intros [|c' b] Ha Hb H; simpl in *.
  - reflexivity.
  - inversion H; subst. discriminate.
  - inversion H; subst. discriminate.
  - apply andb_true_iff in Ha as [_ Ha]. apply andb_true_iff in Hb as [_ Hb].
    inversion H; subst. f_equal. eauto.
Qed.

Lemma slide_file_inj n t m t' : slide_file n t = slide_file m t' -> n = m.
Proof.
  unfold slide_file. intros H.
  change ("slide_" ++ fmt02d n ++ "_" ++ t ++ ".html")
    with ("slide_" ++ (fmt02d n ++ String "_" (t ++ ".html"))) in H.
  change ("slide_" ++ fmt02d m ++ "_" ++ t' ++ ".html")
    with ("slide_" ++ (fmt02d m ++ String "_" (t' ++ ".html"))) in H.
  apply (inj (String.append "slide_")) in H.
  apply fmt02d_inj.
  eapply digits_then_underscore; eauto using fmt02d_digits.
Qed.

End FileNames.

(** ** The metadata of the slides *)

Section Metadata.
Import Py MultiSlide Chain.
Variable env : Env.

Lemma index_lookup {A} (l : list A) i x : l !! i = Some x -> index l i = Ok x.
Proof. unfold index. intros ->. reflexivity. Qed.

Lemma slide_meta_at_ok sd i d :
  sd !! i = Some d ->
  slide_meta_at sd (length sd) i d = Ok (meta_of sd i d).
Proof.
  intros Hi. pose proof (lookup_lt_Some _ _ _ Hi) as Hlt.
  unfold slide_meta_at, meta_of, mbind, Result_bind, rbind, mret, Result_ret.
  destruct (0 <? i)%nat eqn:E0.
  - apply Nat.ltb_lt in E0.
    destruct (lookup_lt_is_Some_2 sd (i - 1)) as [d' Hd']; [lia|].
    rewrite (index_lookup _ _ _ Hd'), Hd'.
    destruct (i <? length sd - 1)%nat eqn:E1; [|reflexivity].
    apply Nat.ltb_lt in E1.
    destruct (lookup_lt_is_Some_2 sd (i + 1)) as [d'' Hd'']; [lia|].
    rewrite (index_lookup _ _ _ Hd''), Hd''. reflexivity.
  - destruct (i <? length sd - 1)%nat eqn:E1; [|reflexivity].
    apply Nat.ltb_lt in E1.
    destruct (lookup_lt_is_Some_2 sd (i + 1)) as [d'' Hd'']; [lia|].
    rewrite (index_lookup _ _ _ Hd''), Hd''. reflexivity.
Qed.

Lemma slides_meta_from_ok sd rest i :
  drop i sd = rest ->
  slides_meta_from sd (length sd) i rest
  = Ok (imap (fun k => meta_of sd (i + k)) rest).
Proof.
  revert i. induction rest as [|d rest IH]; intros i Hdrop; [reflexivity|].
  assert (Hi : sd !! i = Some d).
  { rewrite <- (Nat.add_0_r i), <- lookup_drop, Hdrop. reflexivity. }
  assert (Hrest : drop (S i) sd = rest).
  { rewrite (drop_S _ _ _ Hi) in Hdrop. congruence. }
  cbn [slides_meta_from]. unfold mbind, Result_bind, rbind.
  rewrite (slide_meta_at_ok _ _ _ Hi), (IH _ Hrest).
  unfold mret, Result_ret. cbn [imap]. rewrite Nat.add_0_r.
  do 2 f_equal. apply imap_ext. intros k x _. simpl. f_equal. lia.
Qed.

(** The metadata is always built, and its slides are the entries
    [meta_of] of the given slides, in order. *)
Lemma create_slides_metadata_ok sd cfg :
  exists md,
    _create_slides_metadata env sd cfg = Ok md
    /\ total_slides md = length sd
    /\ slides md = imap (meta_of sd) sd.
Proof.
  unfold _create_slides_metadata, mbind, Result_bind, rbind.
  rewrite (slides_meta_from_ok sd sd 0 eq_refl).
  eexists. split; [reflexivity|]. split; reflexivity.
Qed.

End Metadata.

Section ChainProperties.
Import Py MultiSlide Chain.
Variable sd : list SlideData.

Local Abbreviation ms := (imap (meta_of sd) sd).

Lemma ms_lookup i m :
  ms !! i = Some m -> exists d, sd !! i = Some d /\ m = meta_of sd i d.
Proof.
  rewrite list_lookup_imap.
  destruct (sd !! i) as [d|]; simpl; intros H; inversion H. eauto.
Qed.

Lemma ms_length : length ms = length sd.
Proof. apply length_imap. Qed.

Lemma ms_number i m : ms !! i = Some m -> slide_number m = i + 1.
Proof. intros H. apply ms_lookup in H as [d [_ ->]]. reflexivity. Qed.

Lemma ms_file_unique i j m m' :
  ms !! i = Some m -> ms !! j = Some m' -> file_name m = file_name m' -> i = j.
Proof.
  intros Hi Hj. apply ms_lookup in Hi as [d [_ ->]].
  apply ms_lookup in Hj as [d' [_ ->]]. cbn [file_name meta_of].
  intros H. apply slide_file_inj in H. lia.
Qed.

Lemma ms_first m : ms !! 0 = Some m -> prev m = None.
Proof. intros H. apply ms_lookup in H as [d [_ ->]]. reflexivity. Qed.

Lemma ms_last m : ms !! (length sd - 1) = Some m -> next m = None.
Proof.
  intros H. apply ms_lookup in H as [d [_ ->]]. cbn [next meta_of].
  rewrite Nat.ltb_irrefl. reflexivity.
Qed.

Lemma ms_adjacent i m m' :
  ms !! i = Some m -> ms !! (S i) = Some m' ->
  next m = Some (file_name m') /\ prev m' = Some (file_name m).
Proof.
  intros Hi Hj. pose proof (lookup_lt_Some _ _ _ Hj) as Hlt.
  rewrite ms_length in Hlt.
  apply ms_lookup in Hi as [d [Hd ->]]. apply ms_lookup in Hj as [d' [Hd' ->]].
  cbn [next prev file_name meta_of]. split.
  - replace (i <? length sd - 1)%nat with true
      by (symmetry; apply Nat.ltb_lt; lia).
    replace (i + 1) with (S i) by lia. rewrite Hd'. reflexivity.
  - replace (S i - 1) with i by lia. rewrite Hd.
    replace (S i + 1 - 1) with (i + 1) by lia. reflexivity.
Qed.

Lemma find_unique {A} (f : A -> bool) (l : list A) k x :
  l !! k = Some x -> f x = true ->
  (forall j y, l !! j = Some y -> f y = true -> j = k) ->
  List.find f l = Some x.
Proof.
  revert k. induction l as [|a l IH]; intros k Hk Hx Hu; [discriminate|].
  cbn [List.find]. destruct (f a) eqn:Ea.
  - assert (0 = k) by (apply (Hu 0 a); [reflexivity|exact Ea]). subst k.
    inversion Hk. reflexivity.
  - destruct k as [|k].
    + inversion Hk; subst. congruence.
    + apply (IH k); [exact Hk|exact Hx|].
      intros j y Hj Hy. specialize (Hu (S j) y Hj Hy). lia.
Qed.

Lemma ms_find i m : ms !! i = Some m -> find_slide (file_name m) ms = Some m.
Proof.
  intros Hi. unfold find_slide. apply (find_unique _ _ i); [exact Hi| |].
  - apply String.eqb_refl.
  - intros j y Hj Hy. apply String.eqb_eq in Hy.
    eapply ms_file_unique; eauto.
Qed.

(** Following [next] from the slide at position [i] meets the slides from
    [i] to the last one, in order, and stops there whatever fuel is
    left. *)
Lemma ms_walk fuel i m :
  ms !! i = Some m -> length sd <= i + fuel + 1 ->
  walk ms fuel m = drop i ms.
Proof.
  revert i m. induction fuel as [|fuel IH]; intros i m Hi Hlen;
    pose proof (lookup_lt_Some _ _ _ Hi) as Hlt; rewrite ms_length in Hlt;
    rewrite (drop_S _ _ _ Hi); cbn [walk]; f_equal.
  - rewrite drop_ge by (rewrite ms_length; lia). reflexivity.
  - destruct (ms !! S i) as [m'|] eqn:Hj.
    + destruct (ms_adjacent _ _ _ Hi Hj) as [-> _].
      rewrite (ms_find _ _ Hj). apply IH; [exact Hj|lia].
    + apply lookup_ge_None in Hj. rewrite ms_length in Hj.
      assert (i = length sd - 1) by lia. subst i.
      rewrite (ms_last _ Hi), drop_ge by (rewrite ms_length; lia).
      reflexivity.
Qed.

Lemma ms_NoDup : NoDup ms.
Proof.
  apply NoDup_alt. intros i j m Hi Hj. eapply ms_file_unique; eauto.
Qed.

End ChainProperties.

(** C8. For a list of slides that is not empty, the metadata computed
    before generation is one chain: the slides are numbered 1, 2, ... in
    order, the first has no [prev], the last has no [next], the [next]
    of a slide is the file name of the slide after it and the [prev] of
    that one is the file name of the slide before, and following [next]
    from the first slide meets every slide once, in order, and ends. *)
Theorem slides_metadata_linear_chain
    (env : MultiSlide.Env) (slides_data : list MultiSlide.SlideData)
    (ppt_config : MultiSlide.PptConfig) :
  0 < length slides_data ->
  exists md first last,
    MultiSlide._create_slides_metadata env slides_data ppt_config = Py.Ok md
    /\ length (MultiSlide.slides md) = length slides_data
    /\ (forall i m, MultiSlide.slides md !! i = Some m ->
                    MultiSlide.slide_number m = i + 1)
    /\ MultiSlide.slides md !! 0 = Some first
    /\ MultiSlide.prev first = None
    /\ MultiSlide.slides md !! (length slides_data - 1) = Some last
    /\ MultiSlide.next last = None
    /\ (forall i m m',
          MultiSlide.slides md !! i = Some m ->
          MultiSlide.slides md !! (S i) = Some m' ->
          MultiSlide.next m = Some (MultiSlide.file_name m')
          /\ MultiSlide.prev m' = Some (MultiSlide.file_name m))
    /\ (forall fuel, length slides_data - 1 <= fuel ->
          Chain.walk (MultiSlide.slides md) fuel first = MultiSlide.slides md)
    /\ NoDup (MultiSlide.slides md).
Proof.
  intros Hpos.
  destruct (create_slides_metadata_ok env slides_data ppt_config)
    as [md [Hmd [_ Hs]]].
  destruct (lookup_lt_is_Some_2 (MultiSlide.slides md) 0) as [first Hf].
  { rewrite Hs, ms_length. exact Hpos. }
  destruct (lookup_lt_is_Some_2 (MultiSlide.slides md)
              (length slides_data - 1)) as [last Hl].
  { rewrite Hs, ms_length. lia. }
  exists md, first, last. rewrite Hs in *.
  repeat split.
  - exact Hmd.
  - apply ms_length.
  - apply ms_number.
  - exact Hf.
  - eapply ms_first, Hf.
  - exact Hl.
  - eapply ms_last, Hl.
  - eapply ms_adjacent; eauto.
  - eapply ms_adjacent; eauto.
  - intros fuel Hfuel. rewrite (ms_walk _ fuel 0 first Hf) by lia.
    reflexivity.
  - apply ms_NoDup.
Qed.

(** ** The run of [generate_ppt] *)

Section Run.
Import Py Json MultiSlide Chain.
Variable lib : Lib.
Variable env : Env.

Lemma mkdir_run path fs :
  mkdir env path fs
  = match io_fault env fs (Mkdir path) with
    | Some e => (Raise e, fs)
    | None => (Ok tt, MkFS ({[ path ]} ∪ dirs fs) (files fs))
    end.
Proof. reflexivity. Qed.

(** The directories are made under [output_dir/ppt], and making them
    writes no file. *)
Lemma create_directory_structure_ok out fs ppt_dir fs1 :
  _create_directory_structure env out fs = (Ok ppt_dir, fs1) ->
  ppt_dir = path_join out "ppt" /\ files fs1 = files fs.
Proof.
  unfold _create_directory_structure, mbind, M_bind.
  repeat (rewrite mkdir_run;
          match goal with
          | |- context [io_fault env ?f ?op] =>
              destruct (io_fault env f op); [discriminate|]
          end).
  intros H. inversion H; subst. split; reflexivity.
Qed.

Lemma create_directory_structure_no_fault out fs :
  (forall fs' p, io_fault env fs' (Mkdir p) = None) ->
  exists fs1, _create_directory_structure env out fs
              = (Ok (path_join out "ppt"), fs1).
Proof.
  intros H. unfold _create_directory_structure, mbind, M_bind.
  repeat (rewrite mkdir_run, H). eexists. reflexivity.
Qed.

Lemma slide_tasks_ok md ppt_dir rest i :
  i + length rest <= length (slides md) ->
  exists tasks, slide_tasks lib env md ppt_dir i rest = Ok tasks.
Proof.
  revert i. induction rest as [|d rest IH]; intros i Hlen; cbn [slide_tasks].
  - eexists. reflexivity.
  - cbn [length] in Hlen.
    destruct (lookup_lt_is_Some_2 (slides md) i) as [m Hm]; [lia|].
    destruct (IH (S i)) as [tasks Ht]; [lia|].
    unfold mbind, Result_bind, rbind. rewrite (index_lookup _ _ _ Hm), Ht.
    eexists. reflexivity.
Qed.

(** The generation of the slides never raises: it returns the outputs of
    the units that succeeded. *)
Lemma generate_all_slides_run sd md ppt_dir fs tasks :
  slide_tasks lib env md ppt_dir 0 sd = Ok tasks ->
  _generate_all_slides lib env sd md ppt_dir fs
  = (Ok (successes (fst (run_all tasks fs))), snd (run_all tasks fs)).
Proof.
  intros Ht. unfold _generate_all_slides, mbind, M_bind, lift, gather.
  rewrite Ht. destruct (run_all tasks fs). reflexivity.
Qed.

Lemma generate_index_page_ok md ppt_dir fs :
  exists fs', _generate_index_page env md ppt_dir fs = (Ok tt, fs').
Proof.
  unfold _generate_index_page, try_except, mbind, M_bind, lift, write_text.
  destruct (render_template env _ _); [|eexists; reflexivity].
  destruct (io_fault env fs _); eexists; reflexivity.
Qed.

Lemma generate_presenter_page_ok md ppt_dir fs :
  exists fs', _generate_presenter_page env md ppt_dir fs = (Ok tt, fs').
Proof.
  unfold _generate_presenter_page, try_except, mbind, M_bind, lift, write_text.
  destruct (render_template env _ _); [|eexists; reflexivity].
  destruct (io_fault env fs _); eexists; reflexivity.
Qed.

(** The navigation pages never make the run fail. *)
Lemma generate_navigation_pages_ok md ppt_dir fs :
  exists fs', _generate_navigation_pages env md ppt_dir fs = (Ok tt, fs').
Proof.
  unfold _generate_navigation_pages, mbind, M_bind.
  destruct (generate_index_page_ok md ppt_dir fs) as [fs1 ->].
  apply generate_presenter_page_ok.
Qed.

Lemma save_metadata_run md ppt_dir fs :
  let path := path_join (path_join ppt_dir "data") "slides_metadata.json" in
  let text := json_dumps lib (DumpOpts false (Some 2)) (metadata_json md) in
  _save_metadata lib env md ppt_dir fs
  = match io_fault env fs (WriteText path text) with
    | Some e => (Raise e, fs)
    | None => (Ok tt, MkFS (dirs fs) (<[ path := text ]> (files fs)))
    end.
Proof. reflexivity. Qed.

End Run.

Section RunCases.
Import Py Json MultiSlide Chain.
Variable lib : Lib.
Variable env : Env.

(** The two ways a run of the [try] block of [generate_ppt] can go:
    the directories cannot be made; or they are made, the metadata is
    computed, every unit is run, the navigation pages are generated from
    that metadata, and the outcome is decided by the saving of the
    metadata alone. *)
Lemma generate_ppt_body_cases sd cfg out fs :
  (exists e fs1,
     _create_directory_structure env out fs = (Raise e, fs1)
     /\ generate_ppt_body lib env sd cfg out fs = (Raise e, fs1))
  \/ (exists fs1 md tasks fs3,
        let ppt_dir := path_join out "ppt" in
        _create_directory_structure env out fs = (Ok ppt_dir, fs1)
        /\ files fs1 = files fs
        /\ _create_slides_metadata env sd cfg = Ok md
        /\ slides md = imap (meta_of sd) sd
        /\ slide_tasks lib env md ppt_dir 0 sd = Ok tasks
        /\ _generate_navigation_pages env md ppt_dir (snd (run_all tasks fs1))
           = (Ok tt, fs3)
        /\ generate_ppt_body lib env sd cfg out fs
           = match _save_metadata lib env md ppt_dir fs3 with
             | (Ok _, fs4) =>
                 (Ok (Success ppt_dir (length sd)
                        (successes (fst (run_all tasks fs1)))
                        (path_join ppt_dir "index.html")
                        (path_join ppt_dir "presenter.html")), fs4)
             | (Raise e, fs4) => (Raise e, fs4)
             end).
Proof.
  destruct (_create_directory_structure env out fs) as [[ppt_dir|e] fs1] eqn:Ed.
  - right. destruct (create_directory_structure_ok env _ _ _ _ Ed) as [-> Hf].
    destruct (create_slides_metadata_ok env sd cfg) as [md [Hmd [_ Hs]]].
    destruct (slide_tasks_ok lib env md (path_join out "ppt") sd 0)
      as [tasks Ht].
    { rewrite Hs, length_imap. lia. }
    destruct (generate_navigation_pages_ok env md (path_join out "ppt")
                (snd (run_all tasks fs1))) as [fs3 Hn].
    exists fs1, md, tasks, fs3. cbv zeta. repeat split; try assumption.
    unfold generate_ppt_body, mbind, M_bind, lift.
    rewrite Ed, Hmd, (generate_all_slides_run lib env _ _ _ _ _ Ht), Hn.
    unfold _copy_common_assets, mret, M_ret.
    destruct (_save_metadata lib env md _ fs3) as [[[]|e] fs4]; reflexivity.
  - left. exists e, fs1. split; [reflexivity|].
    unfold generate_ppt_body, mbind, M_bind. rewrite Ed. reflexivity.
Qed.

End RunCases.

(** C10. [generate_ppt] raises nothing: it returns a dictionary whose
    status is [success], with the directory, the number of slides, the
    slide files and the two entry pages, when its [try] block ends; and
    a dictionary whose status is [error], with the text of the
    exception, when its [try] block raises. *)
Theorem generate_ppt_never_raises
    (lib : Json.Lib) (env : MultiSlide.Env)
    (slides_data : list MultiSlide.SlideData)
    (ppt_config : MultiSlide.PptConfig) (output_dir : string)
    (fs : MultiSlide.FS) :
  exists r fs',
    MultiSlide.generate_ppt lib env slides_data ppt_config output_dir fs
    = (Py.Ok r, fs')
    /\ ((MultiSlide.status r = "success"
         /\ MultiSlide.generate_ppt_body lib env slides_data ppt_config
              output_dir fs = (Py.Ok r, fs')
         /\ exists slide_files,
              r = MultiSlide.Success (Py.path_join output_dir "ppt")
                    (length slides_data) slide_files
                    (Py.path_join (Py.path_join output_dir "ppt") "index.html")
                    (Py.path_join (Py.path_join output_dir "ppt")
                                  "presenter.html"))
        \/ (MultiSlide.status r = "error"
            /\ exists e,
                 MultiSlide.generate_ppt_body lib env slides_data ppt_config
                   output_dir fs = (Py.Raise e, fs')
                 /\ r = MultiSlide.Error (Py.exn_str e))).
Proof.
  unfold MultiSlide.generate_ppt, Py.try_except.
  destruct (generate_ppt_body_cases lib env slides_data ppt_config
              output_dir fs)
    as [[e [fs1 [_ ->]]]|[fs1 [md [tasks [fs3 H]]]]].
  - eexists _, _. split; [reflexivity|]. right. split; [reflexivity|].
    exists e. split; reflexivity.
  - cbv zeta in H. destruct H as [_ [_ [_ [_ [_ [_ ->]]]]]].
    destruct (MultiSlide._save_metadata lib env md _ fs3) as [[[]|e] fs4].
    + eexists _, _. split; [reflexivity|]. left.
      split; [reflexivity|]. split; [reflexivity|]. eexists. reflexivity.
    + eexists _, _. split; [reflexivity|]. right. split; [reflexivity|].
      exists e. split; reflexivity.
Qed.

Lemma slides_metadata_linear_chain_witness :
  exists md first last,
    MultiSlide._create_slides_metadata Examples.env_third_fails
      Examples.five_slides Examples.pets_config = Py.Ok md
    /\ length (MultiSlide.slides md) = length Examples.five_slides
    /\ (forall i m, MultiSlide.slides md !! i = Some m ->
                    MultiSlide.slide_number m = i + 1)
    /\ MultiSlide.slides md !! 0 = Some first
    /\ MultiSlide.prev first = None
    /\ MultiSlide.slides md !! (length Examples.five_slides - 1) = Some last
    /\ MultiSlide.next last = None
    /\ (forall i m m',
          MultiSlide.slides md !! i = Some m ->
          MultiSlide.slides md !! (S i) = Some m' ->
          MultiSlide.next m = Some (MultiSlide.file_name m')
          /\ MultiSlide.prev m' = Some (MultiSlide.file_name m))
    /\ (forall fuel, length Examples.five_slides - 1 <= fuel ->
          Chain.walk (MultiSlide.slides md) fuel first = MultiSlide.slides md)
    /\ NoDup (MultiSlide.slides md).
Proof.
  apply (slides_metadata_linear_chain Examples.env_third_fails
           Examples.five_slides Examples.pets_config).
  simpl. lia.
Defined.

(** C1, as the code has it.  When [generate_ppt] reports success, the
    slide files it returns are the outputs of the units that succeeded,
    in their original order, and nothing else is taken out: the metadata
    is the one computed before generation, over all the units and with
    the pointers between neighbours computed then; the navigation pages
    are generated from it and it is what the saved manifest holds. *)
Theorem generate_ppt_keeps_initial_chain
    (lib : Json.Lib) (env : MultiSlide.Env)
    (slides_data : list MultiSlide.SlideData)
    (ppt_config : MultiSlide.PptConfig) (output_dir : string)
    (fs fs' : MultiSlide.FS) (ppt_dir : string) (total : nat)
    (slide_files : list string) (index_page presenter_page : string) :
  MultiSlide.generate_ppt lib env slides_data ppt_config output_dir fs
  = (Py.Ok (MultiSlide.Success ppt_dir total slide_files index_page
              presenter_page), fs') ->
  exists md results fs2 fs3,
    MultiSlide._create_slides_metadata env slides_data ppt_config = Py.Ok md
    /\ MultiSlide.slides md = imap (Chain.meta_of slides_data) slides_data
    /\ length (MultiSlide.slides md) = length slides_data
    /\ Chain.unit_results lib env slides_data ppt_config output_dir fs
       = Some results
    /\ slide_files = MultiSlide.successes results
    /\ MultiSlide._generate_navigation_pages env md ppt_dir fs2
       = (Py.Ok tt, fs3)
    /\ MultiSlide._save_metadata lib env md ppt_dir fs3 = (Py.Ok tt, fs')
    /\ MultiSlide.files fs' !! Chain.metadata_path output_dir
       = Some (Json.json_dumps lib (Json.DumpOpts false (Some 2))
                 (MultiSlide.metadata_json md)).
Proof.
  unfold MultiSlide.generate_ppt, Py.try_except.
  destruct (generate_ppt_body_cases lib env slides_data ppt_config
              output_dir fs)
    as [[e [fs1 [_ ->]]]|[fs1 [md [tasks [fs3 H]]]]]; [discriminate|].
  cbv zeta in H. destruct H as [Hd [_ [Hmd [Hs [Ht [Hn ->]]]]]].
  pose proof (save_metadata_run lib env md (Py.path_join output_dir "ppt") fs3)
    as Hsave. cbv zeta in Hsave.
  destruct (MultiSlide._save_metadata lib env md _ fs3) as [[[]|e] fs4] eqn:Es;
    [|discriminate].
  intros H. inversion H; subst; clear H.
  exists md, (fst (Py.run_all tasks fs1)),
         (snd (Py.run_all tasks fs1)), fs3.
  repeat split; try assumption.
  - rewrite Hs. apply length_imap.
  - unfold Chain.unit_results. rewrite Hd, Hmd, Ht. reflexivity.
  - destruct (MultiSlide.io_fault env fs3 _); [discriminate|].
    inversion Hsave; subst. cbn [MultiSlide.files].
    apply lookup_insert_eq.
Qed.

Lemma generate_ppt_keeps_initial_chain_witness :
  let fs' := snd (MultiSlide.generate_ppt Ref.lib Examples.env_third_fails
                    Examples.five_slides Examples.pets_config "out"
                    Chain.empty_fs) in
  exists md results fs2 fs3,
    MultiSlide._create_slides_metadata Examples.env_third_fails
      Examples.five_slides Examples.pets_config = Py.Ok md
    /\ MultiSlide.slides md
       = imap (Chain.meta_of Examples.five_slides) Examples.five_slides
    /\ length (MultiSlide.slides md) = length Examples.five_slides
    /\ Chain.unit_results Ref.lib Examples.env_third_fails
         Examples.five_slides Examples.pets_config "out" Chain.empty_fs
       = Some results
    /\ ["out/ppt/slides/slide_01_content.html";
        "out/ppt/slides/slide_02_content.html";
        "out/ppt/slides/slide_04_content.html";
        "out/ppt/slides/slide_05_content.html"]
       = MultiSlide.successes results
    /\ MultiSlide._generate_navigation_pages Examples.env_third_fails md
         "out/ppt" fs2 = (Py.Ok tt, fs3)
    /\ MultiSlide._save_metadata Ref.lib Examples.env_third_fails md
         "out/ppt" fs3 = (Py.Ok tt, fs')
    /\ MultiSlide.files fs' !! Chain.metadata_path "out"
       = Some (Json.json_dumps Ref.lib (Json.DumpOpts false (Some 2))
                 (MultiSlide.metadata_json md)).
Proof.
  intros fs'.
  apply (generate_ppt_keeps_initial_chain Ref.lib Examples.env_third_fails
           Examples.five_slides Examples.pets_config "out" Chain.empty_fs fs'
           "out/ppt" 5 _ "out/ppt/index.html" "out/ppt/presenter.html").
  vm_compute. reflexivity.
Defined.

(** C1 fails as stated: of five slides the third cannot be written.  The
    four others are returned, but the manifest still has five slides,
    the second still points forward at the third and the fourth back at
    it, and the overview lists the five of them alike. *)
Lemma failed_unit_stays_in_chain_counterexample :
  let run := MultiSlide.generate_ppt Ref.lib Examples.env_third_fails
               Examples.five_slides Examples.pets_config "out"
               Chain.empty_fs in
  fst run
  = Py.Ok (MultiSlide.Success "out/ppt" 5
             ["out/ppt/slides/slide_01_content.html";
              "out/ppt/slides/slide_02_content.html";
              "out/ppt/slides/slide_04_content.html";
              "out/ppt/slides/slide_05_content.html"]
             "out/ppt/index.html" "out/ppt/presenter.html")
  /\ option_map (map Py.is_ok)
       (Chain.unit_results Ref.lib Examples.env_third_fails
          Examples.five_slides Examples.pets_config "out" Chain.empty_fs)
     = Some [true; true; false; true; true]
  /\ exists md,
       MultiSlide._create_slides_metadata Examples.env_third_fails
         Examples.five_slides Examples.pets_config = Py.Ok md
       /\ MultiSlide.files (snd run) !! "out/ppt/data/slides_metadata.json"
          = Some (Ref.dumps (Json.DumpOpts false (Some 2))
                    (MultiSlide.metadata_json md))
       /\ map MultiSlide.slide_number (MultiSlide.slides md) = [1; 2; 3; 4; 5]
       /\ map MultiSlide.next (MultiSlide.slides md)
          = [Some "slide_02_content.html"; Some "slide_03_content.html";
             Some "slide_04_content.html"; Some "slide_05_content.html"; None]
       /\ map MultiSlide.prev (MultiSlide.slides md)
          = [None; Some "slide_01_content.html"; Some "slide_02_content.html";
             Some "slide_03_content.html"; Some "slide_04_content.html"]
       /\ MultiSlide.files (snd run) !! "out/ppt/slides/slide_03_content.html"
          = None
       /\ MultiSlide.files (snd run) !! "out/ppt/index.html"
          = Some ("slide_01_content.html,slide_02_content.html,"
                  ++ "slide_03_content.html,slide_04_content.html,"
                  ++ "slide_05_content.html").
Proof.
  cbv zeta. split; [vm_compute; reflexivity|].
  split; [vm_compute; reflexivity|].
  eexists. split; [vm_compute; reflexivity|].
  repeat split; vm_compute; reflexivity.
Qed.

Section UnitResults.
Import Py Json MultiSlide Chain.
Variable lib : Lib.
Variable env : Env.

Lemma run_all_length {St A} (tasks : list (M St A)) s :
  length (fst (run_all tasks s)) = length tasks.
Proof.
  revert s. induction tasks as [|t ts IH]; intros s; cbn [run_all];
    [reflexivity|].
  destruct (t s) as [r s1]. specialize (IH s1).
  destruct (run_all ts s1). cbn [fst length] in *. lia.
Qed.

Lemma slide_tasks_length md ppt_dir rest i tasks :
  slide_tasks lib env md ppt_dir i rest = Ok tasks ->
  length tasks = length rest.
Proof.
  revert i tasks. induction rest as [|d rest IH]; intros i tasks;
    cbn [slide_tasks]; unfold mbind, Result_bind, rbind, mret, Result_ret.
  - intros H. inversion H. reflexivity.
  - destruct (index (slides md) i); [|discriminate].
    destruct (slide_tasks lib env md ppt_dir (S i) rest) as [ts|] eqn:E;
      [|discriminate].
    intros H. inversion H. cbn [length]. f_equal. eapply IH, E.
Qed.

End UnitResults.

(** C2, as the code has it.  As long as the directories can be made and
    the metadata can be saved, [generate_ppt] reports success however
    many units fail, all of them included, and the slide files it
    returns are the outputs of exactly the units that succeeded: the
    failure of one unit takes nothing away from the others.  (It reports
    an error only when making the directories or saving the metadata
    raises.) *)
Theorem generate_ppt_success_despite_unit_failures
    (lib : Json.Lib) (env : MultiSlide.Env)
    (slides_data : list MultiSlide.SlideData)
    (ppt_config : MultiSlide.PptConfig) (output_dir : string)
    (fs : MultiSlide.FS) :
  (forall fs' p, MultiSlide.io_fault env fs' (MultiSlide.Mkdir p) = None) ->
  (forall fs' text,
     MultiSlide.io_fault env fs'
       (MultiSlide.WriteText (Chain.metadata_path output_dir) text) = None) ->
  exists results fs',
    Chain.unit_results lib env slides_data ppt_config output_dir fs
    = Some results
    /\ length results = length slides_data
    /\ MultiSlide.generate_ppt lib env slides_data ppt_config output_dir fs
       = (Py.Ok (MultiSlide.Success (Py.path_join output_dir "ppt")
                   (length slides_data) (MultiSlide.successes results)
                   (Py.path_join (Py.path_join output_dir "ppt") "index.html")
                   (Py.path_join (Py.path_join output_dir "ppt")
                                 "presenter.html")), fs').
Proof.
  intros Hmk Hsave.
  unfold MultiSlide.generate_ppt, Py.try_except.
  destruct (generate_ppt_body_cases lib env slides_data ppt_config
              output_dir fs)
    as [[e [fs1 [Hd _]]]|[fs1 [md [tasks [fs3 H]]]]].
  - destruct (create_directory_structure_no_fault env output_dir fs Hmk)
      as [fs1' Hd']. congruence.
  - cbv zeta in H. destruct H as [Hd [_ [Hmd [Hs [Ht [Hn ->]]]]]].
    rewrite save_metadata_run. cbv zeta.
    change (Py.path_join (Py.path_join (Py.path_join output_dir "ppt") "data")
              "slides_metadata.json") with (Chain.metadata_path output_dir).
    rewrite Hsave.
    exists (fst (Py.run_all tasks fs1)). eexists.
    split; [|split; [|reflexivity]].
    + unfold Chain.unit_results. rewrite Hd, Hmd, Ht. reflexivity.
    + rewrite run_all_length. eapply slide_tasks_length, Ht.
Qed.

Lemma generate_ppt_success_despite_unit_failures_witness :
  exists results fs',
    Chain.unit_results Ref.lib Examples.env_third_fails Examples.five_slides
      Examples.pets_config "out" Chain.empty_fs = Some results
    /\ length results = length Examples.five_slides
    /\ MultiSlide.generate_ppt Ref.lib Examples.env_third_fails
         Examples.five_slides Examples.pets_config "out" Chain.empty_fs
       = (Py.Ok (MultiSlide.Success (Py.path_join "out" "ppt")
                   (length Examples.five_slides)
                   (MultiSlide.successes results)
                   (Py.path_join (Py.path_join "out" "ppt") "index.html")
                   (Py.path_join (Py.path_join "out" "ppt") "presenter.html")),
          fs').
Proof.
  apply (generate_ppt_success_despite_unit_failures Ref.lib
           Examples.env_third_fails Examples.five_slides Examples.pets_config
           "out" Chain.empty_fs).
  - intros fs' p. reflexivity.
  - intros fs' text. reflexivity.
Defined.

(** C2 fails as stated: every one of five units succeeds, then the
    metadata cannot be saved, and the run is reported as an error. *)
Lemma all_units_succeed_error_counterexample :
  option_map (map Py.is_ok)
    (Chain.unit_results Ref.lib Examples.env_save_fails Examples.five_slides
       Examples.pets_config "out" Chain.empty_fs)
  = Some [true; true; true; true; true]
  /\ fst (MultiSlide.generate_ppt Ref.lib Examples.env_save_fails
            Examples.five_slides Examples.pets_config "out" Chain.empty_fs)
     = Py.Ok (MultiSlide.Error "No space left on device").
Proof. split; vm_compute; reflexivity. Qed.

(** ** The progress of the background task *)

Section Progress.
Import Py Json Tasks Staircase.
Variable lib : Lib.
Variable env : Tasks.Env.

Local Open Scope Z_scope.

Lemma nondecreasing_snoc l b :
  nondecreasing l -> Forall (fun v => v <= b) l -> nondecreasing (l ++ [b]).
Proof.
  induction l as [|a l IH]; intros Hn Hb; [exact I|].
  apply Forall_cons_1 in Hb as [Ha Hb].
  destruct l as [|a' l]; [cbn; auto|].
  destruct Hn as [Haa Hn]. split; [exact Haa|]. apply IH; assumption.
Qed.

Lemma reported_progress_snoc t ev :
  reported_progress (t ++ [ev])
  = (reported_progress t
     ++ match progress_of ev with Some v => [v] | None => [] end)%list.
Proof.
  unfold reported_progress. rewrite omap_app. cbn.
  destruct (progress_of ev); reflexivity.
Qed.

(** Reporting the current value keeps the staircase. *)
Lemma at_step_report b p t ev :
  at_step b (MkRun (Some p) t) ->
  progress_of ev = Some b \/ progress_of ev = None ->
  at_step b (MkRun (Some p) (t ++ [ev])).
Proof.
  intros [p' [Hp [Hb [Hin [Hn Hf]]]]] Hev. cbn in *.
  exists p'. repeat split; try assumption; cbn; rewrite reported_progress_snoc.
  - destruct Hev as [-> | ->]; [|rewrite app_nil_r; exact Hn].
    apply nondecreasing_snoc; [exact Hn|].
    eapply Forall_impl; [exact Hf|]. intros v [Hv _]. exact Hv.
  - apply Forall_app. split; [exact Hf|].
    destruct Hev as [-> | ->]; [|constructor].
    constructor; [split; [lia|exact Hin]|constructor].
Qed.

Lemma at_step_raise b b' p t :
  b <= b' -> In b' checkpoints ->
  at_step b (MkRun (Some p) t) ->
  at_step b' (MkRun (Some (set_progress b' p)) t).
Proof.
  intros Hle Hin' [p' [Hp [Hb [Hin [Hn Hf]]]]]. cbn in *.
  eexists. repeat split; try reflexivity; try assumption.
  eapply Forall_impl; [exact Hf|]. intros v [Hv Hc]. split; [lia|exact Hc].
Qed.

Lemma at_step_keep b p t (f : Project -> Project) :
  (forall q, progress (f q) = progress q) ->
  at_step b (MkRun (Some p) t) -> at_step b (MkRun (Some (f p)) t).
Proof.
  intros Hf [p' [Hp [Hb [Hin [Hn Hfa]]]]]. cbn in *. inversion Hp; subst p'.
  eexists. repeat split; try reflexivity; try assumption.
  rewrite Hf. exact Hb.
Qed.

Lemma at_step_staircase b s : at_step b s -> staircase s.
Proof.
  intros [p [_ [_ [_ [Hn Hf]]]]]. split; [exact Hn|].
  eapply Forall_impl; [exact Hf|]. intros v [_ Hc]. split; [|exact Hc].
  unfold checkpoints in Hc. cbn in Hc. intuition lia.
Qed.

Lemma interrupted_staircase s : interrupted s -> staircase s.
Proof.
  intros [-> | [b H]]; [|eapply at_step_staircase, H].
  split; [exact I|constructor].
Qed.

(** *** Rules *)

Lemma hoare_bind {A B} P (m : M Run A) (k : A -> M Run B) Q R E :
  hoare P m Q E -> (forall a, hoare (Q a) (k a) R E) ->
  hoare P (mbind k m) R E.
Proof.
  intros Hm Hk s Hs. specialize (Hm s Hs). unfold mbind, M_bind.
  destruct (m s) as [[a|e] s']; [apply Hk, Hm|exact Hm].
Qed.

Lemma hoare_try_except {A} P (body : M Run A) handler Q E E' :
  hoare P body Q E -> (forall e, hoare E (handler e) Q E') ->
  hoare P (try_except body handler) Q E'.
Proof.
  intros Hb Hh s Hs. specialize (Hb s Hs). unfold try_except.
  destruct (body s) as [[a|e] s']; [exact Hb|apply Hh, Hb].
Qed.

Lemma hoare_ret {A} (P : Run -> Prop) (a : A) E :
  hoare P (mret a) (fun _ => P) E.
Proof. intros s Hs. exact Hs. Qed.

Lemma hoare_raise {A} (P : Run -> Prop) e (Q : A -> Run -> Prop) :
  hoare P (raise e) Q P.
Proof. intros s Hs. exact Hs. Qed.

Lemma hoare_lift {A} (P : Run -> Prop) (r : Result A) :
  hoare P (lift r) (fun _ => P) P.
Proof. intros s Hs. unfold lift. destruct r; exact Hs. Qed.

Lemma hoare_weaken {A} (P : Run -> Prop) (m : M Run A) Q E (E' : Run -> Prop) :
  hoare P m Q E -> (forall s, E s -> E' s) -> hoare P m Q E'.
Proof.
  intros H HE s Hs. specialize (H s Hs).
  destruct (m s) as [[a|e] s']; [exact H|apply HE, H].
Qed.

(** *** The statements of the task *)

Lemma the_project_spec b :
  hoare (at_step b) the_project (fun _ => at_step b) (at_step b).
Proof.
  intros s Hs. unfold the_project. destruct (project s); exact Hs.
Qed.

Lemma assign_progress_spec b b' :
  b <= b' -> In b' checkpoints ->
  hoare (at_step b) (assign (set_progress b')) (fun _ => at_step b')
        (at_step b).
Proof.
  intros Hle Hin [pr t] Hs. pose proof Hs as [p [Hp _]]. cbn in Hp. subst pr.
  apply (at_step_raise b b' p t); assumption.
Qed.

Lemma assign_keep_spec b (f : Project -> Project) :
  (forall q, progress (f q) = progress q) ->
  hoare (at_step b) (assign f) (fun _ => at_step b) (at_step b).
Proof.
  intros Hf [pr t] Hs. pose proof Hs as [p [Hp _]]. cbn in Hp. subst pr.
  apply (at_step_keep b p t f); assumption.
Qed.

Lemma commit_spec b :
  hoare (at_step b) (commit env) (fun _ => at_step b) (at_step b).
Proof.
  intros [pr t] Hs. pose proof Hs as [p [Hp [Hb _]]]. cbn in Hp. subst pr.
  unfold commit, mbind, M_bind, the_project, get. cbn.
  destruct (commit_fault env t p); cbn; [exact Hs|].
  apply (at_step_report b p t (Committed p)); [exact Hs|].
  left. cbn. f_equal. exact Hb.
Qed.

Lemma send_spec b msg :
  progress_of (Delivered msg) = Some b \/ progress_of (Delivered msg) = None ->
  hoare (at_step b) (send_personal_message env msg) (fun _ => at_step b)
        (at_step b).
Proof.
  intros Hmsg [pr t] Hs. pose proof Hs as [p [Hp _]]. cbn in Hp. subst pr.
  unfold send_personal_message, mbind, M_bind, get. cbn.
  destruct (delivers env t msg); cbn; [|exact Hs].
  apply (at_step_report b p t (Delivered msg)); assumption.
Qed.

End Progress.

Section TaskProgress.
Import Py Json Tasks Staircase.
Variable lib : Lib.
Variable env : Tasks.Env.

Local Open Scope Z_scope.

Lemma at_step_interrupted b s : at_step b s -> interrupted s.
Proof. intros H. right. eauto. Qed.

Lemma assign_loaded (f : Project -> Project) :
  hoare loaded (assign f) (fun _ => loaded) interrupted.
Proof.
  intros [pr t] [[p Hp] Ht]. cbn in Hp, Ht. subst. cbn. split; eauto.
Qed.

Lemma assign_first_progress :
  hoare loaded (assign (set_progress 0)) (fun _ => at_step 0) interrupted.
Proof.
  intros [pr t] [[p Hp] Ht]. cbn in Hp, Ht. subst. cbn.
  eexists. repeat split; try reflexivity; cbn; auto.
Qed.

Lemma step_progress b b' :
  b <= b' -> In b' checkpoints ->
  hoare (at_step b) (assign (set_progress b')) (fun _ => at_step b')
        interrupted.
Proof.
  intros. eapply hoare_weaken;
    [apply assign_progress_spec; assumption|apply at_step_interrupted].
Qed.

Lemma step_keep b (f : Project -> Project) :
  (forall q, progress (f q) = progress q) ->
  hoare (at_step b) (assign f) (fun _ => at_step b) interrupted.
Proof.
  intros. eapply hoare_weaken;
    [apply assign_keep_spec; assumption|apply at_step_interrupted].
Qed.

Lemma step_commit b :
  hoare (at_step b) (commit env) (fun _ => at_step b) interrupted.
Proof.
  eapply hoare_weaken; [apply commit_spec|apply at_step_interrupted].
Qed.

Lemma step_send_progress b project_id status message :
  hoare (at_step b) (send_progress_update env project_id b status message)
        (fun _ => at_step b) interrupted.
Proof.
  eapply hoare_weaken; [apply send_spec; left; reflexivity|].
  apply at_step_interrupted.
Qed.

Lemma step_send_other b msg :
  progress_of (Delivered msg) = None ->
  hoare (at_step b) (send_personal_message env msg) (fun _ => at_step b)
        interrupted.
Proof.
  intros H. eapply hoare_weaken; [apply send_spec; right; exact H|].
  apply at_step_interrupted.
Qed.

Lemma step_the_project b :
  hoare (at_step b) the_project (fun _ => at_step b) interrupted.
Proof.
  eapply hoare_weaken; [apply the_project_spec|apply at_step_interrupted].
Qed.

Lemma step_lift {A} b (r : Result A) :
  hoare (at_step b) (lift r) (fun _ => at_step b) interrupted.
Proof.
  eapply hoare_weaken; [apply hoare_lift|apply at_step_interrupted].
Qed.

Lemma step_raise {A} b e (Q : A -> Run -> Prop) :
  hoare (at_step b) (raise e) Q interrupted.
Proof.
  eapply hoare_weaken; [apply hoare_raise|apply at_step_interrupted].
Qed.

Lemma step_ret {A} b (a : A) :
  hoare (at_step b) (mret a) (fun _ => at_step b) interrupted.
Proof. apply hoare_ret. Qed.

Lemma hoare_post {A} (P : Run -> Prop) (m : M Run A) (Q Q' : A -> Run -> Prop)
    E :
  hoare P m Q E -> (forall a s, Q a s -> Q' a s) -> hoare P m Q' E.
Proof.
  intros H HQ s Hs. specialize (H s Hs).
  destruct (m s) as [[a|e] s']; [apply HQ, H|exact H].
Qed.

(** One statement of the straight-line part of the task. *)
Ltac statement :=
  first [ apply step_progress; [lia|cbn; tauto]
        | apply step_keep; reflexivity
        | apply step_commit
        | apply step_send_progress
        | apply step_the_project
        | apply step_lift
        | apply step_ret ].

Ltac statements :=
  repeat (eapply hoare_bind; [statement|intros ?; cbv beta]).

Lemma generate_document_steps_spec project_id user_id :
  hoare loaded (generate_document_steps lib env project_id user_id)
        (fun _ => staircase) interrupted.
Proof.
  unfold generate_document_steps.
  eapply hoare_bind; [apply assign_loaded|intros ?; cbv beta].
  eapply hoare_bind; [apply assign_first_progress|intros ?; cbv beta].
  statements.
  eapply hoare_bind with (Q := fun _ => at_step 0).
  { destruct (init_agents env); [apply step_raise|apply step_ret]. }
  intros ?; cbv beta. statements.
  eapply hoare_bind with (Q := fun _ => at_step 60).
  { match goal with
    | |- hoare _ (if ?c then _ else _) _ _ =>
        destruct c; [apply step_ret|apply step_raise]
    end. }
  intros ?; cbv beta. statements.
  match goal with
  | |- hoare _ (match ?o with _ => _ end) _ _ => destruct o as [path|]
  end; [|apply step_raise].
  match goal with
  | |- hoare _ (if ?c then _ else _) _ _ => destruct c
  end; [|apply step_raise].
  statements.
  eapply hoare_post.
  - apply step_send_other. reflexivity.
  - intros ? s Hs. eapply at_step_staircase, Hs.
Qed.

End TaskProgress.

Section TaskRun.
Import Py Json Tasks Staircase.
Variable lib : Lib.
Variable env : Tasks.Env.

Lemma on_failure_at_step b project_id user_id e :
  hoare (at_step b) (on_failure env project_id user_id e)
        (fun _ => at_step b) interrupted.
Proof.
  unfold on_failure.
  repeat (eapply hoare_bind;
          [first [apply step_keep; reflexivity|apply step_commit]
          |intros ?; cbv beta]).
  apply step_send_other. reflexivity.
Qed.

Lemma on_failure_spec project_id user_id e :
  hoare interrupted (on_failure env project_id user_id e)
        (fun _ => staircase) staircase.
Proof.
  intros s [->|[b Hb]].
  - cbn. apply interrupted_staircase. left. reflexivity.
  - pose proof (on_failure_at_step b project_id user_id e s Hb) as H.
    destruct (on_failure env project_id user_id e s) as [[a|e'] s'].
    + eapply at_step_staircase, H.
    + apply interrupted_staircase, H.
Qed.

Lemma load_then_steps_spec project_id user_id :
  hoare (fun s => s = start)
        (found ← load_project env;
         match found with
         | None => mret tt
         | Some _ => generate_document_steps lib env project_id user_id
         end)
        (fun _ => staircase) interrupted.
Proof.
  intros s ->. unfold mbind, M_bind, load_project. cbn.
  destruct (first_project env) as [[p|]|e].
  - apply (generate_document_steps_spec lib env project_id user_id).
    split; [eexists; reflexivity|reflexivity].
  - cbn. apply interrupted_staircase. left. reflexivity.
  - left. reflexivity.
Qed.

End TaskRun.

(** C5. In one run of the task, whatever fails and whenever, the
    progress values that reach the database and the client, taken in the
    order they are reported, never decrease, and each of them is one of
    the values 0, 10, 20, 60, 80, 100 of the checkpoints, so between 0
    and 100. *)
Theorem progress_is_staircase
    (lib : Json.Lib) (env : Tasks.Env) (project_id user_id : Z) :
  let run := snd (Tasks.generate_document_task lib env project_id user_id
                    Staircase.start) in
  Staircase.nondecreasing (Tasks.reported_progress (Tasks.trace run))
  /\ Forall (fun v => (0 <= v <= 100)%Z /\ In v Staircase.checkpoints)
            (Tasks.reported_progress (Tasks.trace run)).
Proof.
  cbv zeta. unfold Tasks.generate_document_task, Py.try_finally.
  pose proof (hoare_try_except _ _ _ _ _ _
                (load_then_steps_spec lib env project_id user_id)
                (on_failure_spec env project_id user_id)
                Staircase.start eq_refl) as H.
  destruct (Py.try_except _ _ Staircase.start) as [[a|e] s'];
    cbn; exact H.
Qed.

(** The two staircases of the example runs: one that completes, one that
    fails during the search and commits the failure with the progress it
    has reached. *)
Example progress_of_completed_run :
  let run := snd (Tasks.generate_document_task Ref.lib Examples.env_task_ok
                    7 1 Staircase.start) in
  Tasks.reported_progress (Tasks.trace run)
  = [0; 0; 10; 10; 20; 20; 60; 60; 80; 80; 100]%Z
  /\ (Tasks.status <$> Tasks.project run) = Some Tasks.COMPLETED.
Proof. split; vm_compute; reflexivity. Qed.

Example progress_of_failed_run :
  let run := snd (Tasks.generate_document_task Ref.lib
                    Examples.env_search_raises 7 1 Staircase.start) in
  Tasks.reported_progress (Tasks.trace run) = [0; 0; 10; 10; 20; 20; 20]%Z
  /\ (Tasks.status <$> Tasks.project run) = Some Tasks.FAILED
  /\ (Tasks.error_message <$> Tasks.project run)
     = Some (Some "search timed out").
Proof. repeat split; vm_compute; reflexivity. Qed.

(** * More properties of the code *)

(** ** Wrapping a slide *)

Section Wrapping.
Import Py MultiSlide.

Lemma contains_of_startswith p s : startswith p s = true -> contains p s = true.
Proof.
  unfold startswith. intros H. destruct s; cbn [contains]; rewrite H;
    reflexivity.
Qed.

Lemma slide_shell_is_document c m md n t pb nb ps ns :
  contains "<!DOCTYPE" (slide_shell c m md n t pb nb ps ns) = true.
Proof.
  apply contains_of_startswith. unfold slide_shell, startswith.
  cbn [String.concat]. reflexivity.
Qed.

End Wrapping.

(** X1. Wrapping is idempotent: a page that [_wrap_slide_html] has
    produced is a complete document and goes through it unchanged. *)
Theorem wrap_slide_html_idempotent
    (content_html : string) (slide_meta : MultiSlide.SlideMeta)
    (ppt_metadata : MultiSlide.Metadata) :
  MultiSlide._wrap_slide_html
    (MultiSlide._wrap_slide_html content_html slide_meta ppt_metadata)
    slide_meta ppt_metadata
  = MultiSlide._wrap_slide_html content_html slide_meta ppt_metadata.
Proof.
  assert (Hdoc : forall c, Py.contains "<!DOCTYPE" c || Py.contains "<html" c
                           = true ->
                 MultiSlide._wrap_slide_html c slide_meta ppt_metadata = c).
  { intros c H. unfold MultiSlide._wrap_slide_html. cbv zeta. rewrite H.
    reflexivity. }
  destruct (Py.contains "<!DOCTYPE" content_html
            || Py.contains "<html" content_html) eqn:E.
  - rewrite (Hdoc _ E). apply Hdoc, E.
  - apply Hdoc. unfold MultiSlide._wrap_slide_html at 1. cbv zeta.
    rewrite E. rewrite slide_shell_is_document. reflexivity.
Qed.


(** ** What a run does to the output tree *)

Section FsEffects.
Import Py Json MultiSlide Slides.
Variable lib : Lib.
Variable env : Env.

Lemma keeps_ret {A} (a : A) : keeps_files (mret a).
Proof. intros fs r fs' H. inversion H; subst. split; reflexivity. Qed.

Lemma keeps_raise {A} e : keeps_files (@raise FS A e).
Proof. intros fs r fs' H. inversion H; subst. split; reflexivity. Qed.

Lemma keeps_lift {A} (x : Result A) : keeps_files (lift x).
Proof. intros fs r fs' H. inversion H; subst. split; reflexivity. Qed.

Lemma keeps_bind {A B} (m : M FS A) (k : A -> M FS B) :
  keeps_files m -> (forall a, keeps_files (k a)) -> keeps_files (mbind k m).
Proof.
  intros Hm Hk fs r fs' H. unfold mbind, M_bind in H.
  destruct (m fs) as [[a|e] fs1] eqn:E; destruct (Hm _ _ _ E) as [H1 H2].
  - destruct (Hk a _ _ _ H) as [H3 H4]. split; set_solver.
  - inversion H; subst. split; assumption.
Qed.

Lemma keeps_try_except {A} (m : M FS A) h :
  keeps_files m -> (forall e, keeps_files (h e)) ->
  keeps_files (try_except m h).
Proof.
  intros Hm Hh fs r fs' H. unfold try_except in H.
  destruct (m fs) as [[a|e] fs1] eqn:E; destruct (Hm _ _ _ E) as [H1 H2].
  - inversion H; subst. split; assumption.
  - destruct (Hh e _ _ _ H) as [H3 H4]. split; set_solver.
Qed.

Lemma keeps_mkdir path : keeps_files (mkdir env path).
Proof.
  intros fs r fs' H. unfold mkdir in H.
  destruct (io_fault env fs _); inversion H; subst; cbn; split; set_solver.
Qed.

Lemma keeps_write_text path text : keeps_files (write_text env path text).
Proof.
  intros fs r fs' H. unfold write_text in H.
  destruct (io_fault env fs _); inversion H; subst; cbn; split;
    try reflexivity.
  rewrite dom_insert. set_solver.
Qed.

Lemma keeps_single_slide d m md ppt_dir :
  keeps_files (_generate_single_slide lib env d m md ppt_dir).
Proof.
  unfold _generate_single_slide.
  apply keeps_try_except; [|intros; apply keeps_raise].
  apply keeps_bind.
  - destruct (sd_html_content d); [apply keeps_ret|apply keeps_lift].
  - intros html. apply keeps_bind; [apply keeps_write_text|].
    intros; apply keeps_ret.
Qed.

Lemma keeps_run_all (tasks : list (M FS string)) :
  Forall keeps_files tasks ->
  forall fs, dom (files fs) ⊆ dom (files (snd (run_all tasks fs)))
             /\ dirs fs ⊆ dirs (snd (run_all tasks fs)).
Proof.
  induction 1 as [|t ts Ht _ IH]; intros fs; cbn [run_all].
  - split; reflexivity.
  - destruct (t fs) as [r fs1] eqn:E. destruct (Ht _ _ _ E) as [H1 H2].
    specialize (IH fs1). destruct (run_all ts fs1) as [rs fs2].
    cbn [snd] in *. destruct IH as [I1 I2].
    split; [etrans; [exact H1|exact I1]|etrans; [exact H2|exact I2]].
Qed.

Lemma keeps_index_page md ppt_dir :
  keeps_files (_generate_index_page env md ppt_dir).
Proof.
  apply keeps_try_except; [|intros; apply keeps_ret].
  apply keeps_bind; [apply keeps_lift|intros; apply keeps_write_text].
Qed.

Lemma keeps_presenter_page md ppt_dir :
  keeps_files (_generate_presenter_page env md ppt_dir).
Proof.
  apply keeps_try_except; [|intros; apply keeps_ret].
  apply keeps_bind; [apply keeps_lift|intros; apply keeps_write_text].
Qed.

Lemma keeps_navigation_pages md ppt_dir :
  keeps_files (_generate_navigation_pages env md ppt_dir).
Proof.
  apply keeps_bind; [apply keeps_index_page|].
  intros; apply keeps_presenter_page.
Qed.

Lemma keeps_directory_structure out :
  keeps_files (_create_directory_structure env out).
Proof.
  unfold _create_directory_structure.
  repeat (apply keeps_bind; [apply keeps_mkdir|intros ?]).
  apply keeps_ret.
Qed.

Lemma slide_tasks_are md ppt_dir rest i tasks :
  slide_tasks lib env md ppt_dir i rest = Ok tasks ->
  tasks = tasks_of lib env md ppt_dir rest (drop i (slides md)).
Proof.
  revert i tasks. induction rest as [|d rest IH]; intros i tasks;
    cbn [slide_tasks]; unfold mbind, Result_bind, rbind, mret, Result_ret.
  - intros H. inversion H. reflexivity.
  - unfold index. destruct (slides md !! i) as [m|] eqn:Em; [|discriminate].
    destruct (slide_tasks lib env md ppt_dir (S i) rest) as [ts|] eqn:E;
      [|discriminate].
    intros H. inversion H; subst. rewrite (drop_S _ _ _ Em).
    unfold tasks_of. cbn [zip_with]. f_equal. apply (IH _ _ E).
Qed.

Lemma tasks_of_keep md ppt_dir ds ms :
  Forall keeps_files (tasks_of lib env md ppt_dir ds ms).
Proof.
  revert ms. induction ds as [|d ds IH]; intros [|m ms]; cbn;
    try constructor; [apply keeps_single_slide|apply IH].
Qed.

Lemma keeps_all_slides sd md ppt_dir :
  keeps_files (_generate_all_slides lib env sd md ppt_dir).
Proof.
  intros fs r fs' H. unfold _generate_all_slides, mbind, M_bind, lift in H.
  destruct (slide_tasks lib env md ppt_dir 0 sd) as [tasks|e] eqn:E.
  - unfold gather in H.
    pose proof (keeps_run_all tasks) as K.
    rewrite (slide_tasks_are _ _ _ _ _ E) in K at 1.
    specialize (K (tasks_of_keep _ _ _ _) fs).
    destruct (run_all tasks fs) as [rs fs1]. inversion H; subst. exact K.
  - inversion H; subst. split; reflexivity.
Qed.

Lemma keeps_save_metadata md ppt_dir :
  keeps_files (_save_metadata lib env md ppt_dir).
Proof. apply keeps_write_text. Qed.

Lemma keeps_generate_ppt sd cfg out :
  keeps_files (generate_ppt lib env sd cfg out).
Proof.
  apply keeps_try_except; [|intros; apply keeps_ret].
  unfold generate_ppt_body.
  apply keeps_bind; [apply keeps_directory_structure|intros ppt_dir].
  apply keeps_bind; [apply keeps_lift|intros md].
  apply keeps_bind; [apply keeps_all_slides|intros files].
  apply keeps_bind; [apply keeps_navigation_pages|intros ?].
  apply keeps_bind; [apply keeps_save_metadata|intros ?].
  apply keeps_bind; [apply keeps_ret|intros ?]. apply keeps_ret.
Qed.

End FsEffects.


Section SlideFiles.
Import Py Json MultiSlide Slides.
Variable lib : Lib.
Variable env : Env.

(** A unit that returns has written its page where it says. *)
Lemma single_slide_ok d m md ppt_dir fs path fs' :
  _generate_single_slide lib env d m md ppt_dir fs = (Ok path, fs') ->
  path = slide_path ppt_dir m
  /\ exists html,
       files fs' = <[ path := _wrap_slide_html html m md ]> (files fs)
       /\ (forall h, sd_html_content d = Some h -> html = h).
Proof.
  unfold _generate_single_slide, try_except, mbind, M_bind.
  destruct (sd_html_content d) as [h|] eqn:Eh.
  - cbn. unfold write_text. destruct (io_fault env fs _); [discriminate|].
    intros H. inversion H; subst. split; [reflexivity|].
    exists h. split; [reflexivity|]. intros h' Hh'. congruence.
  - unfold lift. destruct (render_template env _ _) as [html|e];
      [|discriminate].
    unfold write_text. destruct (io_fault env fs _); [discriminate|].
    intros H. inversion H; subst. split; [reflexivity|].
    exists html. split; [reflexivity|]. discriminate.
Qed.

Lemma run_all_files md ppt_dir ds ms fs :
  let run := run_all (tasks_of lib env md ppt_dir ds ms) fs in
  Forall (fun f => f ∈ dom (files (snd run))
                   /\ exists m, m ∈ ms /\ f = slide_path ppt_dir m)
         (successes (fst run)).
Proof.
  cbv zeta. revert ms fs. induction ds as [|d ds IH]; intros ms fs;
    [constructor|].
  destruct ms as [|m ms]; [constructor|].
  unfold tasks_of. cbn [zip_with run_all]. fold (tasks_of lib env md ppt_dir ds ms).
  destruct (_generate_single_slide lib env d m md ppt_dir fs) as [r fs1] eqn:E.
  specialize (IH ms fs1).
  pose proof (keeps_run_all (tasks_of lib env md ppt_dir ds ms)
                (tasks_of_keep lib env md ppt_dir ds ms) fs1) as [K _].
  destruct (run_all (tasks_of lib env md ppt_dir ds ms) fs1) as [rs fs2].
  cbn [fst snd] in *.
  assert (IH' : Forall (fun f => f ∈ dom (files fs2)
                          /\ exists m0, m0 ∈ m :: ms /\ f = slide_path ppt_dir m0)
                       (successes rs)).
  { eapply Forall_impl; [exact IH|]. intros f [Hf [m0 [Hm0 ->]]].
    split; [exact Hf|]. exists m0. split; [set_solver|reflexivity]. }
  destruct r as [path|e]; cbn [successes]; [|exact IH'].
  constructor; [|exact IH'].
  destruct (single_slide_ok _ _ _ _ _ _ _ E) as [-> [html [Hf _]]].
  split.
  - apply K. rewrite Hf, dom_insert. set_solver.
  - exists m. split; [set_solver|reflexivity].
Qed.

Lemma directory_structure_files out fs r fs1 :
  _create_directory_structure env out fs = (r, fs1) -> files fs1 = files fs.
Proof.
  unfold _create_directory_structure, mbind, M_bind.
  repeat (rewrite mkdir_run;
          match goal with
          | |- context [io_fault env ?f ?op] =>
              destruct (io_fault env f op);
              [intros H; inversion H; reflexivity|]
          end).
  intros H. inversion H; subst. reflexivity.
Qed.

End SlideFiles.

(** X2. Every slide file that a successful [generate_ppt] returns has
    been written: it is a file of the output tree at the end of the run,
    and its path is [ppt/slides/] followed by the file name of one of
    the slides of the metadata. *)
Theorem returned_slide_files_exist
    (lib : Json.Lib) (env : MultiSlide.Env)
    (slides_data : list MultiSlide.SlideData)
    (ppt_config : MultiSlide.PptConfig) (output_dir : string)
    (fs fs' : MultiSlide.FS) (ppt_dir : string) (total : nat)
    (slide_files : list string) (index_page presenter_page : string) :
  MultiSlide.generate_ppt lib env slides_data ppt_config output_dir fs
  = (Py.Ok (MultiSlide.Success ppt_dir total slide_files index_page
              presenter_page), fs') ->
  exists md,
    MultiSlide._create_slides_metadata env slides_data ppt_config = Py.Ok md
    /\ Forall (fun f => is_Some (MultiSlide.files fs' !! f)
                        /\ exists m, m ∈ MultiSlide.slides md
                                     /\ f = Slides.slide_path ppt_dir m)
              slide_files.
Proof.
  unfold MultiSlide.generate_ppt, Py.try_except.
  destruct (generate_ppt_body_cases lib env slides_data ppt_config
              output_dir fs)
    as [[e [fs1 [_ ->]]]|[fs1 [md [tasks [fs3 H]]]]]; [discriminate|].
  cbv zeta in H. destruct H as [Hd [_ [Hmd [Hs [Ht [Hn ->]]]]]].
  destruct (MultiSlide._save_metadata lib env md _ fs3) as [[[]|e] fs4] eqn:Es;
    [|discriminate].
  intros H. inversion H; subst; clear H. exists md. split; [exact Hmd|].
  rewrite (slide_tasks_are lib env _ _ _ _ _ Ht). cbn [drop].
  pose proof (run_all_files lib env md (Py.path_join output_dir "ppt")
                slides_data (MultiSlide.slides md) fs1) as R.
  cbv zeta in R. rewrite (slide_tasks_are lib env _ _ _ _ _ Ht) in Hn.
  cbn [drop] in Hn.
  destruct (keeps_navigation_pages env md _ _ _ _ Hn) as [K1 _].
  destruct (keeps_save_metadata lib env md _ _ _ _ Es) as [K2 _].
  eapply Forall_impl; [exact R|]. intros f [Hf Hm]. split; [|exact Hm].
  apply elem_of_dom. apply K2, K1, Hf.
Qed.

(** X3. A run of [generate_ppt] removes nothing, however it ends: the
    files and the directories that were there before are still there. *)
Theorem generate_ppt_removes_nothing
    (lib : Json.Lib) (env : MultiSlide.Env)
    (slides_data : list MultiSlide.SlideData)
    (ppt_config : MultiSlide.PptConfig) (output_dir : string)
    (fs : MultiSlide.FS) :
  let fs' := snd (MultiSlide.generate_ppt lib env slides_data ppt_config
                    output_dir fs) in
  dom (MultiSlide.files fs) ⊆ dom (MultiSlide.files fs')
  /\ MultiSlide.dirs fs ⊆ MultiSlide.dirs fs'.
Proof.
  cbv zeta.
  destruct (MultiSlide.generate_ppt lib env slides_data ppt_config
              output_dir fs) as [r fs'] eqn:E.
  exact (keeps_generate_ppt lib env _ _ _ _ _ _ E).
Qed.

(** X4. When a directory cannot be made, [generate_ppt] reports that
    error and no file has been written: no unit is run. *)
Theorem directory_failure_writes_nothing
    (lib : Json.Lib) (env : MultiSlide.Env)
    (slides_data : list MultiSlide.SlideData)
    (ppt_config : MultiSlide.PptConfig) (output_dir : string)
    (fs fs1 : MultiSlide.FS) (e : Py.exn) :
  MultiSlide._create_directory_structure env output_dir fs
  = (Py.Raise e, fs1) ->
  MultiSlide.generate_ppt lib env slides_data ppt_config output_dir fs
  = (Py.Ok (MultiSlide.Error (Py.exn_str e)), fs1)
  /\ MultiSlide.files fs1 = MultiSlide.files fs
  /\ Chain.unit_results lib env slides_data ppt_config output_dir fs = None.
Proof.
  intros Hd. split; [|split].
  - unfold MultiSlide.generate_ppt, Py.try_except,
      MultiSlide.generate_ppt_body, mbind, Py.M_bind.
    rewrite Hd. reflexivity.
  - eapply directory_structure_files, Hd.
  - unfold Chain.unit_results. rewrite Hd. reflexivity.
Qed.


Section AllSlidesWritten.
Import Py Json MultiSlide Slides Chain.
Variable lib : Lib.
Variable env : Env.
Hypothesis no_fault : forall fs op, io_fault env fs op = None.



Lemma write_text_no_fault path text fs :
  write_text env path text fs
  = (Ok tt, MkFS (dirs fs) (<[ path := text ]> (files fs))).
Proof. unfold write_text. rewrite no_fault. reflexivity. Qed.



Lemma write_text_other path text fs r fs' p :
  write_text env path text fs = (r, fs') -> p <> path ->
  files fs' !! p = files fs !! p.
Proof.
  rewrite write_text_no_fault. intros H Hp. inversion H; subst. cbn.
  apply lookup_insert_ne. auto.
Qed.



End AllSlidesWritten.


Section AllSlidesWrittenRun.
Import Py Json MultiSlide Slides Chain.



End AllSlidesWrittenRun.



Lemma returned_slide_files_exist_witness :
  let fs' := snd (MultiSlide.generate_ppt Ref.lib Examples.env_third_fails
                    Examples.five_slides Examples.pets_config "out"
                    Chain.empty_fs) in
  exists md,
    MultiSlide._create_slides_metadata Examples.env_third_fails
      Examples.five_slides Examples.pets_config = Py.Ok md
    /\ Forall (fun f => is_Some (MultiSlide.files fs' !! f)
                        /\ exists m, m ∈ MultiSlide.slides md
                                     /\ f = Slides.slide_path "out/ppt" m)
              ["out/ppt/slides/slide_01_content.html";
               "out/ppt/slides/slide_02_content.html";
               "out/ppt/slides/slide_04_content.html";
               "out/ppt/slides/slide_05_content.html"].
Proof.
  intros fs'.
  apply (returned_slide_files_exist Ref.lib Examples.env_third_fails
           Examples.five_slides Examples.pets_config "out" Chain.empty_fs fs'
           "out/ppt" 5 _ "out/ppt/index.html" "out/ppt/presenter.html").
  vm_compute. reflexivity.
Defined.

Lemma directory_failure_writes_nothing_witness :
  MultiSlide.generate_ppt Ref.lib Cases.env_no_dirs Examples.five_slides
    Examples.pets_config "out" Chain.empty_fs
  = (Py.Ok (MultiSlide.Error "Permission denied"), Chain.empty_fs)
  /\ MultiSlide.files Chain.empty_fs = MultiSlide.files Chain.empty_fs
  /\ Chain.unit_results Ref.lib Cases.env_no_dirs Examples.five_slides
       Examples.pets_config "out" Chain.empty_fs = None.
Proof.
  apply (directory_failure_writes_nothing Ref.lib Cases.env_no_dirs
           Examples.five_slides Examples.pets_config "out" Chain.empty_fs
           Chain.empty_fs (Py.Exn "PermissionError" "Permission denied")).
  reflexivity.
Defined.


(** X6. After a run of [generate_ppt] that reports success, the six
    directories of the layout ([ppt], [ppt/slides], [ppt/assets/styles],
    [ppt/assets/scripts], [ppt/assets/images], [ppt/data]) are
    directories of the output tree. *)
Theorem success_has_output_dirs
    (lib : Json.Lib) (env : MultiSlide.Env)
    (slides_data : list MultiSlide.SlideData)
    (ppt_config : MultiSlide.PptConfig) (output_dir : string)
    (fs fs' : MultiSlide.FS) (r : MultiSlide.Response) :
  MultiSlide.generate_ppt lib env slides_data ppt_config output_dir fs
  = (Py.Ok r, fs') ->
  MultiSlide.status r = "success" ->
  Forall (fun d => d ∈ MultiSlide.dirs fs') (Slides.output_dirs output_dir).
Proof.
  intros Hrun Hst.
  unfold MultiSlide.generate_ppt, Py.try_except in Hrun.
  destruct (MultiSlide.generate_ppt_body lib env slides_data ppt_config
              output_dir fs) as [[r'|e] fs2] eqn:Eb.
  2:{ inversion Hrun; subst. discriminate Hst. }
  inversion Hrun; subst; clear Hrun.
  unfold MultiSlide.generate_ppt_body, mbind, Py.M_bind in Eb.
  destruct (MultiSlide._create_directory_structure env output_dir fs)
    as [[ppt_dir|e] fs1] eqn:Ed; [|discriminate].
  assert (Hdirs : Forall (fun d => d ∈ MultiSlide.dirs fs1)
                         (Slides.output_dirs output_dir)).
  { clear Eb. unfold MultiSlide._create_directory_structure, mbind,
      Py.M_bind in Ed.
    repeat (rewrite mkdir_run in Ed;
            match type of Ed with
            | context [MultiSlide.io_fault env ?f ?op] =>
                destruct (MultiSlide.io_fault env f op); [discriminate|]
            end).
    inversion Ed; subst. unfold Slides.output_dirs. cbn [MultiSlide.dirs].
    repeat constructor; set_solver. }
  assert (K : MultiSlide.dirs fs1 ⊆ MultiSlide.dirs fs').
  { destruct (Py.lift _ fs1) as [[md|e] fs1'] eqn:El; [|discriminate].
    unfold Py.lift in El. inversion El; subst fs1'.
    destruct (MultiSlide._generate_all_slides lib env slides_data md ppt_dir
                fs1) as [[files|e] fsa] eqn:Ea; [|discriminate].
    destruct (MultiSlide._generate_navigation_pages env md ppt_dir fsa)
      as [[[]|e] fsn] eqn:En; [|discriminate].
    destruct (MultiSlide._save_metadata lib env md ppt_dir fsn)
      as [[[]|e] fss] eqn:Es; [|discriminate].
    cbn in Eb. inversion Eb; subst.
    destruct (keeps_all_slides lib env _ _ _ _ _ _ Ea) as [_ K1].
    destruct (keeps_navigation_pages env _ _ _ _ _ En) as [_ K2].
    destruct (keeps_save_metadata lib env _ _ _ _ _ Es) as [_ K3].
    etrans; [exact K1|]. etrans; [exact K2|exact K3]. }
  eapply Forall_impl; [exact Hdirs|]. intros d Hd. apply K, Hd.
Qed.

Lemma success_has_output_dirs_witness :
  Forall (fun d => d ∈ MultiSlide.dirs
                         (snd (MultiSlide.generate_ppt Ref.lib
                                 Examples.env_third_fails Examples.five_slides
                                 Examples.pets_config "out" Chain.empty_fs)))
         (Slides.output_dirs "out").
Proof.
  eapply (success_has_output_dirs Ref.lib Examples.env_third_fails
            Examples.five_slides Examples.pets_config "out" Chain.empty_fs).
  - vm_compute. reflexivity.
  - reflexivity.
Defined.


(** ** More on the design coordinator *)

Section DesignDictionary.
Import Py Json Llm Design DesignDict.
Variable lib : Lib.

Lemma lookup_dict_set_ne k v k' d :
  k <> k' -> lookup k' (dict_set k v d) = lookup k' d.
Proof.
  intros Hk. induction d as [|[k0 v0] d IH]; cbn [dict_set lookup].
  - destruct (String.eqb_spec k' k); [congruence|reflexivity].
  - destruct (String.eqb_spec k k0) as [->|Hn]; cbn [lookup].
    + destruct (String.eqb_spec k' k0); [congruence|reflexivity].
    + rewrite IH. reflexivity.
Qed.

Lemma DesignSpec_init_missing k d :
  k ∈ fields -> lookup k d = None ->
  exists e, DesignSpec_init lib (JObj d) = Raise e.
Proof.
  intros Hk Hn.
  destruct (DesignSpec_init lib (JObj d)) as [s|e] eqn:E; [|eauto].
  exfalso. apply DesignSpec_init_built in E as [m [[= <-] H]].
  destruct H as (H1 & H2 & H3 & H4 & H5 & H6 & H7 & H8 & H9 & H10 & H11
                 & H12 & [v13 [H13 _]] & [v14 [H14 _]] & H15 & H16).
  unfold fields in Hk.
  repeat (apply elem_of_cons in Hk as [->|Hk]; [congruence|]).
  apply elem_of_nil in Hk. exact Hk.
Qed.

Lemma built_from_dict_set k v d s :
  k ∉ fields -> built_from lib (dict_set k v d) s <-> built_from lib d s.
Proof.
  intros Hk.
  assert (N : forall f, f ∈ fields ->
                        lookup f (dict_set k v d) = lookup f d).
  { intros f Hf. apply lookup_dict_set_ne. intros ->. exact (Hk Hf). }
  unfold built_from.
  rewrite !N by (unfold fields; apply list_elem_of_In; cbn; tauto).
  reflexivity.
Qed.

End DesignDictionary.

(** X7. Turning a design specification into a dictionary with
    [design_spec_to_dict] and building a [DesignSpec] from that
    dictionary gives the specification back, whatever its fields
    hold. *)
Theorem design_spec_round_trip (lib : Json.Lib) (s : Design.DesignSpec) :
  Design.DesignSpec_init lib (DesignDict.design_spec_to_dict s) = Py.Ok s.
Proof.
  destruct s.
  unfold DesignDict.design_spec_to_dict, DesignDict.model_dump,
    Design.DesignSpec_init, Design.DesignSpec_fields,
    Design.field_str, Design.field_bool, Design.field_str_list.
  cbn [Design.primary_color Design.secondary_color Design.accent_color
       Design.background_color Design.text_color Design.text_secondary_color
       Design.title_font_size Design.content_font_size Design.font_family
       Design.layout_style Design.spacing Design.border_radius
       Design.use_shadows Design.use_gradients Design.animation_style
       Design.chart_colors].
  cbn [Json.lookup String.eqb Ascii.eqb Bool.eqb].
  rewrite all_str_texts. reflexivity.
Qed.

(** X8. An answer that decodes to an object in which one of the
    declared fields is missing is discarded as a whole: the design
    returned is the default of the style, whatever the other members of
    the object are. *)
Theorem incomplete_design_gives_default
    (lib : Json.Lib) (World : Type) (llm_client : Llm.Client World)
    (topic : string) (outline : Design.Outline) (style prompt : string)
    (w w' : World) (response : Llm.ChatResponse) (content : string)
    (members : list (string * Json.value)) (k : string) :
  Design._build_design_prompt topic outline style = Py.Ok prompt ->
  Llm.chat_completion llm_client (Design.design_request prompt) w
  = (Py.Ok response, w') ->
  Llm.get_content response = Some content ->
  Json.json_loads lib (Design.clean_design_content content)
  = Py.Ok (Json.JObj members) ->
  k ∈ DesignDict.fields -> Json.lookup k members = None ->
  Design.generate_design_spec lib llm_client topic outline style w
  = (Py.Ok (Design._get_default_design style), w').
Proof.
  intros Hp Hcall Hc Hjson Hk Hn.
  rewrite generate_design_spec_run, Hp, Hcall, Hc. cbn [Py.receiver].
  unfold Design.decoded_design, mbind, Py.Result_bind, Py.rbind.
  rewrite Hjson.
  destruct (DesignSpec_init_missing lib k members Hk Hn) as [e ->].
  reflexivity.
Qed.

Lemma incomplete_design_gives_default_witness :
  Design.generate_design_spec Ref.lib Scripted.client "Pets" [] "simple"
    [Scripted.says ("{" ++ Examples.member "primary_color"
                              (Py.quoted "#000000") ++ "}")]
  = (Py.Ok (Design._get_default_design "simple"), []).
Proof.
  eapply (incomplete_design_gives_default Ref.lib _ Scripted.client "Pets"
            [] "simple" _ _ [] _ _
            [("primary_color", Json.JStr "#000000")] "chart_colors").
  - vm_compute. reflexivity.
  - reflexivity.
  - reflexivity.
  - vm_compute. reflexivity.
  - unfold DesignDict.fields. apply list_elem_of_In. cbn. tauto.
  - reflexivity.
Defined.

(** X9. A member whose key is not a declared field does not count:
    setting it in the dictionary changes neither whether a [DesignSpec]
    can be built from the dictionary nor the record that is built.  (The
    exception raised for a dictionary that is refused quotes the
    dictionary, and is not compared.) *)
Theorem undeclared_member_ignored
    (lib : Json.Lib) (k : string) (v : Json.value)
    (members : list (string * Json.value)) (s : Design.DesignSpec) :
  k ∉ DesignDict.fields ->
  Design.DesignSpec_init lib (Json.JObj (Json.dict_set k v members)) = Py.Ok s
  <-> Design.DesignSpec_init lib (Json.JObj members) = Py.Ok s.
Proof.
  intros Hk. rewrite !DesignSpec_init_built. split.
  - intros [m [[= <-] H]]. eexists. split; [reflexivity|].
    apply (built_from_dict_set lib k v), H. exact Hk.
  - intros [m [[= <-] H]]. eexists. split; [reflexivity|].
    apply (built_from_dict_set lib k v); assumption.
Qed.

Lemma undeclared_member_ignored_witness :
  Design.DesignSpec_init Ref.lib
    (Json.JObj (Json.dict_set "comment" (Json.JStr "dark theme")
                  (DesignDict.model_dump Design.default_ted)))
  = Py.Ok Design.default_ted.
Proof.
  apply (undeclared_member_ignored Ref.lib "comment" (Json.JStr "dark theme")
           (DesignDict.model_dump Design.default_ted) Design.default_ted).
  - unfold DesignDict.fields. intros H. apply list_elem_of_In in H.
    cbn in H.
    repeat (destruct H as [H|H]; [discriminate H|]). exact H.
  - vm_compute. reflexivity.
Defined.

Section DesignFence.
Import Py Json Llm Design Fence.

Lemma clean_design_plain p :
  is_object_text p = true -> clean_design_content p = strip p.
Proof.
  intros H. apply is_object_text_inv in H as [body H].
  assert (S1 : startswith "```json" (strip p) = false)
    by (rewrite H; reflexivity).
  assert (S2 : startswith "```" (strip p) = false)
    by (rewrite H; reflexivity).
  assert (S3 : endswith "```" (strip p) = false)
    by (rewrite H; apply (endswith_fence_brace ("{" ++ body))).
  assert (S4 : strip (strip p) = strip p)
    by (rewrite H;
        apply (strip_padded EmptyString "{" body "}" EmptyString); reflexivity).
  unfold clean_design_content. cbv zeta.
  rewrite S1. cbv iota. rewrite S2. cbv iota. rewrite S3. cbv iota. exact S4.
Qed.

Lemma clean_design_block ws1 fence p ws2 :
  all_space ws1 = true -> all_space ws2 = true ->
  is_fence fence = true -> is_object_text p = true ->
  clean_design_content (ws1 ++ fence ++ p ++ "```" ++ ws2) = strip p.
Proof.
  intros H1 H2 Hf Hp.
  destruct (object_text_head p Hp) as [c0 [r0 [E [Hq Hj]]]].
  assert (T : endswith "```" (p ++ "```") = true) by apply endswith_append.
  assert (D : drop_back 3 (p ++ "```") = p)
    by apply (drop_back_append p "```").
  unfold is_fence in Hf. apply orb_true_iff in Hf as [Hf|Hf];
    apply String.eqb_eq in Hf; subst fence;
    unfold clean_design_content; cbv zeta.
  - replace (ws1 ++ "```json" ++ p ++ "```" ++ ws2)
      with (ws1 ++ String "`" (("``json" ++ p ++ "``") ++ String "`" ws2))
      by (rewrite !append_assoc; reflexivity).
    rewrite strip_padded by (assumption || reflexivity).
    remember (String "`" (("``json" ++ p ++ "``") ++ String "`" EmptyString))
      as X eqn:EX.
    assert (EX' : X = "```json" ++ p ++ "```")
      by (subst X; rewrite !append_assoc; reflexivity).
    assert (S1 : startswith "```json" X = true)
      by (rewrite EX'; apply startswith_append).
    assert (D1 : drop_front 7 X = p ++ "```")
      by (rewrite EX'; apply (drop_front_append "```json")).
    rewrite S1. cbv iota. rewrite D1, T. cbv iota. rewrite D. reflexivity.
  - replace (ws1 ++ "```" ++ p ++ "```" ++ ws2)
      with (ws1 ++ String "`" (("``" ++ p ++ "``") ++ String "`" ws2))
      by (rewrite !append_assoc; reflexivity).
    rewrite strip_padded by (assumption || reflexivity).
    remember (String "`" (("``" ++ p ++ "``") ++ String "`" EmptyString))
      as X eqn:EX.
    assert (EX' : X = "```" ++ p ++ "```")
      by (subst X; rewrite !append_assoc; reflexivity).
    assert (S1 : startswith "```json" X = false).
    { rewrite EX', E. unfold startswith.
      change ("```" ++ String c0 r0 ++ "```")
        with (String "`" (String "`" (String "`" (String c0 (r0 ++ "```"))))).
      rewrite !prefix_cons_eq. apply prefix_cons_ne. congruence. }
    assert (S2 : startswith "```" X = true)
      by (rewrite EX'; apply startswith_append).
    assert (D2 : drop_front 3 X = p ++ "```")
      by (rewrite EX'; apply (drop_front_append "```")).
    rewrite S1. cbv iota. rewrite S2. cbv iota. rewrite D2, T. cbv iota.
    rewrite D. reflexivity.
Qed.

End DesignFence.

(** X10. [generate_design_spec] reads an answer that is a code block
    (opened by [```json] or by [```], closed by [```], white space
    around it) holding the text of a JSON object exactly as it reads the
    text of the object alone: both runs return the same design. *)
Theorem design_fenced_same_as_bare
    (lib : Json.Lib) (World : Type) (llm_client : Llm.Client World)
    (topic : string) (outline : Design.Outline) (style prompt : string)
    (ws1 fence payload ws2 : string)
    (w1 w1' w2 w2' : World) (r1 r2 : Llm.ChatResponse) :
  Py.all_space ws1 = true -> Py.all_space ws2 = true ->
  Fence.is_fence fence = true -> Fence.is_object_text payload = true ->
  Design._build_design_prompt topic outline style = Py.Ok prompt ->
  Llm.chat_completion llm_client (Design.design_request prompt) w1
  = (Py.Ok r1, w1') ->
  Llm.chat_completion llm_client (Design.design_request prompt) w2
  = (Py.Ok r2, w2') ->
  Llm.get_content r1 = Some (ws1 ++ fence ++ payload ++ "```" ++ ws2) ->
  Llm.get_content r2 = Some payload ->
  fst (Design.generate_design_spec lib llm_client topic outline style w1)
  = fst (Design.generate_design_spec lib llm_client topic outline style w2).
Proof.
  intros H1 H2 Hf Hp Hb Hc1 Hc2 E1 E2.
  rewrite !generate_design_spec_run, Hb, Hc1, Hc2, E1, E2.
  cbn [fst Py.receiver]. unfold Design.decoded_design.
  rewrite clean_design_block, clean_design_plain by assumption.
  reflexivity.
Qed.

Lemma design_fenced_same_as_bare_witness :
  fst (Design.generate_design_spec Ref.lib Scripted.client "Pets" [] "ted"
         [Scripted.says (Examples.newline ++ "```"
                         ++ (Examples.newline ++ Examples.loose_design_text
                             ++ Examples.newline)
                         ++ "```" ++ " ")])
  = fst (Design.generate_design_spec Ref.lib Scripted.client "Pets" []
           "ted"
           [Scripted.says (Examples.newline ++ Examples.loose_design_text
                           ++ Examples.newline)]).
Proof.
  eapply (design_fenced_same_as_bare Ref.lib _ Scripted.client "Pets"
            [] "ted" _
            Examples.newline "```"
            (Examples.newline ++ Examples.loose_design_text
             ++ Examples.newline)
            " ");
    reflexivity.
Defined.


(** ** More on the page agent *)

Section PageCleaning.
Import Py Json Llm Page.

Lemma first_tag_drop s n :
  first_tag s = Some n ->
  exists c r, drop_front n s = String "<" (String c r)
              /\ is_letter c || Ascii.eqb c "!" = true.
Proof.
  revert n. induction s as [|a s IH]; intros n; cbn [first_tag].
  - discriminate.
  - destruct (Ascii.eqb a "<") eqn:Ea; cbn [andb].
    + destruct s as [|c r].
      * cbn [first_tag option_map]. discriminate.
      * destruct (is_letter c || Ascii.eqb c "!") eqn:Ec.
        -- intros H. inversion H; subst. apply Ascii.eqb_eq in Ea as ->.
           exists c, r. split; [reflexivity|exact Ec].
        -- destruct (first_tag (String c r)) as [m|] eqn:Em;
             cbn [option_map]; [|discriminate].
           intros H. inversion H; subst. cbn [drop_front]. apply IH.
           reflexivity.
    + destruct (first_tag s) as [m|] eqn:Em; cbn [option_map]; [|discriminate].
      intros H. inversion H; subst. cbn [drop_front]. apply IH. reflexivity.
Qed.

Lemma first_tag_head c r :
  is_letter c || Ascii.eqb c "!" = true ->
  first_tag (String "<" (String c r)) = Some 0.
Proof. intros H. cbn [first_tag]. rewrite H. reflexivity. Qed.

Lemma tag_char_plain c :
  is_letter c || Ascii.eqb c "!" = true -> is_plain c = true.
Proof.
  destruct c as [[] [] [] [] [] [] [] []]; vm_compute; congruence.
Qed.

Lemma strip_two a b r :
  is_plain a = true -> is_plain b = true ->
  strip (String a (String b r)) = String a (String b (rstrip r)).
Proof.
  intros Ha Hb. unfold strip.
  rewrite (rstrip_plain a) by exact Ha. rewrite (rstrip_plain b) by exact Hb.
  apply lstrip_plain, Ha.
Qed.

(** Cutting a closing marker off text that opens with a tag leaves the
    opening of the tag in place. *)
Lemma tag_head_cut c r :
  is_letter c || Ascii.eqb c "!" = true ->
  exists r',
    (if endswith "```" (String "<" (String c r))
     then drop_back 3 (String "<" (String c r))
     else String "<" (String c r))
    = String "<" (String c r').
Proof.
  intros Hc. destruct (endswith "```" (String "<" (String c r))) eqn:E;
    [|eauto].
  apply endswith_split in E as [pre E]. rewrite E.
  assert (D : drop_back 3 (pre ++ "```") = pre)
    by apply (drop_back_append pre "```").
  rewrite D. destruct pre as [|x [|y pre']].
  - discriminate E.
  - inversion E; subst. vm_compute in Hc. discriminate Hc.
  - inversion E; subst. eauto.
Qed.

Lemma clean_html_opens_with_tag content :
  is_Some (first_tag (strip content)) ->
  exists c r, clean_html content = String "<" (String c r)
              /\ is_letter c || Ascii.eqb c "!" = true.
Proof.
  intros [n Hn]. unfold clean_html. cbv zeta. rewrite Hn.
  destruct (first_tag_drop _ _ Hn) as [c [r [-> Hc]]].
  assert (S1 : startswith "```html" (String "<" (String c r)) = false)
    by (apply prefix_cons_ne; discriminate).
  rewrite S1. cbv iota.
  assert (S2 : startswith "```" (String "<" (String c r)) = false)
    by (apply prefix_cons_ne; discriminate).
  rewrite S2. cbv iota.
  destruct (tag_head_cut c r Hc) as [r' ->].
  rewrite strip_two by (reflexivity || apply tag_char_plain, Hc).
  rewrite first_tag_head by exact Hc. cbn [Nat.ltb Nat.leb].
  eauto.
Qed.

End PageCleaning.

(** X11. Whenever the answer of the model holds the opening of a tag (a
    [<] followed by a letter or by [!]), the HTML that
    [generate_page_html] returns starts with the opening of a tag:
    whatever comes before the first tag, prose or the opening of a code
    block, is not returned. *)
Theorem page_html_opens_with_tag
    (lib : Json.Lib) (World : Type) (llm_client : Llm.Client World)
    (css_guide : string) (page_spec : Page.PageSpec)
    (global_context : Page.GlobalContext) (content_data : string)
    (w w1 w' : World) (response : Llm.ChatResponse) (content : string)
    (result : Page.PageResult) :
  Llm.chat_completion llm_client
    (Page.page_request
       (Page._build_prompt lib css_guide page_spec global_context content_data))
    w = (Py.Ok response, w1) ->
  Llm.get_content response = Some content ->
  is_Some (Page.first_tag (Py.strip content)) ->
  Page.generate_page_html lib llm_client css_guide page_spec global_context
    content_data w = (Py.Ok result, w') ->
  Page.first_tag (Page.html_content result) = Some 0.
Proof.
  intros Hcall Hcontent Htag Hrun.
  destruct (clean_html_opens_with_tag _ Htag) as [c [r [Eh Hc]]].
  assert (Hres : Page.html_content result
                 = Py.strip (Page.clean_html content)).
  { unfold Page.generate_page_html, mbind, Py.M_bind in Hrun.
    rewrite Hcall, Hcontent in Hrun. cbn [Py.receiver Py.lift] in Hrun.
    unfold Py.lift in Hrun.
    destruct (Page.speech_requested global_context).
    - unfold Page._generate_speech_notes, mbind, Py.M_bind in Hrun.
      destruct (Llm.chat_completion llm_client _ w1) as [[notes|e] w2];
        [|discriminate].
      destruct (Llm.get_content notes) as [text|]; [|discriminate].
      inversion Hrun; subst. reflexivity.
    - inversion Hrun; subst. reflexivity. }
  rewrite Hres, Eh.
  rewrite strip_two by (reflexivity || apply tag_char_plain, Hc).
  apply first_tag_head, Hc.
Qed.

Lemma page_html_opens_with_tag_witness :
  Page.first_tag
    (Page.html_content
       {| Page.html_content := "<div>Cats</div>";
          Page.speech_notes := None |})
  = Some 0.
Proof.
  apply (page_html_opens_with_tag Ref.lib _ Scripted.client "/* css */"
           Examples.opening_page
           (Page.MkGlobalContext "Pets" "ted" [] 3 None) "Cats and dogs"
           [Scripted.says ("Here is the page: ```html" ++ Examples.newline
                           ++ "<div>Cats</div>" ++ Examples.newline ++ "```")]
           [] []
           {| Llm.resp_content :=
                Llm.Text ("Here is the page: ```html" ++ Examples.newline
                          ++ "<div>Cats</div>" ++ Examples.newline ++ "```");
              Llm.resp_model := "m"; Llm.resp_finish_reason := "stop" |}
           ("Here is the page: ```html" ++ Examples.newline
            ++ "<div>Cats</div>" ++ Examples.newline ++ "```")).
  - reflexivity.
  - reflexivity.
  - vm_compute. eexists. reflexivity.
  - vm_compute. reflexivity.
Defined.


(** ** More on the background task *)

Section TaskOutcome.
Import Py Json Tasks Staircase Outcome.
Variable lib : Lib.
Variable env : Tasks.Env.
Variable project_id user_id : Z.

Local Abbreviation proc := (fun p : Project => status p = PROCESSING).
Local Abbreviation any := (fun _ : Project => True).

Lemma finished_app_quiet t u :
  forallb quiet t = true ->
  finished env project_id (t ++ u) = finished env project_id u.
Proof.
  induction t as [|ev t IH]; [reflexivity|].
  cbn [forallb]. intros H. apply andb_true_iff in H as [Hq Ht].
  change ((ev :: t) ++ u)%list with (ev :: (t ++ u))%list.
  cbn [finished]. rewrite Hq. apply IH, Ht.
Qed.

Lemma finished_quiet t :
  forallb quiet t = true -> finished env project_id t = true.
Proof.
  intros H. rewrite <- (app_nil_r t), finished_app_quiet by exact H.
  reflexivity.
Qed.

Lemma terminal_not_quiet r :
  terminal env r = true -> quiet (Committed r) = false.
Proof.
  unfold terminal, quiet, is_processing. destruct (status r);
    (discriminate || reflexivity).
Qed.

Lemma working_any c s : working c s -> working any s.
Proof. intros [p [Hp [_ Hq]]]. exists p. auto. Qed.

Lemma working_done s : working any s -> done env project_id s.
Proof. intros [p [_ [_ Hq]]]. apply finished_quiet, Hq. Qed.

Lemma closed_done c s : closed env c s -> done env project_id s.
Proof.
  intros [t [r [Ht [Hq [Hr _]]]]]. unfold done.
  rewrite Ht, finished_app_quiet by exact Hq.
  cbn [finished]. rewrite (terminal_not_quiet r Hr). exact Hr.
Qed.

Lemma hoare_pre {A} (P P' : Run -> Prop) (m : M Run A) Q E :
  (forall s, P' s -> P s) -> hoare P m Q E -> hoare P' m Q E.
Proof. intros HP H s Hs. apply H, HP, Hs. Qed.

Lemma assign_working (c c' : Project -> Prop) (f : Project -> Project) :
  (forall p, c p -> c' (f p)) ->
  hoare (working c) (assign f) (fun _ => working c') (working any).
Proof.
  intros Hf [pr t] [p [Hp [Hc Hq]]]. cbn in Hp, Hq. subst pr. cbn.
  exists (f p). auto.
Qed.

Lemma commit_working (c : Project -> Prop) :
  (forall p, c p -> is_processing p = true) ->
  hoare (working c) (commit env) (fun _ => working c) (working any).
Proof.
  intros Hc [pr t] [p [Hp [Hcp Hq]]]. cbn in Hp, Hq. subst pr.
  unfold commit, mbind, M_bind, the_project, get. cbn.
  destruct (commit_fault env t p); cbn.
  - exists p. auto.
  - exists p. repeat split; [exact Hcp|]. cbn.
    rewrite forallb_app, Hq. cbn. rewrite (Hc p Hcp). reflexivity.
Qed.

Lemma commit_closing (c : Project -> Prop) :
  (forall p, c p -> terminal env p = true) ->
  hoare (working c) (commit env) (fun _ => closed env c) (working any).
Proof.
  intros Hc [pr t] [p [Hp [Hcp Hq]]]. cbn in Hp, Hq. subst pr.
  unfold commit, mbind, M_bind, the_project, get. cbn.
  destruct (commit_fault env t p); cbn.
  - exists p. auto.
  - exists t, p. auto.
Qed.

Lemma send_working (c : Project -> Prop) msg E :
  quiet (Delivered msg) = true ->
  hoare (working c) (send_personal_message env msg) (fun _ => working c) E.
Proof.
  intros Hm [pr t] [p [Hp [Hcp Hq]]]. cbn in Hp, Hq. subst pr.
  unfold send_personal_message, mbind, M_bind, get. cbn.
  destruct (delivers env t msg); cbn.
  - exists p. repeat split; [exact Hcp|]. cbn [trace].
    rewrite forallb_app, Hq. cbn [forallb andb]. rewrite Hm. reflexivity.
  - exists p. auto.
Qed.

Lemma send_progress_working (c : Project -> Prop) b st m :
  hoare (working c) (send_progress_update env project_id b st m)
        (fun _ => working c) (working any).
Proof. apply send_working. reflexivity. Qed.

Lemma send_closed (c : Project -> Prop) msg E :
  (forall r, c r -> msg = notice project_id r) ->
  hoare (closed env c) (send_personal_message env msg)
        (fun _ => done env project_id) E.
Proof.
  intros Hm [pr tr] Hs. pose proof Hs as [t [r [Ht [Hq [Hr Hc]]]]].
  cbn in Ht. subst tr.
  unfold send_personal_message, mbind, M_bind, get. cbn.
  destruct (delivers env _ msg); cbn.
  - unfold done. cbn. rewrite <- app_assoc, finished_app_quiet by exact Hq.
    cbn [app finished]. rewrite (terminal_not_quiet r Hr), Hr.
    rewrite (Hm r Hc). cbn. apply bool_decide_eq_true. reflexivity.
  - eapply closed_done, Hs.
Qed.

Lemma the_project_working (c : Project -> Prop) :
  hoare (working c) the_project (fun _ => working c) (working any).
Proof.
  intros s Hs. unfold the_project.
  destruct (project s); [exact Hs|eapply working_any, Hs].
Qed.

Lemma lift_working {A} (c : Project -> Prop) (r : Result A) :
  hoare (working c) (lift r) (fun _ => working c) (working any).
Proof.
  intros s Hs. unfold lift. destruct r; [exact Hs|eapply working_any, Hs].
Qed.

Lemma ret_working {A} (c : Project -> Prop) (a : A) :
  hoare (working c) (mret a) (fun _ => working c) (working any).
Proof. intros s Hs. exact Hs. Qed.

Lemma raise_working {A} (c : Project -> Prop) e (Q : A -> Run -> Prop) :
  hoare (working c) (raise e) Q (working any).
Proof. intros s Hs. eapply working_any, Hs. Qed.

End TaskOutcome.


Section TaskOutcomeRun.
Import Py Json Tasks Staircase Outcome.
Variable lib : Lib.
Variable env : Tasks.Env.
Variable project_id user_id : Z.

Local Abbreviation proc := (fun p : Project => status p = PROCESSING).
Local Abbreviation any := (fun _ : Project => True).

Lemma loaded_working s : loaded s -> working any s.
Proof.
  intros [[p Hp] Ht]. exists p. rewrite Ht. auto.
Qed.

(** One statement of the part of the task that keeps the row in
    processing. *)
Ltac quiet_statement :=
  first [ apply (assign_working proc proc); intros ? H; exact H
        | apply (commit_working env proc);
          intros ? H; unfold is_processing; rewrite H; reflexivity
        | apply send_progress_working
        | apply the_project_working
        | apply lift_working
        | apply ret_working ].

Ltac quiet_statements :=
  repeat (eapply hoare_bind; [quiet_statement|intros ?; cbv beta]).

Lemma generate_document_steps_outcome :
  hoare loaded (generate_document_steps lib env project_id user_id)
        (fun _ => done env project_id) (working any).
Proof.
  unfold generate_document_steps.
  eapply hoare_bind.
  { eapply hoare_pre; [apply loaded_working|].
    apply (assign_working any proc). reflexivity. }
  intros ?; cbv beta. quiet_statements.
  eapply hoare_bind with (Q := fun _ => working proc).
  { destruct (init_agents env); [apply raise_working|apply ret_working]. }
  intros ?; cbv beta. quiet_statements.
  eapply hoare_bind with (Q := fun _ => working proc).
  { match goal with
    | |- hoare _ (if ?c then _ else _) _ _ =>
        destruct c; [apply ret_working|apply raise_working]
    end. }
  intros ?; cbv beta. quiet_statements.
  match goal with
  | |- hoare _ (match ?o with _ => _ end) _ _ => destruct o as [path|]
  end; [|apply raise_working].
  match goal with
  | |- hoare _ (if ?c then _ else _) _ _ => destruct c eqn:Hpath
  end; [|apply raise_working].
  eapply hoare_bind; [apply lift_working|intros file_size; cbv beta].
  pose (c := fun p : Project =>
               status p = COMPLETED /\ progress p = 100%Z
               /\ output_path p = Some path
               /\ output_size p = Some file_size).
  eapply hoare_bind;
    [apply (assign_working proc (fun p => status p = COMPLETED));
     reflexivity|intros ?; cbv beta].
  eapply hoare_bind;
    [apply (assign_working _ (fun p => status p = COMPLETED
                                       /\ progress p = 100%Z));
     intros ? H; split; [exact H|reflexivity]|intros ?; cbv beta].
  eapply hoare_bind;
    [apply (assign_working _ (fun p => status p = COMPLETED
                                       /\ progress p = 100%Z
                                       /\ output_path p = Some path));
     intros ? [H1 H2]; repeat split; [exact H1|exact H2]
    |intros ?; cbv beta].
  eapply hoare_bind;
    [apply (assign_working _ c);
     intros ? [H1 [H2 H3]]; repeat split; [exact H1|exact H2|exact H3]
    |intros ?; cbv beta].
  eapply hoare_bind;
    [apply (assign_working c c); intros ? H; exact H|intros ?; cbv beta].
  eapply hoare_bind;
    [apply (assign_working c c); intros ? H; exact H|intros ?; cbv beta].
  eapply hoare_bind.
  { apply (commit_closing env c). intros p [H1 [H2 [H3 H4]]].
    unfold terminal. rewrite H1, H2, H3, H4, Hpath. reflexivity. }
  intros ?; cbv beta.
  apply (send_closed env project_id c). intros r [H1 [H2 [H3 H4]]].
  unfold notice. rewrite H1, H3. reflexivity.
Qed.

Lemma on_failure_outcome e :
  hoare (fun s => s = start \/ working any s)
        (on_failure env project_id user_id e)
        (fun _ => done env project_id) (done env project_id).
Proof.
  intros s [->|Hs]; [reflexivity|]. revert s Hs.
  change (hoare (working any) (on_failure env project_id user_id e)
            (fun _ => done env project_id) (done env project_id)).
  eapply hoare_weaken; [|apply working_done]. unfold on_failure.
  pose (c := fun p : Project =>
               status p = FAILED /\ error_message p = Some (exn_str e)).
  eapply hoare_bind;
    [apply (assign_working any (fun p => status p = FAILED)); reflexivity
    |intros ?; cbv beta].
  eapply hoare_bind;
    [apply (assign_working _ c); intros ? H; split; [exact H|reflexivity]
    |intros ?; cbv beta].
  eapply hoare_bind;
    [apply (assign_working c c); intros ? H; exact H|intros ?; cbv beta].
  eapply hoare_bind.
  { apply (commit_closing env c). intros p [H1 H2].
    unfold terminal. rewrite H1, H2. reflexivity. }
  intros ?; cbv beta.
  apply (send_closed env project_id c). intros r [H1 H2].
  unfold notice. rewrite H1, H2. reflexivity.
Qed.

Lemma load_then_steps_outcome :
  hoare (fun s => s = start)
        (found ← load_project env;
         match found with
         | None => mret tt
         | Some _ => generate_document_steps lib env project_id user_id
         end)
        (fun _ => done env project_id)
        (fun s => s = start \/ working any s).
Proof.
  intros s ->. unfold mbind, M_bind, load_project. cbn.
  destruct (first_project env) as [[p|]|e].
  - pose proof (generate_document_steps_outcome (MkRun (Some p) [])) as H.
    destruct (generate_document_steps lib env project_id user_id _)
      as [[a|e] s']; [|right]; apply H; split; eauto.
  - reflexivity.
  - left. reflexivity.
Qed.

(** When the query has returned, an exception leaves the [try] block
    with the project loaded. *)
Lemma load_then_steps_bound found e s :
  first_project env = Ok found ->
  (found' ← load_project env;
   match found' with
   | None => mret tt
   | Some _ => generate_document_steps lib env project_id user_id
   end) start = (Raise e, s) ->
  exists p, project s = Some p.
Proof.
  intros Hq. unfold mbind, M_bind, load_project. cbn. rewrite Hq.
  destruct found as [p|]; [|discriminate].
  pose proof (generate_document_steps_outcome (MkRun (Some p) [])) as H.
  intros Hrun. rewrite Hrun in H.
  destruct H as [p' [Hp' _]]; [split; eauto|]. eauto.
Qed.

Lemma on_failure_returns e s p :
  project s = Some p ->
  (forall t row, status row = FAILED -> commit_fault env t row = None) ->
  exists s', on_failure env project_id user_id e s = (Ok tt, s').
Proof.
  destruct s as [pr t]. cbn. intros -> Hc.
  unfold on_failure, assign, commit, send_error_notification,
    send_personal_message, mbind, M_bind, the_project, get, modify. cbn.
  rewrite Hc by reflexivity. cbn.
  match goal with
  | |- context [delivers env ?t ?m] => destruct (delivers env t m)
  end; cbn; eauto.
Qed.

End TaskOutcomeRun.

(** X12. Whatever fails and whenever, what one run of the task reports
    has one shape: rows committed in processing and progress updates,
    then at most one closing row, then at most one notification, which
    is the one of that row.  A closing row is completed, at 100 with
    the path of an existing document and its size, or failed with a
    message; the notification carries the path or the message of the
    row committed just before it. *)
Theorem reported_events_are_finished
    (lib : Json.Lib) (env : Tasks.Env) (project_id user_id : Z) :
  Outcome.finished env project_id
    (Tasks.trace (snd (Tasks.generate_document_task lib env project_id
                         user_id Staircase.start)))
  = true.
Proof.
  unfold Tasks.generate_document_task, Py.try_finally.
  pose proof (hoare_try_except _ _ _ _ _ _
                (load_then_steps_outcome lib env project_id user_id)
                (on_failure_outcome env project_id user_id)
                Staircase.start eq_refl) as H.
  destruct (Py.try_except _ _ Staircase.start) as [[a|e] s'];
    cbn; exact H.
Qed.

(** X13. When the query for the project returns and the commit of a
    failed row does not fault, the task raises nothing, whatever else
    fails: every exception of the work is recorded and not passed on. *)
Theorem task_returns_when_failure_recorded
    (lib : Json.Lib) (env : Tasks.Env) (project_id user_id : Z)
    (found : option Tasks.Project) :
  Tasks.first_project env = Py.Ok found ->
  (forall t row, Tasks.status row = Tasks.FAILED ->
                 Tasks.commit_fault env t row = None) ->
  fst (Tasks.generate_document_task lib env project_id user_id
         Staircase.start)
  = Py.Ok tt.
Proof.
  intros Hq Hc. unfold Tasks.generate_document_task, Py.try_finally,
    Py.try_except.
  match goal with
  | |- context [let '(_, _) := (match ?b with _ => _ end) in _] =>
      destruct b as [[[]|e] s] eqn:Hb
  end; [reflexivity|].
  destruct (load_then_steps_bound lib env project_id user_id found e s Hq Hb)
    as [p Hp].
  destruct (on_failure_returns env project_id user_id e s p Hp Hc)
    as [s' ->].
  reflexivity.
Qed.

(** X14. When the query for the project raises, the task does not pass
    that exception on: the handler reads the variable [project], which
    was never bound, and the task raises [UnboundLocalError]; nothing is
    committed and nothing is sent to the client. *)
Theorem query_failure_raises_unbound
    (lib : Json.Lib) (env : Tasks.Env) (project_id user_id : Z)
    (e : Py.exn) :
  Tasks.first_project env = Py.Raise e ->
  exists msg,
    Tasks.generate_document_task lib env project_id user_id Staircase.start
    = (Py.Raise (Py.Exn "UnboundLocalError" msg), Staircase.start).
Proof.
  intros Hq. unfold Tasks.generate_document_task, Py.try_finally,
    Py.try_except, mbind, Py.M_bind, Tasks.load_project.
  rewrite Hq. cbn. eauto.
Qed.

(** X15. When the query finds no project, the task returns at once:
    nothing is committed, nothing is sent to the client, and no
    exception is raised. *)
Theorem missing_project_is_silent
    (lib : Json.Lib) (env : Tasks.Env) (project_id user_id : Z) :
  Tasks.first_project env = Py.Ok None ->
  Tasks.generate_document_task lib env project_id user_id Staircase.start
  = (Py.Ok tt, Staircase.start).
Proof.
  intros Hq. unfold Tasks.generate_document_task, Py.try_finally,
    Py.try_except, mbind, Py.M_bind, Tasks.load_project.
  rewrite Hq. reflexivity.
Qed.


Lemma task_returns_when_failure_recorded_witness :
  fst (Tasks.generate_document_task Ref.lib Examples.env_search_raises 7 1
         Staircase.start)
  = Py.Ok tt.
Proof.
  apply (task_returns_when_failure_recorded Ref.lib Examples.env_search_raises
           7 1 (Some Examples.pets_project)).
  - reflexivity.
  - intros t row H. reflexivity.
Defined.

Lemma query_failure_raises_unbound_witness :
  exists msg,
    Tasks.generate_document_task Ref.lib Cases.env_query_fails 7 1
      Staircase.start
    = (Py.Raise (Py.Exn "UnboundLocalError" msg), Staircase.start).
Proof.
  apply (query_failure_raises_unbound Ref.lib Cases.env_query_fails 7 1
           (Py.Exn "OperationalError" "database is locked")).
  reflexivity.
Defined.

Lemma missing_project_is_silent_witness :
  Tasks.generate_document_task Ref.lib Cases.env_no_project 7 1
    Staircase.start
  = (Py.Ok tt, Staircase.start).
Proof.
  apply (missing_project_is_silent Ref.lib Cases.env_no_project 7 1).
  reflexivity.
Defined.


(** ** The connection manager *)

Section Connections.
Import Py Ws.
Variable env : Ws.Env.

Lemma assoc_del_ne {V} k k' (d : list (string * V)) :
  k <> k' -> assoc k' (dict_del k d) = assoc k' d.
Proof.
  intros Hk. induction d as [|[k0 v0] d IH]; [reflexivity|].
  cbn [dict_del assoc].
  destruct (String.eqb_spec k k0) as [->|Hn].
  - destruct (String.eqb_spec k' k0); [congruence|reflexivity].
  - cbn [assoc]. rewrite IH. reflexivity.
Qed.

Lemma assoc_none_keys {V} k (d : list (string * V)) :
  k ∉ keys d -> assoc k d = None.
Proof.
  unfold keys. induction d as [|[k0 v0] d IH]; [reflexivity|].
  cbn [fmap list_fmap fst assoc]. intros H.
  apply not_elem_of_cons in H as [H1 H2].
  destruct (String.eqb_spec k k0); [contradiction|]. apply IH, H2.
Qed.

Lemma assoc_del_eq {V} k (d : list (string * V)) :
  NoDup (keys d) -> assoc k (dict_del k d) = None.
Proof.
  unfold keys. induction d as [|[k0 v0] d IH]; [reflexivity|].
  cbn [fmap list_fmap fst dict_del]. intros H.
  apply NoDup_cons in H as [H1 H2].
  destruct (String.eqb_spec k k0) as [->|Hn].
  - apply assoc_none_keys, H1.
  - cbn [assoc]. destruct (String.eqb_spec k k0); [contradiction|].
    apply IH, H2.
Qed.

Lemma assoc_member {V} k (v : V) (d : list (string * V)) :
  NoDup (keys d) -> (k, v) ∈ d -> assoc k d = Some v.
Proof.
  unfold keys. induction d as [|[k0 v0] d IH]; intros Hn Hin.
  - apply elem_of_nil in Hin. contradiction.
  - cbn [fmap list_fmap fst] in Hn. apply NoDup_cons in Hn as [H1 H2].
    cbn [assoc]. apply elem_of_cons in Hin as [Heq|Hin].
    + inversion Heq; subst. rewrite String.eqb_refl. reflexivity.
    + destruct (String.eqb_spec k k0) as [->|Hne]; [|apply IH; assumption].
      exfalso. apply H1. apply (list_elem_of_fmap_2 fst _ (k0, v)), Hin.
Qed.

Lemma disconnect_run client_id s :
  disconnect client_id s
  = (Ok tt, if dict_has client_id (active_connections s)
            then MkSt (dict_del client_id (active_connections s)) (wire s)
            else s).
Proof. reflexivity. Qed.

Lemma send_personal_message_run message client_id s :
  send_personal_message env message client_id s
  = match assoc client_id (active_connections s) with
    | None => (Ok tt, s)
    | Some ws =>
        match send_fault env (wire s) ws message with
        | None => (Ok tt, MkSt (active_connections s)
                               (wire s ++ [(ws, message)]))
        | Some _ =>
            (Ok tt, MkSt (dict_del client_id (active_connections s)) (wire s))
        end
    end.
Proof.
  unfold send_personal_message, mbind, M_bind, get.
  destruct (assoc client_id (active_connections s)) as [ws|] eqn:E;
    [|reflexivity].
  unfold try_except, send_text.
  destruct (send_fault env (wire s) ws message); [|reflexivity].
  rewrite disconnect_run. unfold dict_has. rewrite E. reflexivity.
Qed.

End Connections.

(** X16. [send_personal_message] never raises, and a send that fails
    costs only the client it was for: every other client keeps its
    connection, the client itself is no longer connected and nothing is
    added to what the sockets have taken.  A send that succeeds changes
    no connection, and a message for a client that is not connected does
    nothing at all. *)
Theorem personal_send_is_isolated
    (env : Ws.Env) (message client_id : string) (s : Ws.St) :
  NoDup (Ws.keys (Ws.active_connections s)) ->
  let (r, s') := Ws.send_personal_message env message client_id s in
  r = Py.Ok tt
  /\ (forall c, c <> client_id ->
        Py.assoc c (Ws.active_connections s')
        = Py.assoc c (Ws.active_connections s))
  /\ match Py.assoc client_id (Ws.active_connections s) with
     | None => s' = s
     | Some ws =>
         match Ws.send_fault env (Ws.wire s) ws message with
         | None => Ws.active_connections s' = Ws.active_connections s
                   /\ Ws.wire s' = (Ws.wire s ++ [(ws, message)])%list
         | Some _ => Py.assoc client_id (Ws.active_connections s') = None
                     /\ Ws.wire s' = Ws.wire s
         end
     end.
Proof.
  intros Hn. rewrite send_personal_message_run.
  destruct (Py.assoc client_id (Ws.active_connections s)) as [ws|] eqn:E.
  - destruct (Ws.send_fault env (Ws.wire s) ws message) eqn:F.
    + split; [reflexivity|]. cbn [Ws.active_connections Ws.wire]. split.
      * intros c Hc. apply assoc_del_ne. congruence.
      * split; [apply assoc_del_eq, Hn|reflexivity].
    + repeat split.
  - repeat split.
Qed.


Lemma personal_send_is_isolated_witness :
  let (r, s') :=
    Ws.send_personal_message
      {| Ws.accept_fault := fun _ => None;
         Ws.send_fault := fun _ ws _ =>
           if (ws =? 2)%nat then Some (Py.Exn "RuntimeError" "socket closed")
           else None |}
      "hello" "bob" (Ws.MkSt [("ann", 1); ("bob", 2); ("cy", 3)] []) in
  r = Py.Ok tt
  /\ (forall c, c <> "bob" ->
        Py.assoc c (Ws.active_connections s')
        = Py.assoc c [("ann", 1); ("bob", 2); ("cy", 3)])
  /\ Py.assoc "bob" (Ws.active_connections s') = None
  /\ Ws.wire s' = [].
Proof.
  apply (personal_send_is_isolated
           {| Ws.accept_fault := fun _ => None;
              Ws.send_fault := fun _ ws _ =>
                if (ws =? 2)%nat
                then Some (Py.Exn "RuntimeError" "socket closed")
                else None |}
           "hello" "bob" (Ws.MkSt [("ann", 1); ("bob", 2); ("cy", 3)] [])).
  apply (bool_decide_unpack _). vm_compute. reflexivity.
Defined.

Section Broadcast.
Import Py Ws.
Variable env : Ws.Env.
Variable message : string.

Local Abbreviation drop_client :=
  (fun (a : list (string * Socket)) (k : string) =>
     if dict_has k a then dict_del k a else a).

Lemma for_each_disconnect D a w :
  for_each D disconnect (MkSt a w) = (Ok tt, MkSt (fold_left drop_client D a) w).
Proof.
  revert a. induction D as [|k D IH]; intros a; [reflexivity|].
  cbn [for_each fold_left]. unfold mbind, M_bind. rewrite disconnect_run.
  cbn [active_connections wire].
  destruct (dict_has k a); apply IH.
Qed.

Lemma assoc_drop_clients k D (a : list (string * Socket)) :
  k ∉ D -> assoc k (fold_left drop_client D a) = assoc k a.
Proof.
  revert a. induction D as [|k0 D IH]; intros a Hk; [reflexivity|].
  apply not_elem_of_cons in Hk as [Hne Hk]. cbn [fold_left].
  rewrite IH by exact Hk.
  destruct (dict_has k0 a); [|reflexivity].
  apply assoc_del_ne. congruence.
Qed.

Lemma broadcast_sends_as_personal rest :
  forall D a w,
    NoDup (keys rest) ->
    (forall k ws, (k, ws) ∈ rest -> assoc k a = Some ws) ->
    (forall k, k ∈ D -> k ∉ keys rest) ->
    match broadcast_sends env message rest D (MkSt a w) with
    | (Ok D', s') => for_each D' disconnect s'
    | (Raise e, s') => (Raise e, s')
    end
    = for_each (keys rest) (send_personal_message env message)
        (MkSt (fold_left drop_client D a) w).
Proof.
  induction rest as [|[k ws] rest IH]; intros D a w Hn Ha Hd.
  - cbn [broadcast_sends keys fmap list_fmap for_each].
    apply for_each_disconnect.
  - unfold keys in *. cbn [fmap list_fmap fst] in Hn, Hd.
    apply NoDup_cons in Hn as [Hk Hn].
    assert (Hws : assoc k a = Some ws) by (apply Ha; left).
    assert (HkD : k ∉ D).
    { intros H. apply (Hd k H). left. }
    cbn [broadcast_sends fmap list_fmap fst for_each].
    unfold mbind, M_bind. rewrite send_personal_message_run.
    cbn [active_connections wire].
    rewrite (assoc_drop_clients k D a HkD), Hws.
    unfold try_except, send_text. cbn [wire active_connections].
    destruct (send_fault env w ws message) eqn:F;
      unfold mret, M_ret; cbv beta iota.
    + rewrite (IH (D ++ [k])%list a w Hn).
      * rewrite fold_left_app. cbn [fold_left]. unfold dict_has at 1.
        rewrite (assoc_drop_clients k D a HkD), Hws. reflexivity.
      * intros k' ws' H. apply Ha. right. exact H.
      * intros k' H. apply elem_of_app in H as [H|H].
        -- intros H'. apply (Hd k' H). right. exact H'.
        -- apply list_elem_of_singleton in H. subst k'. exact Hk.
    + apply (IH D a _ Hn).
      * intros k' ws' H. apply Ha. right. exact H.
      * intros k' H H'. apply (Hd k' H). right. exact H'.
Qed.

End Broadcast.

(** X17. [broadcast] does to the connections and to the sockets exactly
    what sending the message to every connected client in turn with
    [send_personal_message] does, in the order of the dictionary: that
    it drops the clients whose send failed only after the last send
    makes no difference. *)
Theorem broadcast_as_personal_sends
    (env : Ws.Env) (message : string) (s : Ws.St) :
  NoDup (Ws.keys (Ws.active_connections s)) ->
  Ws.broadcast env message s
  = Ws.for_each (Ws.keys (Ws.active_connections s))
      (Ws.send_personal_message env message) s.
Proof.
  intros Hn. destruct s as [a w]. cbn [Ws.active_connections] in *.
  unfold Ws.broadcast, mbind, Py.M_bind, Py.get.
  cbn [Ws.active_connections].
  rewrite (broadcast_sends_as_personal env message a [] a w Hn).
  - reflexivity.
  - intros k ws H. apply assoc_member; assumption.
  - intros k H. apply elem_of_nil in H. contradiction.
Qed.

Lemma broadcast_as_personal_sends_witness :
  Ws.broadcast
    {| Ws.accept_fault := fun _ => None;
       Ws.send_fault := fun _ ws _ =>
         if (ws =? 2)%nat then Some (Py.Exn "RuntimeError" "socket closed")
         else None |}
    "hello" (Ws.MkSt [("ann", 1); ("bob", 2); ("cy", 3)] [])
  = (Py.Ok tt, Ws.MkSt [("ann", 1); ("cy", 3)] [(1, "hello"); (3, "hello")]).
Proof.
  rewrite (broadcast_as_personal_sends
             {| Ws.accept_fault := fun _ => None;
                Ws.send_fault := fun _ ws _ =>
                  if (ws =? 2)%nat
                  then Some (Py.Exn "RuntimeError" "socket closed")
                  else None |}
             "hello" (Ws.MkSt [("ann", 1); ("bob", 2); ("cy", 3)] [])).
  - vm_compute. reflexivity.
  - apply (bool_decide_unpack _). vm_compute. reflexivity.
Defined.


(** ** The detection of a provider *)

Section Detection.
Import Py Manager.
Variable getenv : string -> option string.

Lemma truthy_first_env env_keys :
  truthy (first_env getenv env_keys) = any_set getenv env_keys.
Proof.
  induction env_keys as [|k rest IH]; [reflexivity|].
  cbn [first_env any_set existsb].
  destruct (truthy (getenv k)) eqn:E; [exact E|exact IH].
Qed.

Lemma truthy_detect_api_key provider :
  truthy (_detect_api_key getenv provider)
  = match api_key_names provider with
    | Some env_keys => any_set getenv env_keys
    | None => false
    end.
Proof.
  unfold _detect_api_key. destruct (api_key_names provider);
    [apply truthy_first_env|reflexivity].
Qed.

(** What the automatic choice returns, by the variables that are set. *)
Lemma auto_detected_has_key p :
  (if truthy (getenv "LLM_API_KEY") then "openai"
   else default "ollama" (first_provider getenv providers_priority)) = p ->
  p ∈ keyed_providers ->
  truthy (_detect_api_key getenv p) = true.
Proof.
  intros Hp. rewrite truthy_detect_api_key. subst p.
  unfold providers_priority. cbn [first_provider any_set existsb].
  destruct (truthy (getenv "LLM_API_KEY")) eqn:E0.
  { intros _. cbn. rewrite E0. apply orb_true_r. }
  destruct (truthy (getenv "OPENAI_API_KEY")) eqn:E1.
  { intros _. cbn. rewrite E1. reflexivity. }
  destruct (truthy (getenv "ANTHROPIC_API_KEY")) eqn:E2.
  { intros _. cbn. rewrite E2. reflexivity. }
  destruct (truthy (getenv "DEEPSEEK_API_KEY")) eqn:E3.
  { intros _. cbn. rewrite E3. reflexivity. }
  destruct (truthy (getenv "DASHSCOPE_API_KEY")) eqn:E4.
  { intros _. cbn. rewrite E4. reflexivity. }
  destruct (truthy (getenv "QWEN_API_KEY")) eqn:E5.
  { intros _. cbn. rewrite E4, E5. reflexivity. }
  destruct (truthy (getenv "ZHIPU_API_KEY")) eqn:E6.
  { intros _. cbn. rewrite E6. reflexivity. }
  cbn [orb default]. unfold keyed_providers. intros Hin. exfalso.
  repeat (apply elem_of_cons in Hin as [Hin|Hin]; [discriminate Hin|]).
  apply elem_of_nil in Hin. exact Hin.
Qed.

Lemma specified_has_key name :
  name ∈ keyed_providers ->
  (match default [] (assoc name provider_env_keys) with
   | [] => true
   | _ :: _ => false
   end || any_set getenv (default [] (assoc name provider_env_keys))) = true ->
  truthy (_detect_api_key getenv name) = true.
Proof.
  intros Hin. rewrite truthy_detect_api_key. unfold keyed_providers in Hin.
  repeat (apply elem_of_cons in Hin as [->|Hin]);
    [..|apply elem_of_nil in Hin; contradiction];
    cbn; intros H; repeat (apply orb_true_iff in H as [H|H]);
    rewrite ?H, ?orb_true_r; try reflexivity; discriminate H.
Qed.

End Detection.

(** X18. Whatever the environment holds, [_detect_best_provider] never
    selects one of the providers that need a key of their own (openai,
    anthropic, deepseek, qwen, zhipu) without a key for it:
    [_detect_api_key] finds one for the provider returned. *)
Theorem best_provider_has_key (getenv : string -> option string) :
  Manager._detect_best_provider getenv ∈ Manager.keyed_providers ->
  Py.truthy (Manager._detect_api_key getenv
               (Manager._detect_best_provider getenv))
  = true.
Proof.
  unfold Manager._detect_best_provider. cbv zeta.
  destruct (getenv "DEFAULT_LLM_PROVIDER") as [name|] eqn:Ed.
  - destruct (Py.is_empty name); [apply auto_detected_has_key; reflexivity|].
    match goal with
    | |- context [if ?c then Some name else None] => destruct c eqn:Ec
    end.
    + intros Hin. apply specified_has_key; assumption.
    + apply auto_detected_has_key. reflexivity.
  - apply auto_detected_has_key. reflexivity.
Qed.

Lemma best_provider_has_key_witness :
  Py.truthy
    (Manager._detect_api_key
       (Manager.environ [("DEFAULT_LLM_PROVIDER", "zhipu");
                         ("QWEN_API_KEY", "sk-1")])
       (Manager._detect_best_provider
          (Manager.environ [("DEFAULT_LLM_PROVIDER", "zhipu");
                            ("QWEN_API_KEY", "sk-1")])))
  = true.
Proof.
  apply (best_provider_has_key
           (Manager.environ [("DEFAULT_LLM_PROVIDER", "zhipu");
                             ("QWEN_API_KEY", "sk-1")])).
  apply (bool_decide_unpack _). vm_compute. reflexivity.
Defined.


(** X19. When [DEFAULT_LLM_PROVIDER] is not set, [_detect_best_provider]
    falls back to ollama exactly when none of the variables it reads
    for a key holds a text; [AZURE_OPENAI_API_KEY] is not among them,
    so a key for Azure alone still gives ollama. *)
Theorem ollama_only_without_keys (getenv : string -> option string) :
  Py.truthy (getenv "DEFAULT_LLM_PROVIDER") = false ->
  Manager._detect_best_provider getenv = "ollama"
  <-> Manager.any_set getenv Manager.key_variables = false.
Proof.
  intros Hd. unfold Manager._detect_best_provider. cbv zeta.
  assert (Hs : match getenv "DEFAULT_LLM_PROVIDER" with
               | Some name =>
                   if Py.is_empty name then None
                   else
                     if match default [] (Py.assoc name
                                            Manager.provider_env_keys) with
                        | [] => true
                        | _ :: _ => false
                        end
                        || Manager.any_set getenv
                             (default [] (Py.assoc name
                                            Manager.provider_env_keys))
                     then Some name else None
               | None => None
               end = None).
  { destruct (getenv "DEFAULT_LLM_PROVIDER") as [name|]; [|reflexivity].
    destruct name; [reflexivity|discriminate Hd]. }
  rewrite Hs. clear Hs.
  unfold Manager.providers_priority, Manager.key_variables.
  cbn [Manager.first_provider Manager.any_set existsb].
  destruct (Py.truthy (getenv "LLM_API_KEY")); [split; discriminate|].
  destruct (Py.truthy (getenv "OPENAI_API_KEY")); [split; discriminate|].
  destruct (Py.truthy (getenv "ANTHROPIC_API_KEY")); [split; discriminate|].
  destruct (Py.truthy (getenv "DEEPSEEK_API_KEY")); [split; discriminate|].
  destruct (Py.truthy (getenv "DASHSCOPE_API_KEY")); [split; discriminate|].
  destruct (Py.truthy (getenv "QWEN_API_KEY")); [split; discriminate|].
  destruct (Py.truthy (getenv "ZHIPU_API_KEY")); [split; discriminate|].
  split; reflexivity.
Qed.

Lemma ollama_only_without_keys_witness :
  Manager._detect_best_provider
    (Manager.environ [("AZURE_OPENAI_API_KEY", "az-1")]) = "ollama"
  <-> Manager.any_set (Manager.environ [("AZURE_OPENAI_API_KEY", "az-1")])
        Manager.key_variables = false.
Proof.
  apply (ollama_only_without_keys
           (Manager.environ [("AZURE_OPENAI_API_KEY", "az-1")])).
  reflexivity.
Defined.


(** ** Structured answers *)

(** X20. For a provider that is not handed to [instructor] (anthropic,
    ollama), [get_structured_response] runs the fallback inside its own
    [try]: when that run raises, the handler runs the fallback a second
    time, from the state the first run has left, and what the second
    run returns or raises is the result. *)
Theorem structured_fallback_runs_twice
    (lib : Json.Lib) (World T : Type) (client : Llm.Client World)
    (instructor : Instructor.Lib World T) (provider : Config.LLMProvider)
    (config_temperature : Q) (config_max_tokens : nat)
    (prompt : string) (system_prompt : option string)
    (response_model : option (Gateway.ResponseModel T))
    (temperature : option Q) (max_tokens : option nat) (w : World) :
  provider ∉ Instructor.openai_compatible_providers ->
  Instructor.import_instructor instructor = Py.Ok tt ->
  Instructor.get_structured_response lib client instructor provider
    config_temperature config_max_tokens prompt system_prompt response_model
    temperature max_tokens w
  = match Gateway._fallback_structured_response lib client prompt
            system_prompt response_model w with
    | (Py.Ok r, w1) => (Py.Ok r, w1)
    | (Py.Raise _, w1) =>
        Gateway._fallback_structured_response lib client prompt system_prompt
          response_model w1
    end.
Proof.
  intros Hp Hi.
  unfold Instructor.get_structured_response, Instructor.structured_body,
    Py.try_except, mbind, Py.M_bind, Py.lift.
  rewrite Hi. rewrite bool_decide_eq_false_2 by exact Hp. reflexivity.
Qed.

(** X21. Whatever [instructor] does, an exception leaves
    [get_structured_response] only as an exception of the fallback: a
    failure of the import, of the wrapping or of the structured call is
    never passed on, it starts the fallback. *)
Theorem structured_raises_only_from_fallback
    (lib : Json.Lib) (World T : Type) (client : Llm.Client World)
    (instructor : Instructor.Lib World T) (provider : Config.LLMProvider)
    (config_temperature : Q) (config_max_tokens : nat)
    (prompt : string) (system_prompt : option string)
    (response_model : option (Gateway.ResponseModel T))
    (temperature : option Q) (max_tokens : option nat) (w w' : World)
    (e : Py.exn) :
  Instructor.get_structured_response lib client instructor provider
    config_temperature config_max_tokens prompt system_prompt response_model
    temperature max_tokens w
  = (Py.Raise e, w') ->
  exists w1,
    Gateway._fallback_structured_response lib client prompt system_prompt
      response_model w1
    = (Py.Raise e, w').
Proof.
  unfold Instructor.get_structured_response, Py.try_except.
  destruct (Instructor.structured_body _ _ _ _ _ _ _ _ _ _ _ w)
    as [[r|e0] w1]; [discriminate|].
  intros H. exists w1. exact H.
Qed.


Lemma structured_fallback_runs_twice_witness :
  Instructor.get_structured_response Ref.lib Scripted.client
    Replies.instructor_rejecting Config.ANTHROPIC (7 # 10)%Q 4000
    "What is the answer?" None (Some Examples.answer_model) None None
    [Scripted.fails "overloaded"; Scripted.says Examples.bare_answer]
  = (Py.Ok (Gateway.Instance_ (Examples.MkAnswer "42")), []).
Proof.
  rewrite (structured_fallback_runs_twice Ref.lib _ _ Scripted.client
             Replies.instructor_rejecting Config.ANTHROPIC (7 # 10)%Q 4000
             "What is the answer?" None (Some Examples.answer_model)
             None None).
  - vm_compute. reflexivity.
  - apply (bool_decide_unpack _). vm_compute. reflexivity.
  - reflexivity.
Defined.

Lemma structured_raises_only_from_fallback_witness :
  exists w1,
    Gateway._fallback_structured_response Ref.lib Scripted.client
      "What is the answer?" None (Some Examples.answer_model) w1
    = (Py.Raise (Py.Exn "ConnectionError" "still overloaded"), []).
Proof.
  apply (structured_raises_only_from_fallback Ref.lib _ _ Scripted.client
           Replies.instructor_rejecting Config.QWEN (7 # 10)%Q 4000
           "What is the answer?" None (Some Examples.answer_model)
           None None
           [Scripted.fails "still overloaded"]).
  vm_compute. reflexivity.
Defined.


(** ** The client of a provider *)

Section ChatErrors.
Import Py Json Config Client.
Context {World : Type}.
Variable sdk : Sdk World.
Variable config : LLMConfig.
Variable format_provider : LLMProvider -> string.
Variable MONITORING_AVAILABLE : bool.
Variable log_llm_call : string -> option string -> option string ->
                        World -> World.

Lemma monitored_returns trace_id output error w :
  exists w', monitored MONITORING_AVAILABLE log_llm_call trace_id output
               error w = (Ok tt, w').
Proof.
  unfold monitored. destruct trace_id as [id|]; [|eauto].
  destruct (MONITORING_AVAILABLE && negb (is_empty id)); eauto.
Qed.

(** An exception of the provider's function is classified, and its
    class is what the caller gets. *)
Lemma chat_completion_raises request trace_id w e w1 :
  provider config <> ANTHROPIC ->
  _openai_chat_completion sdk config (chat_params config request) w
  = (Raise e, w1) ->
  fst (chat_completion sdk config format_provider MONITORING_AVAILABLE
         log_llm_call request trace_id w)
  = Raise (classified config format_provider e).
Proof.
  intros Hp Hc. unfold chat_completion, try_except, mbind, M_bind.
  cbv zeta. rewrite bool_decide_eq_false_2 by exact Hp. rewrite Hc.
  destruct (monitored_returns trace_id (Some EmptyString) (Some (exn_str e))
              w1) as [w' ->].
  reflexivity.
Qed.

Lemma openai_chat_completion_raises params w e w1 :
  chat_create sdk params w = (Raise e, w1) ->
  _openai_chat_completion sdk config params w
  = match provider config with
    | QWEN =>
        if contains "InvalidApiKey" (exn_str e)
        then (Raise (value_error
                       "Invalid Qwen API key. Please set DASHSCOPE_API_KEY"),
              w1)
        else if contains "ModelNotFound" (exn_str e)
        then (Raise (value_error ("Model " ++ model_name config
                                  ++ " not found for Qwen")), w1)
        else (Raise e, w1)
    | ZHIPU =>
        if contains "invalid_api_key" (exn_str e)
        then (Raise (value_error
                       "Invalid Zhipu AI API key. Please check your API key"),
              w1)
        else (Raise e, w1)
    | DEEPSEEK =>
        if contains "invalid_api_key" (exn_str e)
        then (Raise (value_error
                       "Invalid DeepSeek API key. Please check your API key"),
              w1)
        else (Raise e, w1)
    | OLLAMA =>
        if contains "Connection" (exn_str e)
        then (Raise (value_error
                       "Failed to connect to Ollama. Please make sure Ollama is running (ollama serve)"),
              w1)
        else (Raise e, w1)
    | _ => (Raise e, w1)
    end.
Proof.
  intros Hc. unfold _openai_chat_completion, try_except, mbind, M_bind.
  rewrite Hc. destruct (provider config); try reflexivity;
    repeat match goal with
      | |- context [if ?c then _ else _] => destruct c
      end; reflexivity.
Qed.

Lemma classified_plain e :
  contains "api_key" (lower (exn_str e)) = false ->
  contains "model" (lower (exn_str e)) = false ->
  contains "base_url" (lower (exn_str e)) = false ->
  contains "connection" (lower (exn_str e)) = false ->
  classified config format_provider e = e.
Proof.
  intros H1 H2 H3 H4. unfold classified. cbv zeta.
  rewrite H1, H2, H3, H4. reflexivity.
Qed.

End ChatErrors.

(** X22. With Qwen as provider, when the call of the library raises an
    exception whose text holds [InvalidApiKey], the message that
    [_openai_chat_completion] raises for Qwen, which names
    [DASHSCOPE_API_KEY], never reaches the caller of [chat_completion]:
    that text holds [api_key], and the caller gets the general API key
    error. *)
Theorem qwen_key_message_is_replaced
    (World : Type) (sdk : Client.Sdk World) (config : Client.LLMConfig)
    (format_provider : Config.LLMProvider -> string)
    (MONITORING_AVAILABLE : bool)
    (log_llm_call : string -> option string -> option string ->
                    World -> World)
    (request : Llm.Request) (trace_id : option string)
    (w w1 : World) (e : Py.exn) :
  Client.provider config = Config.QWEN ->
  Client.chat_create sdk (Client.chat_params config request) w
  = (Py.Raise e, w1) ->
  Py.contains "InvalidApiKey" (Py.exn_str e) = true ->
  fst (Client.chat_completion sdk config format_provider MONITORING_AVAILABLE
         log_llm_call request trace_id w)
  = Py.Raise (Client.value_error
                ("API key error (" ++ format_provider Config.QWEN
                 ++ "): Please check your API key")).
Proof.
  intros Hp Hc He.
  rewrite (chat_completion_raises sdk config format_provider
             MONITORING_AVAILABLE log_llm_call request trace_id w
             (Client.value_error
                "Invalid Qwen API key. Please set DASHSCOPE_API_KEY") w1).
  - unfold Client.classified. rewrite Hp. reflexivity.
  - rewrite Hp. discriminate.
  - rewrite (openai_chat_completion_raises sdk config _ w e w1 Hc), Hp, He.
    reflexivity.
Qed.

(** X23. The messages that [_openai_chat_completion] raises for Zhipu,
    DeepSeek and Ollama do reach the caller of [chat_completion]
    unchanged: none of them holds a text that [chat_completion] looks
    for, although the exception they replace may. *)
Theorem provider_message_reaches_caller
    (World : Type) (sdk : Client.Sdk World) (config : Client.LLMConfig)
    (format_provider : Config.LLMProvider -> string)
    (MONITORING_AVAILABLE : bool)
    (log_llm_call : string -> option string -> option string ->
                    World -> World)
    (request : Llm.Request) (trace_id : option string)
    (w w1 : World) (e : Py.exn) (marker message : string) :
  (Client.provider config, (marker, message)) ∈ Client.provider_messages ->
  Client.provider config <> Config.QWEN ->
  Client.chat_create sdk (Client.chat_params config request) w
  = (Py.Raise e, w1) ->
  Py.contains marker (Py.exn_str e) = true ->
  fst (Client.chat_completion sdk config format_provider MONITORING_AVAILABLE
         log_llm_call request trace_id w)
  = Py.Raise (Client.value_error message).
Proof.
  intros Hin Hq Hc He.
  assert (Hcases :
    (Client.provider config = Config.ZHIPU /\ marker = "invalid_api_key"
     /\ message = "Invalid Zhipu AI API key. Please check your API key")
    \/ (Client.provider config = Config.DEEPSEEK
        /\ marker = "invalid_api_key"
        /\ message = "Invalid DeepSeek API key. Please check your API key")
    \/ (Client.provider config = Config.OLLAMA /\ marker = "Connection"
        /\ message = "Failed to connect to Ollama. Please make sure Ollama is running (ollama serve)")).
  { unfold Client.provider_messages in Hin.
    repeat (apply elem_of_cons in Hin as [Hin|Hin]);
      [inversion Hin; congruence|inversion Hin; auto..|].
    apply elem_of_nil in Hin. contradiction. }
  rewrite (chat_completion_raises sdk config format_provider
             MONITORING_AVAILABLE log_llm_call request trace_id w
             (Client.value_error message) w1).
  - destruct Hcases as [[Hp [-> ->]]|[[Hp [-> ->]]|[Hp [-> ->]]]];
      f_equal; apply classified_plain; vm_compute; reflexivity.
  - destruct Hcases as [[Hp _]|[[Hp _]|[Hp _]]]; rewrite Hp; discriminate.
  - rewrite (openai_chat_completion_raises sdk config _ w e w1 Hc).
    destruct Hcases as [[Hp [-> ->]]|[[Hp [-> ->]]|[Hp [-> ->]]]];
      rewrite Hp, He; reflexivity.
Qed.


Lemma qwen_key_message_is_replaced_witness :
  fst (Client.chat_completion
         (Replies.sdk_failing
            (Py.Exn "AuthenticationError" "Error code: 401 - InvalidApiKey"))
         (Replies.config_of Config.QWEN "qwen-turbo") Config.provider_value
         false (fun _ _ _ w => w) Replies.hello_request None tt)
  = Py.Raise (Client.value_error
                ("API key error (" ++ Config.provider_value Config.QWEN
                 ++ "): Please check your API key")).
Proof.
  apply (qwen_key_message_is_replaced unit
           (Replies.sdk_failing
              (Py.Exn "AuthenticationError" "Error code: 401 - InvalidApiKey"))
           (Replies.config_of Config.QWEN "qwen-turbo") Config.provider_value
           false (fun _ _ _ w => w) Replies.hello_request None tt tt
           (Py.Exn "AuthenticationError" "Error code: 401 - InvalidApiKey"));
    reflexivity.
Defined.

Lemma provider_message_reaches_caller_witness :
  fst (Client.chat_completion
         (Replies.sdk_failing
            (Py.Exn "AuthenticationError" "401 invalid_api_key"))
         (Replies.config_of Config.ZHIPU "glm-4") Config.provider_value
         false (fun _ _ _ w => w) Replies.hello_request None tt)
  = Py.Raise (Client.value_error
                "Invalid Zhipu AI API key. Please check your API key").
Proof.
  apply (provider_message_reaches_caller unit
           (Replies.sdk_failing
              (Py.Exn "AuthenticationError" "401 invalid_api_key"))
           (Replies.config_of Config.ZHIPU "glm-4") Config.provider_value
           false (fun _ _ _ w => w) Replies.hello_request None tt tt
           (Py.Exn "AuthenticationError" "401 invalid_api_key")
           "invalid_api_key").
  - apply (bool_decide_unpack _). vm_compute. reflexivity.
  - discriminate.
  - reflexivity.
  - reflexivity.
Defined.

Section SystemMessages.
Import Py Json Config Client.

Lemma split_system_fold l system_message converted_messages :
  fold_left
    (fun '(system_message, converted_messages) msg =>
       if is_system msg then (Some (Llm.content msg), converted_messages)
       else (system_message, (converted_messages ++ [msg])%list))
    l (system_message, converted_messages)
  = (match last (List.filter is_system l) with
     | Some m => Some (Llm.content m)
     | None => system_message
     end,
     (converted_messages
      ++ List.filter (fun m => negb (is_system m)) l)%list).
Proof.
  revert system_message converted_messages.
  induction l as [|m l IH]; intros sys conv.
  - cbn. rewrite app_nil_r. reflexivity.
  - cbn [fold_left List.filter]. destruct (is_system m) eqn:E; cbn [negb].
    + rewrite IH, last_cons.
      destruct (last (List.filter is_system l)); reflexivity.
    + rewrite IH, <- app_assoc. reflexivity.
Qed.

End SystemMessages.

(** X24. What [_anthropic_chat_completion] sends: the messages of the
    request without those of role [system], in their order, and as
    [system] the content of the last system message of the request; the
    system messages before the last one are sent nowhere, and a last
    system message that is empty sets no [system] at all. *)
Theorem anthropic_keeps_last_system_message
    (config : Client.LLMConfig) (request : Llm.Request) :
  Client.a_messages (Client.message_params config request)
  = List.filter (fun m => negb (Client.is_system m)) (Llm.messages request)
  /\ Client.a_system (Client.message_params config request)
     = match last (List.filter Client.is_system (Llm.messages request)) with
       | Some m => if Py.is_empty (Llm.content m) then None
                   else Some (Llm.content m)
       | None => None
       end.
Proof.
  unfold Client.message_params, Client.split_system.
  rewrite split_system_fold. cbn [Client.a_messages Client.a_system app].
  split; [reflexivity|].
  destruct (last (List.filter Client.is_system (Llm.messages request)))
    as [m|]; [|reflexivity].
  cbn [Py.truthy]. destruct (Py.is_empty (Llm.content m)); reflexivity.
Qed.


(** ** The search agent and the background task *)

Section SearchFailure.
Import Py Json Tasks Staircase DeepSearch.
Variable lib : Lib.
Variable env : Tasks.Env.
Hypothesis no_commit_fault : forall t row, commit_fault env t row = None.

Lemma assign_run f p t :
  assign f (MkRun (Some p) t) = (Ok tt, MkRun (Some (f p)) t).
Proof. reflexivity. Qed.

Lemma commit_run p t :
  commit env (MkRun (Some p) t)
  = (Ok tt, MkRun (Some p) (t ++ [Committed p])).
Proof.
  unfold commit, mbind, M_bind, the_project, get. cbn.
  rewrite no_commit_fault. reflexivity.
Qed.

Lemma send_run msg P t :
  send_personal_message env msg (MkRun P t)
  = (Ok tt, MkRun P (t ++ sent env t msg)).
Proof.
  unfold send_personal_message, sent, mbind, M_bind, get. cbn.
  destruct (delivers env t msg); cbn; [reflexivity|].
  rewrite app_nil_r. reflexivity.
Qed.

Lemma committed_app t u :
  committed (t ++ u) = (committed t ++ committed u)%list.
Proof. apply omap_app. Qed.

Lemma committed_sent t msg : committed (sent env t msg) = [].
Proof. unfold sent. destruct (delivers env t msg); reflexivity. Qed.

Variable process_query : Project -> Result SearchResult.
Variable e : exn.
Variable project_id user_id : Z.
Hypothesis agents_start : init_agents env = None.
Hypothesis search_is_agent :
  forall q, Tasks.search env q = DeepSearch.search process_query q.
Hypothesis coordinator_raises : forall q, process_query q = Raise e.

(** The [try] block up to the exception that the check of the result
    raises. *)
Lemma steps_until_check p :
  exists t p',
    generate_document_steps lib env project_id user_id (MkRun (Some p) [])
    = (Raise (Exn "Exception" (exn_str e)), MkRun (Some p') t)
    /\ status p' = PROCESSING /\ progress p' = 60%Z
    /\ progress <$> committed t = [0; 10; 20; 60]%Z
    /\ status <$> committed t
       = [PROCESSING; PROCESSING; PROCESSING; PROCESSING].
Proof.
  unfold generate_document_steps, send_progress_update.
  unfold mbind, M_bind.
  repeat (rewrite ?assign_run, ?commit_run, ?send_run; cbv beta iota).
  rewrite agents_start. unfold mret, M_ret. cbv beta iota.
  repeat (rewrite ?assign_run, ?commit_run, ?send_run; cbv beta iota).
  unfold the_project. cbn [project]. cbv beta iota.
  rewrite search_is_agent. unfold DeepSearch.search.
  rewrite coordinator_raises. unfold lift. cbv beta iota.
  repeat (rewrite ?assign_run, ?commit_run, ?send_run; cbv beta iota).
  cbn [error_result r_status r_error].
  change (String.eqb "error" "success") with false. cbv beta iota.
  unfold raise. eexists. eexists. split; [reflexivity|].
  split; [reflexivity|]. split; [reflexivity|].
  rewrite !committed_app, !committed_sent. split; reflexivity.
Qed.

Lemma on_failure_run e' p t :
  exists t',
    on_failure env project_id user_id e' (MkRun (Some p) t)
    = (Ok tt,
       MkRun (Some (set_updated_at (Some (utcnow env))
                      (set_error_message (Some (exn_str e'))
                         (set_status FAILED p))))
             t')
    /\ committed t'
       = (committed t
          ++ [set_updated_at (Some (utcnow env))
                (set_error_message (Some (exn_str e'))
                   (set_status FAILED p))])%list.
Proof.
  unfold on_failure, send_error_notification. unfold mbind, M_bind.
  repeat (rewrite ?assign_run, ?commit_run, ?send_run; cbv beta iota).
  eexists. split; [reflexivity|].
  rewrite !committed_app, committed_sent, app_nil_r. reflexivity.
Qed.

End SearchFailure.


(** X25. When the search agent stands between the task and the
    coordinator, an exception of the coordinator does not stop the task
    where it happens: [search] returns it as a result, the task commits
    and reports progress 60, and only the check that follows fails.
    The row committed last is then FAILED at progress 60 with the text
    of the coordinator's exception as its error message, and the task
    itself raises nothing. *)
Theorem coordinator_failure_recorded_at_60
    (lib : Json.Lib) (env : Tasks.Env) (project_id user_id : Z)
    (p : Tasks.Project)
    (process_query : Tasks.Project -> Py.Result Tasks.SearchResult)
    (e : Py.exn) :
  Tasks.first_project env = Py.Ok (Some p) ->
  Tasks.init_agents env = None ->
  (forall t row, Tasks.commit_fault env t row = None) ->
  (forall q, Tasks.search env q = DeepSearch.search process_query q) ->
  (forall q, process_query q = Py.Raise e) ->
  let run := Tasks.generate_document_task lib env project_id user_id
               Staircase.start in
  fst run = Py.Ok tt
  /\ Tasks.progress <$> DeepSearch.committed (Tasks.trace (snd run))
     = [0; 10; 20; 60; 60]%Z
  /\ Tasks.status <$> DeepSearch.committed (Tasks.trace (snd run))
     = [Tasks.PROCESSING; Tasks.PROCESSING; Tasks.PROCESSING;
        Tasks.PROCESSING; Tasks.FAILED]
  /\ Tasks.error_message <$> last (DeepSearch.committed
                                     (Tasks.trace (snd run)))
     = Some (Some (Py.exn_str e)).
Proof.
  intros Hp Hi Hc Hs Hq run. subst run.
  unfold Tasks.generate_document_task, Py.try_finally, Py.try_except,
    mbind, Py.M_bind, Tasks.load_project.
  rewrite Hp. cbn [Staircase.start Tasks.trace].
  destruct (steps_until_check lib env Hc process_query e project_id user_id
              Hi Hs Hq p) as [t [p' [-> [Hst [Hpr [Hps Hss]]]]]].
  destruct (on_failure_run env Hc project_id user_id
              (Py.Exn "Exception" (Py.exn_str e)) p' t) as [t' [-> Ht']].
  unfold mret, Py.M_ret. cbn [fst snd Tasks.trace].
  split; [reflexivity|]. rewrite Ht', !fmap_app, Hps, Hss, last_snoc.
  cbn. rewrite Hpr. repeat split.
Qed.


Lemma coordinator_failure_recorded_at_60_witness :
  let run := Tasks.generate_document_task Ref.lib
               Replies.env_coordinator_raises 7 1 Staircase.start in
  fst run = Py.Ok tt
  /\ Tasks.progress <$> DeepSearch.committed (Tasks.trace (snd run))
     = [0; 10; 20; 60; 60]%Z
  /\ Tasks.status <$> DeepSearch.committed (Tasks.trace (snd run))
     = [Tasks.PROCESSING; Tasks.PROCESSING; Tasks.PROCESSING;
        Tasks.PROCESSING; Tasks.FAILED]
  /\ Tasks.error_message <$> last (DeepSearch.committed
                                     (Tasks.trace (snd run)))
     = Some (Some "no search engine").
Proof.
  apply (coordinator_failure_recorded_at_60 Ref.lib
           Replies.env_coordinator_raises 7 1 Examples.pets_project
           (fun _ => Py.Raise (Py.Exn "RuntimeError" "no search engine"))
           (Py.Exn "RuntimeError" "no search engine"));
    reflexivity.
Defined.


(** ** What the prompts read *)

(** X26. [generate_page_html] reads no more than the first 1000
    characters (code points, not bytes) of [content_data]: two runs
    whose content data agree on that prefix make the same calls and
    return the same result, notes included, since the request for the
    notes holds nothing of the content data. *)
Theorem page_reads_content_prefix
    (lib : Json.Lib) (World : Type) (llm_client : Llm.Client World)
    (css_guide : string) (page_spec : Page.PageSpec)
    (global_context : Page.GlobalContext) (content_data other_data : string)
    (w : World) :
  Py.take_chars 1000 content_data = Py.take_chars 1000 other_data ->
  Page.generate_page_html lib llm_client css_guide page_spec global_context
    content_data w
  = Page.generate_page_html lib llm_client css_guide page_spec global_context
      other_data w.
Proof.
  intros H.
  assert (P : Page._build_prompt lib css_guide page_spec global_context
                content_data
              = Page._build_prompt lib css_guide page_spec global_context
                  other_data).
  { unfold Page._build_prompt. rewrite H. reflexivity. }
  unfold Page.generate_page_html. rewrite P. reflexivity.
Qed.

Lemma page_reads_content_prefix_witness :
  Page.generate_page_html Ref.lib Scripted.client "/* css */"
    Examples.opening_page Examples.keynote_context
    (Replies.filler ++ " and cats")
    [Scripted.says "<div>Cats</div>"; Scripted.says "Welcome"]
  = Page.generate_page_html Ref.lib Scripted.client "/* css */"
      Examples.opening_page Examples.keynote_context
      (Replies.filler ++ " and dogs")
      [Scripted.says "<div>Cats</div>"; Scripted.says "Welcome"].
Proof.
  apply (page_reads_content_prefix Ref.lib _ Scripted.client "/* css */"
           Examples.opening_page Examples.keynote_context
           (Replies.filler ++ " and cats") (Replies.filler ++ " and dogs")).
  vm_compute. reflexivity.
Defined.

(** X27. [generate_design_spec] reads no more of the outline than the
    first five entries of its list of pages: two outlines whose lists
    agree on them lead to the same request and so to the same outcome,
    whatever the later pages and the other members of the outlines
    are. *)
Theorem design_reads_first_pages
    (lib : Json.Lib) (World : Type) (llm_client : Llm.Client World)
    (topic : string) (outline other : Design.Outline) (style : string)
    (pages other_pages : list Json.value) (w : World) :
  Json.lookup "pages" outline = Some (Json.JArr pages) ->
  Json.lookup "pages" other = Some (Json.JArr other_pages) ->
  take 5 pages = take 5 other_pages ->
  Design.generate_design_spec lib llm_client topic outline style w
  = Design.generate_design_spec lib llm_client topic other style w.
Proof.
  intros H1 H2 H.
  assert (P : Design._build_design_prompt topic outline style
              = Design._build_design_prompt topic other style).
  { unfold Design._build_design_prompt, Design.page_topics.
    rewrite H1, H2. unfold default, id. cbv beta iota. rewrite H.
    reflexivity. }
  unfold Design.generate_design_spec. rewrite P. reflexivity.
Qed.

Lemma design_reads_first_pages_witness :
  Design.generate_design_spec Ref.lib Scripted.client "Pets"
    [("pages", Json.JArr (Replies.six_pages "Thanks"))] "ted"
    [Scripted.says Examples.loose_design_text]
  = Design.generate_design_spec Ref.lib Scripted.client "Pets"
      [("title", Json.JStr "Pets");
       ("pages", Json.JArr (Replies.six_pages "Questions"))] "ted"
      [Scripted.says Examples.loose_design_text].
Proof.
  apply (design_reads_first_pages Ref.lib _ Scripted.client "Pets"
           [("pages", Json.JArr (Replies.six_pages "Thanks"))]
           [("title", Json.JStr "Pets");
            ("pages", Json.JArr (Replies.six_pages "Questions"))] "ted"
           (Replies.six_pages "Thanks") (Replies.six_pages "Questions"));
    reflexivity.
Defined.


(** ** The configurations and clients of the manager *)

Section RegistryInvariants.
Import Py Config Client Registry.
Variable OPENAI_AVAILABLE ANTHROPIC_AVAILABLE : bool.
Variable library_fault : LLMProvider -> string -> option string -> option exn.
Variable format_provider : LLMProvider -> string.
Variable repr : string -> string.

Local Abbreviation init :=
  (LLMClient_init OPENAI_AVAILABLE ANTHROPIC_AVAILABLE library_fault
     format_provider).
Local Abbreviation coherent' :=
  (coherent OPENAI_AVAILABLE ANTHROPIC_AVAILABLE library_fault
     format_provider).
Local Abbreviation after :=
  (after_call OPENAI_AVAILABLE ANTHROPIC_AVAILABLE library_fault
     format_provider repr).

Lemma coherent_put m name config client :
  coherent' m -> configs m !! name = Some config -> init config = Ok client ->
  coherent' (MkLLMManager (configs m) (<[name := client]> (clients m))).
Proof.
  intros Hm Hc Hi n c. cbn [configs clients].
  destruct (decide (name = n)) as [->|Hne].
  - rewrite lookup_insert_eq. intros [= ->]. eauto.
  - rewrite lookup_insert_ne by exact Hne. apply Hm.
Qed.

Lemma coherent_set m name config :
  coherent' m ->
  coherent' (MkLLMManager (<[name := config]> (configs m))
                          (delete name (clients m))).
Proof.
  intros Hm n c. cbn [configs clients].
  destruct (decide (name = n)) as [->|Hne].
  - rewrite lookup_delete_eq. discriminate.
  - rewrite lookup_delete_ne, lookup_insert_ne by exact Hne. apply Hm.
Qed.

Lemma coherent_drop m name :
  coherent' m ->
  coherent' (MkLLMManager (delete name (configs m))
                          (delete name (clients m))).
Proof.
  intros Hm n c. cbn [configs clients].
  destruct (decide (name = n)) as [->|Hne].
  - rewrite lookup_delete_eq. discriminate.
  - rewrite !lookup_delete_ne by exact Hne. apply Hm.
Qed.

Lemma coherent_after_call m c : coherent' m -> coherent' (after m c).
Proof.
  intros Hm. destruct c as [n|n|n config|n updated|n]; cbn [after_call].
  - unfold get_client, mbind, M_bind, get.
    destruct (clients m !! n); [exact Hm|].
    destruct (configs m !! _) as [config|] eqn:Ec; [|exact Hm].
    unfold lift. destruct (init config) as [client|e] eqn:Ei; [|exact Hm].
    cbn. eapply coherent_put; eassumption.
  - unfold get_config, mbind, M_bind, get.
    destruct (configs m !! _); exact Hm.
  - apply coherent_set, Hm.
  - unfold update_config, mbind, M_bind, get.
    destruct (configs m !! n); [|exact Hm].
    unfold lift. destruct (updated l); [|exact Hm].
    cbn. apply coherent_set, Hm.
  - unfold remove_config. destruct (String.eqb n "default"); [exact Hm|].
    apply coherent_drop, Hm.
Qed.

Lemma coherent_after_calls calls m :
  coherent' m ->
  coherent' (after_calls OPENAI_AVAILABLE ANTHROPIC_AVAILABLE library_fault
    format_provider
               repr m calls).
Proof.
  revert m. induction calls as [|c calls IH]; intros m Hm; [exact Hm|].
  apply IH, coherent_after_call, Hm.
Qed.

Lemma default_after_call m c :
  is_Some (configs m !! "default") ->
  is_Some (configs (after m c) !! "default").
Proof.
  intros Hm. destruct c as [n|n|n config|n updated|n]; cbn [after_call].
  - unfold get_client, mbind, M_bind, get.
    destruct (clients m !! n); [exact Hm|].
    match goal with
    | |- context [match configs m !! ?k with _ => _ end] =>
        destruct (configs m !! k) as [config|]
    end; [|exact Hm].
    unfold lift. destruct (init config); exact Hm.
  - unfold get_config, mbind, M_bind, get.
    match goal with
    | |- context [match configs m !! ?k with _ => _ end] =>
        destruct (configs m !! k)
    end; exact Hm.
  - cbn. destruct (decide (n = "default")) as [->|Hne].
    + rewrite lookup_insert_eq. eauto.
    + rewrite lookup_insert_ne by exact Hne. exact Hm.
  - unfold update_config, mbind, M_bind, get.
    destruct (configs m !! n); [|exact Hm].
    unfold lift. destruct (updated l); [|exact Hm]. cbn.
    destruct (decide (n = "default")) as [->|Hne].
    + rewrite lookup_insert_eq. eauto.
    + rewrite lookup_insert_ne by exact Hne. exact Hm.
  - unfold remove_config. destruct (String.eqb_spec n "default"); [exact Hm|].
    cbn. rewrite lookup_delete_ne by assumption. exact Hm.
Qed.

Lemma default_after_calls calls m :
  is_Some (configs m !! "default") ->
  is_Some (configs (after_calls OPENAI_AVAILABLE ANTHROPIC_AVAILABLE
                      library_fault format_provider repr m calls) !! "default").
Proof.
  revert m. induction calls as [|c calls IH]; intros m Hm; [exact Hm|].
  apply IH, default_after_call, Hm.
Qed.

End RegistryInvariants.

(** X28. [get_client] never returns a client made from an outdated
    configuration.  Starting from a manager whose clients match their
    configurations (one without clients, say), after any calls of
    [get_client], [get_config], [add_config], [update_config] and
    [remove_config], whether they returned or raised, the client that
    [get_client] returns is the client of the configuration now kept
    under the name asked for, or under [default] when there is none. *)
Theorem returned_client_is_current
    (OPENAI_AVAILABLE ANTHROPIC_AVAILABLE : bool)
    (library_fault : Config.LLMProvider -> string -> option string ->
                     option Py.exn)
    (format_provider : Config.LLMProvider -> string)
    (repr : string -> string)
    (m0 : Registry.LLMManager) (calls : list Registry.Call)
    (config_name : string) (client : Registry.LLMClient)
    (m' : Registry.LLMManager) :
  Registry.coherent OPENAI_AVAILABLE ANTHROPIC_AVAILABLE library_fault
    format_provider m0 ->
  let m := Registry.after_calls OPENAI_AVAILABLE ANTHROPIC_AVAILABLE
             library_fault format_provider repr m0 calls in
  Registry.get_client OPENAI_AVAILABLE ANTHROPIC_AVAILABLE library_fault
    format_provider
    repr config_name m = (Py.Ok client, m') ->
  exists config,
    Registry.configs m
      !! (if bool_decide (is_Some (Registry.configs m !! config_name))
          then config_name else "default")
    = Some config
    /\ Registry.LLMClient_init OPENAI_AVAILABLE ANTHROPIC_AVAILABLE
         library_fault format_provider config
       = Py.Ok client.
Proof.
  intros H0 m.
  pose proof (coherent_after_calls OPENAI_AVAILABLE ANTHROPIC_AVAILABLE
                library_fault format_provider repr calls m0 H0) as Hm.
  fold m in Hm. clearbody m.
  unfold Registry.get_client, mbind, Py.M_bind, Py.get.
  destruct (Registry.clients m !! config_name) as [c|] eqn:Ec.
  - intros [= -> ->]. destruct (Hm _ _ Ec) as [config [Hc Hi]].
    exists config. rewrite bool_decide_eq_true_2 by (rewrite Hc; eauto).
    auto.
  - destruct (Registry.configs m !! _) as [config|] eqn:Eg; [|discriminate].
    unfold Py.lift.
    destruct (Registry.LLMClient_init _ _ _ _ config) as [c|e] eqn:Ei;
      [|discriminate].
    cbn. intros [= -> _]. eauto.
Qed.

(** X29. The configuration [default] cannot get lost: when it is there
    at the start it is there after any calls of the methods, since
    [remove_config] refuses to remove it; so [get_config] returns a
    configuration for every name and never raises. *)
Theorem get_config_never_raises
    (OPENAI_AVAILABLE ANTHROPIC_AVAILABLE : bool)
    (library_fault : Config.LLMProvider -> string -> option string ->
                     option Py.exn)
    (format_provider : Config.LLMProvider -> string)
    (repr : string -> string)
    (m0 : Registry.LLMManager) (calls : list Registry.Call)
    (config_name : string) :
  is_Some (Registry.configs m0 !! "default") ->
  let m := Registry.after_calls OPENAI_AVAILABLE ANTHROPIC_AVAILABLE
             library_fault format_provider repr m0 calls in
  exists config,
    Registry.get_config repr config_name m = (Py.Ok config, m).
Proof.
  intros H0 m.
  pose proof (default_after_calls OPENAI_AVAILABLE ANTHROPIC_AVAILABLE
                library_fault format_provider repr calls m0 H0) as Hm.
  fold m in Hm. clearbody m.
  unfold Registry.get_config, mbind, Py.M_bind, Py.get. cbv zeta.
  destruct (bool_decide (is_Some (Registry.configs m !! config_name)))
    eqn:Eb.
  - apply bool_decide_eq_true_1 in Eb as [config Hc]. rewrite Hc. eauto.
  - destruct Hm as [config Hc]. rewrite Hc. eauto.
Qed.


Lemma returned_client_is_current_witness :
  let m := Registry.after_calls true true (fun _ _ _ => None) Config.provider_value Py.quoted
             Replies.fresh_manager Replies.switch_to_qwen in
  exists config,
    Registry.configs m
      !! (if bool_decide (is_Some (Registry.configs m !! "default"))
          then "default" else "default")
    = Some config
    /\ Registry.LLMClient_init true true (fun _ _ _ => None) Config.provider_value config
       = Py.Ok (Registry.MkLLMClient
                  (Replies.config_of Config.QWEN "qwen-turbo") "sk-1"
                  (Some "https://dashscope.aliyuncs.com/compatible-mode/v1")).
Proof.
  eapply (returned_client_is_current true true (fun _ _ _ => None) Config.provider_value
            Py.quoted Replies.fresh_manager Replies.switch_to_qwen
            "default").
  - intros name client H. discriminate H.
  - vm_compute. reflexivity.
Defined.

Lemma get_config_never_raises_witness :
  let m := Registry.after_calls true true (fun _ _ _ => None) Config.provider_value Py.quoted
             Replies.fresh_manager Replies.switch_to_qwen in
  exists config,
    Registry.get_config Py.quoted "search_analyzer" m = (Py.Ok config, m).
Proof.
  apply (get_config_never_raises true true (fun _ _ _ => None) Config.provider_value Py.quoted
           Replies.fresh_manager Replies.switch_to_qwen "search_analyzer").
  vm_compute. eauto.
Defined.


Section ClientKeys.
Import Py Config Client Registry.

Lemma truthy_or_empty o :
  truthy o = true -> o = Some (or_empty o) /\ or_empty o <> EmptyString.
Proof.
  destruct o as [[|c s]|]; cbn; try discriminate. intros _.
  split; [reflexivity|discriminate].
Qed.

Lemma library_client_ok library_fault config key url client :
  library_client library_fault config key url = Ok client ->
  client = MkLLMClient config key url.
Proof.
  unfold library_client.
  destruct (library_fault (provider config) key url); [discriminate|].
  intros [= <-]. reflexivity.
Qed.

End ClientKeys.

(** X30. [LLMClient] is made only with a key: when making the client
    does not raise, the client holds the configuration it was made
    from, and the key its library client got is the one of the
    configuration, which is not empty; only ollama gets the fixed key
    [ollama], whatever the configuration holds. *)
Theorem client_is_made_with_key
    (OPENAI_AVAILABLE ANTHROPIC_AVAILABLE : bool)
    (library_fault : Config.LLMProvider -> string -> option string ->
                     option Py.exn)
    (format_provider : Config.LLMProvider -> string)
    (config : Client.LLMConfig) (client : Registry.LLMClient) :
  Registry.LLMClient_init OPENAI_AVAILABLE ANTHROPIC_AVAILABLE library_fault
    format_provider config = Py.Ok client ->
  Registry.client_config client = config
  /\ if bool_decide (Client.provider config = Config.OLLAMA)
     then Registry.client_api_key client = "ollama"
     else Client.api_key config = Some (Registry.client_api_key client)
          /\ Registry.client_api_key client <> EmptyString.
Proof.
  unfold Registry.LLMClient_init, Registry._initialize_openai,
    Registry._initialize_azure_openai, Registry._initialize_anthropic,
    Registry._initialize_openai_compatible, mbind, Py.Result_bind, Py.rbind.
  destruct (Client.provider config) eqn:Ep;
    rewrite ?bool_decide_eq_true_2 by reflexivity;
    rewrite ?bool_decide_eq_false_2 by discriminate;
    destruct OPENAI_AVAILABLE, ANTHROPIC_AVAILABLE; cbn [negb];
    try discriminate;
    destruct (Py.truthy (Client.api_key config)) eqn:Ek; cbn [negb];
    try discriminate;
    try (destruct (Py.truthy (Client.azure_deployment config));
         cbn [negb]; try discriminate);
    try (destruct (Client.base_url config) as [url|] eqn:Eu;
         try discriminate);
    repeat match goal with
      | |- context [if ?c then _ else _] => destruct c
      end;
    cbn [Registry.default_base_url];
    try discriminate;
    intros H; apply library_client_ok in H; subst client;
    cbn [Registry.client_config Registry.client_api_key];
    (split; [reflexivity|]);
    try reflexivity; apply truthy_or_empty, Ek.
Qed.

Lemma client_is_made_with_key_witness :
  Registry.client_config
    (Registry.MkLLMClient (Replies.config_of Config.OLLAMA "llama3")
       "ollama" (Some "http://localhost:11434/v1"))
  = Replies.config_of Config.OLLAMA "llama3"
  /\ if bool_decide (Client.provider (Replies.config_of Config.OLLAMA "llama3")
                     = Config.OLLAMA)
     then Registry.client_api_key
            (Registry.MkLLMClient (Replies.config_of Config.OLLAMA "llama3")
               "ollama" (Some "http://localhost:11434/v1"))
          = "ollama"
     else Client.api_key (Replies.config_of Config.OLLAMA "llama3")
          = Some (Registry.client_api_key
                    (Registry.MkLLMClient
                       (Replies.config_of Config.OLLAMA "llama3")
                       "ollama" (Some "http://localhost:11434/v1")))
          /\ Registry.client_api_key
               (Registry.MkLLMClient
                  (Replies.config_of Config.OLLAMA "llama3")
                  "ollama" (Some "http://localhost:11434/v1"))
             <> EmptyString.
Proof.
  apply (client_is_made_with_key true true (fun _ _ _ => None) Config.provider_value
           (Replies.config_of Config.OLLAMA "llama3")).
  vm_compute. reflexivity.
Defined.
